(** * gorouter: connection-error classifiers and the varz metrics aggregator

    A shallow embedding of the two Go sources of the repository:
    - package [error_classifiers]: seven predicates over Go [error] values;
    - package [router], file varz.go: the [Varz] statistics aggregator.

    Go code that can panic is embedded as a function into [outcome]; Go
    pointers are locations of an explicit store, so that cell identity and
    aliasing are visible in the statements. *)

From stdpp Require Import base option strings list gmap fin_maps sorting.
From Stdlib Require Import ZArith QArith Qround Lqa Lia.

Open Scope Z_scope.

(** ** Results of Go calls *)

(** A Go call either returns a value or panics (nil dereference, method call
    on a nil interface, integer division by zero). *)
Inductive outcome (A : Type) : Type :=
| Returns (a : A)
| Panics.
Arguments Returns {A} a.
Arguments Panics {A}.

Definition outcome_bind {A B : Type} (x : outcome A) (k : A -> outcome B) : outcome B :=
  match x with
  | Returns a => k a
  | Panics => Panics
  end.

Notation "'do' x <- e ; k" := (outcome_bind e (fun x => k))
  (at level 10, x pattern, e at level 100, k at level 200).

(** [*p]: dereferencing a pointer; a nil pointer panics. *)
Definition deref {A : Type} (p : option A) : outcome A :=
  match p with
  | Some a => Returns a
  | None => Panics
  end.

(** Go's short-circuit [a && b]: [b] is evaluated only when [a] is true. *)
Definition and_then (a b : outcome bool) : outcome bool :=
  match a with
  | Returns true => b
  | Returns false => Returns false
  | Panics => Panics
  end.
Infix "&&&" := and_then (at level 40, left associativity).

(** ** Package error_classifiers *)

Module error_classifiers.

(** The struct types of crypto/tls and crypto/x509 that the classifiers name.
    The classifiers never look inside them; only their [Error] methods
    (value receivers) can be reached, through [net.OpError.Err].
    [tls.RecordHeaderError.Error] joins two strings.  The two methods of
    crypto/x509 read through pointer fields of the struct
    ([HostnameError.Certificate], [UnknownAuthorityError.hintCert]) and panic
    when the field is nil. *)
Class StdErrors : Type := {
  RecordHeaderError : Type;
  HostnameError : Type;
  UnknownAuthorityError : Type;
  RecordHeaderError_Error : RecordHeaderError -> string;
  HostnameError_Error : HostnameError -> outcome string;
  UnknownAuthorityError_Error : UnknownAuthorityError -> outcome string
}.

Section Classifiers.
Context {std : StdErrors}.

(** A value of interface type [error]: the nil interface, or a value of some
    dynamic type.  A pointer is [None] when nil.  [net.OpError] by value has
    no [Error] method in Go (the receiver is a pointer), so the Go type
    checker never lets [val_OpError] reach a classifier; it is kept so that
    the by-value form can be spoken about.  [other_error T msg] is a value of
    any other concrete type [T] whose [Error] method yields [msg]. *)
Inductive error : Type :=
| nil
| ptr_OpError (p : option OpError)
| val_OpError (v : OpError)
| val_RecordHeaderError (v : RecordHeaderError)
| ptr_RecordHeaderError (p : option RecordHeaderError)
| val_HostnameError (v : HostnameError)
| ptr_HostnameError (p : option HostnameError)
| val_UnknownAuthorityError (v : UnknownAuthorityError)
| ptr_UnknownAuthorityError (p : option UnknownAuthorityError)
| other_error (T : string) (msg : outcome string)
with OpError : Type :=
| mkOpError (Op Net : string) (Source Addr : option string) (Err : error).

Definition Op (o : OpError) : string := let 'mkOpError op _ _ _ _ := o in op.
Definition Net (o : OpError) : string := let 'mkOpError _ n _ _ _ := o in n.
Definition Source (o : OpError) : option string := let 'mkOpError _ _ s _ _ := o in s.
Definition Addr (o : OpError) : option string := let 'mkOpError _ _ _ a _ := o in a.
Definition Err (o : OpError) : error := let 'mkOpError _ _ _ _ e := o in e.

(** The text that the [Error] method of [*net.OpError] puts before the underlying message. *)
Definition OpError_prefix (op net : string) (source addr : option string) : string :=
  let s := op in
  let s := if String.eqb net "" then s else s +:+ " " +:+ net in
  let s := match source with Some a => s +:+ " " +:+ a | None => s end in
  let s := match addr with
           | Some a => (match source with Some _ => s +:+ "->" | None => s +:+ " " end) +:+ a
           | None => s
           end in
  s +:+ ": ".

(** [err.Error()].  On the nil interface the call panics; a value-receiver
    method called through a nil pointer panics, and the methods of the
    crypto/x509 structs may panic by themselves; the [Error] method of
    [*net.OpError] answers ["<nil>"] on a nil receiver and otherwise calls
    [e.Err.Error()]. *)
Fixpoint Error (err : error) : outcome string :=
  match err with
  | nil => Panics
  | ptr_OpError None => Returns "<nil>"%string
  | ptr_OpError (Some (mkOpError op net source addr e))
  | val_OpError (mkOpError op net source addr e) =>
      match Error e with
      | Returns s => Returns (OpError_prefix op net source addr +:+ s)
      | Panics => Panics
      end
  | val_RecordHeaderError v => Returns (RecordHeaderError_Error v)
  | ptr_RecordHeaderError p => do v <- deref p; Returns (RecordHeaderError_Error v)
  | val_HostnameError v => HostnameError_Error v
  | ptr_HostnameError p => do v <- deref p; HostnameError_Error v
  | val_UnknownAuthorityError v => UnknownAuthorityError_Error v
  | ptr_UnknownAuthorityError p => do v <- deref p; UnknownAuthorityError_Error v
  | other_error _ msg => msg
  end.

(** [ne, ok := err.( *net.OpError )]: the comma-ok assertion never panics. *)
Definition assert_ptr_OpError (err : error) : option OpError * bool :=
  match err with
  | ptr_OpError p => (p, true)
  | _ => (None, false)
  end.

(** [type ClassifierFunc func(err error) bool] and its [Classify] method. *)
Definition ClassifierFunc : Type := error -> outcome bool.
Definition Classify (f : ClassifierFunc) (err : error) : outcome bool := f err.

Definition AttemptedTLSWithNonTLSBackend : ClassifierFunc := fun err =>
  match err with
  | val_RecordHeaderError _ | ptr_RecordHeaderError _ => Returns true
  | _ => Returns false
  end.

Definition Dial : ClassifierFunc := fun err =>
  let '(ne, ok) := assert_ptr_OpError err in
  Returns ok &&& (do o <- deref ne; Returns (String.eqb (Op o) "dial")).

Definition ConnectionResetOnRead : ClassifierFunc := fun err =>
  let '(ne, ok) := assert_ptr_OpError err in
  Returns ok
  &&& (do o <- deref ne; Returns (String.eqb (Op o) "read"))
  &&& (do o <- deref ne; do m <- Error (Err o);
       Returns (String.eqb m "read: connection reset by peer")).

Definition RemoteFailedCertCheck : ClassifierFunc := fun err =>
  let '(ne, ok) := assert_ptr_OpError err in
  Returns ok
  &&& (do o <- deref ne; Returns (String.eqb (Op o) "remote error"))
  &&& (do o <- deref ne; do m <- Error (Err o);
       Returns (String.eqb m "tls: bad certificate")).

Definition RemoteHandshakeFailure : ClassifierFunc := fun err =>
  let '(ne, ok) := assert_ptr_OpError err in
  Returns ok
  &&& (do o <- deref ne; Returns (String.eqb (Op o) "remote error"))
  &&& (do o <- deref ne; do m <- Error (Err o);
       Returns (String.eqb m "tls: handshake failure")).

Definition HostnameMismatch : ClassifierFunc := fun err =>
  match err with
  | val_HostnameError _ | ptr_HostnameError _ => Returns true
  | _ => Returns false
  end.

Definition UntrustedCert : ClassifierFunc := fun err =>
  match err with
  | val_UnknownAuthorityError _ | ptr_UnknownAuthorityError _ => Returns true
  | _ => Returns false
  end.

(** The seven package-level classifiers, by name. *)
Inductive category : Type :=
| cAttemptedTLSWithNonTLSBackend
| cDial
| cConnectionResetOnRead
| cRemoteFailedCertCheck
| cRemoteHandshakeFailure
| cHostnameMismatch
| cUntrustedCert.

Definition classifier (c : category) : ClassifierFunc :=
  match c with
  | cAttemptedTLSWithNonTLSBackend => AttemptedTLSWithNonTLSBackend
  | cDial => Dial
  | cConnectionResetOnRead => ConnectionResetOnRead
  | cRemoteFailedCertCheck => RemoteFailedCertCheck
  | cRemoteHandshakeFailure => RemoteHandshakeFailure
  | cHostnameMismatch => HostnameMismatch
  | cUntrustedCert => UntrustedCert
  end.

Definition category_eqb (a b : category) : bool :=
  match a, b with
  | cAttemptedTLSWithNonTLSBackend, cAttemptedTLSWithNonTLSBackend
  | cDial, cDial
  | cConnectionResetOnRead, cConnectionResetOnRead
  | cRemoteFailedCertCheck, cRemoteFailedCertCheck
  | cRemoteHandshakeFailure, cRemoteHandshakeFailure
  | cHostnameMismatch, cHostnameMismatch
  | cUntrustedCert, cUntrustedCert => true
  | _, _ => false
  end.

(** Whether the classifier is one of the four that assert [*net.OpError]. *)
Definition asserts_OpError (c : category) : bool :=
  match c with
  | cDial | cConnectionResetOnRead | cRemoteFailedCertCheck | cRemoteHandshakeFailure => true
  | _ => false
  end.

(** *** The trigger table of the specification

    These two definitions follow the specification's table of categories,
    not the code: [op_error_shape tag message] is "network operation error,
    operation tag [tag], underlying message exactly [message]". *)
Definition op_error_shape (tag : string) (message : option string) (err : error) : bool :=
  match err with
  | ptr_OpError (Some o) =>
      String.eqb (Op o) tag &&
      match message with
      | None => true
      | Some m => match Error (Err o) with
                  | Returns s => String.eqb s m
                  | Panics => false
                  end
      end
  | _ => false
  end.

Definition shape (c : category) (err : error) : bool :=
  match c with
  | cAttemptedTLSWithNonTLSBackend =>
      match err with
      | val_RecordHeaderError _ | ptr_RecordHeaderError _ => true
      | _ => false
      end
  | cDial => op_error_shape "dial" None err
  | cConnectionResetOnRead =>
      op_error_shape "read" (Some "read: connection reset by peer"%string) err
  | cRemoteFailedCertCheck =>
      op_error_shape "remote error" (Some "tls: bad certificate"%string) err
  | cRemoteHandshakeFailure =>
      op_error_shape "remote error" (Some "tls: handshake failure"%string) err
  | cHostnameMismatch =>
      match err with
      | val_HostnameError _ | ptr_HostnameError _ => true
      | _ => false
      end
  | cUntrustedCert =>
      match err with
      | val_UnknownAuthorityError _ | ptr_UnknownAuthorityError _ => true
      | _ => false
      end
  end.

(** The dynamic type of [err] is [*net.OpError]. *)
Definition is_ptr_OpError (err : error) : bool :=
  match err with
  | ptr_OpError _ => true
  | _ => false
  end.

(** The operation tag whose match makes a classifier read [ne.Err.Error()]. *)
Definition message_tag (c : category) : option string :=
  match c with
  | cConnectionResetOnRead => Some "read"%string
  | cRemoteFailedCertCheck | cRemoteHandshakeFailure => Some "remote error"%string
  | _ => None
  end.

(** The inputs on which classifier [c] runs to completion: every error for
    the three type switches; for the four [*net.OpError] classifiers every
    error but a nil [*net.OpError] and, when the operation tag is the one the
    classifier looks for, an [Err] whose [Error()] call panics. *)
Definition defined_on (c : category) (err : error) : bool :=
  negb (asserts_OpError c) ||
  match err with
  | ptr_OpError None => false
  | ptr_OpError (Some o) =>
      match message_tag c with
      | Some tag =>
          negb (String.eqb (Op o) tag) ||
          match Error (Err o) with Returns _ => true | Panics => false end
      | None => true
      end
  | _ => true
  end.

End Classifiers.

End error_classifiers.

(** ** Machine integers *)

(** Two's-complement wrap-around of a 64-bit signed integer ([int64], and
    [int] on the 64-bit targets the router runs on). *)
Definition int64_wrap (z : Z) : Z := (z + 2 ^ 63) mod 2 ^ 64 - 2 ^ 63.

Definition max_int64 : Z := 2 ^ 63 - 1.
Definition min_int64 : Z := - 2 ^ 63.
Definition int64_range (z : Z) : Prop := min_int64 <= z <= max_int64.

(** Go's [a / b] on [int64]: truncation towards zero, a panic on a zero
    divisor, wrap-around for [MinInt64 / -1]. *)
Definition int64_div (a b : Z) : outcome Z :=
  if b =? 0 then Panics else Returns (int64_wrap (Z.quot a b)).

(** ** Package stats (not among the sources) *)

Module stats.

(** Modelled from the spec: an entry of the ranking, declared outside the
    sources; [updateTop] reads its [ApplicationId] and its [Requests], an
    [int64] count of the requests in the window. *)
Record topAppsTopEntry : Type := {
  ApplicationId : string;
  Requests : Z
}.

(** Modelled from the spec: the registry's [TopApps] ranking source, whose
    implementation is not among the sources.  The specification calls it
    "the external registry's time-windowed ranking": for an instant [t] it
    ranks the clients by their requests since [t]. *)
Record TopApps : Type := {
  ranked_since : Z -> list topAppsTopEntry
}.

(** Modelled from the spec: [TopSince(t, n)], missing from the sources, is
    the "top-N" query, "the top-10 ranked clients over the trailing 1-minute
    window" when called with [n = 10]: the first [n] entries of the ranking
    since [t]. *)
Definition TopSince (x : TopApps) (t : Z) (n : Z) : list topAppsTopEntry :=
  take (Z.to_nat n) (ranked_since x t).

End stats.

(** ** The go-metrics library (not among the sources) *)

Module metrics.

(** Modelled from the spec: the sample at a position of the sorted sample
    set, positions counted from one.  "Percentile queries sort the current
    sample set and interpolate at the requested rank": before the first
    position the first sample is given, from the last position on the last
    sample, and in between the two neighbouring samples are interpolated
    linearly.  Numbers are exact rationals; the rounding of [float64] is
    left out. *)
Definition at_position (sorted : list Z) (pos : Q) : Q :=
  if negb (Qle_bool 1 pos) then inject_Z (nth 0 sorted 0)
  else if Qle_bool (inject_Z (Z.of_nat (length sorted))) pos then
    inject_Z (nth (length sorted - 1)%nat sorted 0)
  else
    let lower := inject_Z (nth (Z.to_nat (Qfloor pos) - 1)%nat sorted 0) in
    let upper := inject_Z (nth (Z.to_nat (Qfloor pos)) sorted 0) in
    (lower + (pos - inject_Z (Qfloor pos)) * (upper - lower))%Q.

(** Modelled from the spec: the percentile query of the latency histogram,
    which the go-metrics library implements and the sources only call.
    "Percentile queries sort the current sample set and interpolate at the
    requested rank; accuracy degrades gracefully as sample count shrinks, and
    an empty reservoir yields a well-defined default (e.g., zero) rather than
    failing."  The rank [p] of [n] samples stands at position [p * (n + 1)],
    the convention of go-metrics. *)
Definition SamplePercentile (values : list Z) (p : Q) : Q :=
  let sorted := merge_sort Z.le values in
  match sorted with
  | [] => 0%Q
  | _ :: _ => at_position sorted (p * inject_Z (Z.of_nat (length sorted) + 1))%Q
  end.

(** Modelled from the spec: one percentile for every rank asked for. *)
Definition SamplePercentiles (values : list Z) (ps : list Q) : list Q :=
  SamplePercentile values <$> ps.

End metrics.

(** ** Package router, varz.go *)

Module router.

(** *** The go-metrics library

    [metrics.Meter] and [metrics.Histogram] are interfaces of an external
    library; their state is kept abstract.  Wall-clock ticks of the meter and
    the random eviction of the decaying sample live inside these states. *)
Class GoMetrics : Type := {
  float64 : Type;
  float64_lit : Q -> float64;
  Meter : Type;
  NewMeter : Meter;
  Mark : Z -> Meter -> Meter;
  Rate1 : Meter -> float64;
  Rate5 : Meter -> float64;
  Rate15 : Meter -> float64;
  Sample : Type;
  NewExpDecaySample : Z -> Q -> Sample;
  Histogram : Type;
  NewHistogram : Sample -> Histogram;
  Update : Z -> Histogram -> Histogram;
  Percentiles : list float64 -> Histogram -> list float64
}.

(** [metrics.Counter] as made by [metrics.NewCounter]: an [int64] that [Inc]
    adds to atomically. *)
Definition Counter : Type := Z.
Definition NewCounter : Counter := 0.
Definition Inc (i : Z) (c : Counter) : Counter := int64_wrap (c + i).
Definition Count (c : Counter) : Z := c.

(** The configuration constant [stats.TopAppsEntryLifetime], missing from the
    sources, enters as the value of
    [int64(stats.TopAppsEntryLifetime.Seconds())]. *)
Class StatsConfig : Type := {
  TopAppsEntryLifetime_Seconds : Z
}.

(** [time.Minute], in nanoseconds. *)
Definition Minute : Z := 60 * 1000000000.

Section Varz.
Context {gm : GoMetrics} {cfg : StatsConfig}.

Record topAppsEntry : Type := {
  ApplicationId : string;
  RequestsPerSecond : Z;
  RequestsPerMinute : Z
}.

(** The struct [httpMetric] that [HttpMetric.MarshalJSON] hands to
    [json.Marshal]; fields carry their JSON names. *)
Record httpMetric : Type := {
  requests : Z;
  rate : list float64;
  responses_2xx : Z;
  responses_3xx : Z;
  responses_4xx : Z;
  responses_5xx : Z;
  responses_xxx : Z;
  latency : gmap string float64
}.

Record HttpMetric : Type := {
  Requests : Counter;
  Rate : Meter;
  Responses2xx : Counter;
  Responses3xx : Counter;
  Responses4xx : Counter;
  Responses5xx : Counter;
  ResponsesXxx : Counter;
  Latency : Histogram
}.

Definition with_Requests (f : Counter -> Counter) (c : HttpMetric) : HttpMetric :=
  {| Requests := f (Requests c); Rate := Rate c;
     Responses2xx := Responses2xx c; Responses3xx := Responses3xx c;
     Responses4xx := Responses4xx c; Responses5xx := Responses5xx c;
     ResponsesXxx := ResponsesXxx c; Latency := Latency c |}.

Definition with_Rate (f : Meter -> Meter) (c : HttpMetric) : HttpMetric :=
  {| Requests := Requests c; Rate := f (Rate c);
     Responses2xx := Responses2xx c; Responses3xx := Responses3xx c;
     Responses4xx := Responses4xx c; Responses5xx := Responses5xx c;
     ResponsesXxx := ResponsesXxx c; Latency := Latency c |}.

Definition with_Responses2xx (f : Counter -> Counter) (c : HttpMetric) : HttpMetric :=
  {| Requests := Requests c; Rate := Rate c;
     Responses2xx := f (Responses2xx c); Responses3xx := Responses3xx c;
     Responses4xx := Responses4xx c; Responses5xx := Responses5xx c;
     ResponsesXxx := ResponsesXxx c; Latency := Latency c |}.

Definition with_Responses3xx (f : Counter -> Counter) (c : HttpMetric) : HttpMetric :=
  {| Requests := Requests c; Rate := Rate c;
     Responses2xx := Responses2xx c; Responses3xx := f (Responses3xx c);
     Responses4xx := Responses4xx c; Responses5xx := Responses5xx c;
     ResponsesXxx := ResponsesXxx c; Latency := Latency c |}.

Definition with_Responses4xx (f : Counter -> Counter) (c : HttpMetric) : HttpMetric :=
  {| Requests := Requests c; Rate := Rate c;
     Responses2xx := Responses2xx c; Responses3xx := Responses3xx c;
     Responses4xx := f (Responses4xx c); Responses5xx := Responses5xx c;
     ResponsesXxx := ResponsesXxx c; Latency := Latency c |}.

Definition with_Responses5xx (f : Counter -> Counter) (c : HttpMetric) : HttpMetric :=
  {| Requests := Requests c; Rate := Rate c;
     Responses2xx := Responses2xx c; Responses3xx := Responses3xx c;
     Responses4xx := Responses4xx c; Responses5xx := f (Responses5xx c);
     ResponsesXxx := ResponsesXxx c; Latency := Latency c |}.

Definition with_ResponsesXxx (f : Counter -> Counter) (c : HttpMetric) : HttpMetric :=
  {| Requests := Requests c; Rate := Rate c;
     Responses2xx := Responses2xx c; Responses3xx := Responses3xx c;
     Responses4xx := Responses4xx c; Responses5xx := Responses5xx c;
     ResponsesXxx := f (ResponsesXxx c); Latency := Latency c |}.

Definition with_Latency (f : Histogram -> Histogram) (c : HttpMetric) : HttpMetric :=
  {| Requests := Requests c; Rate := Rate c;
     Responses2xx := Responses2xx c; Responses3xx := Responses3xx c;
     Responses4xx := Responses4xx c; Responses5xx := Responses5xx c;
     ResponsesXxx := ResponsesXxx c; Latency := f (Latency c) |}.

(** *** The store of metric cells

    A [*HttpMetric] is a location of the store, or nil.  The counters, meter
    and histogram of a cell are made by [NewHttpMetric] for that cell alone
    and are kept inside it. *)
Definition loc : Type := positive.
Definition ptr : Type := option loc.
Abbreviation store := (gmap loc HttpMetric).

(** [*x] for [x : *HttpMetric]. *)
Definition load (h : store) (x : ptr) : outcome HttpMetric :=
  do l <- deref x; deref (h !! l).

(** [*x = c]. *)
Definition store_at (h : store) (x : ptr) (c : HttpMetric) : outcome store :=
  do l <- deref x; Returns (<[l := c]> h).

(** [&HttpMetric{...}]: a cell at a location not in use. *)
Definition alloc (h : store) (c : HttpMetric) : loc * store :=
  let l := fresh (dom h) in (l, <[l := c]> h).

Definition NewHttpMetric_cell : HttpMetric :=
  {| Requests := NewCounter;
     Rate := NewMeter;
     Responses2xx := NewCounter;
     Responses3xx := NewCounter;
     Responses4xx := NewCounter;
     Responses5xx := NewCounter;
     ResponsesXxx := NewCounter;
     Latency := NewHistogram (NewExpDecaySample 1028 (15 # 1000)) |}.

Definition NewHttpMetric (h : store) : ptr * store :=
  let '(l, h) := alloc h NewHttpMetric_cell in (Some l, h).

(** [z[i]] on a slice: out of range panics. *)
Definition index {A : Type} (z : list A) (i : nat) : outcome A := deref (z !! i).

Definition HttpMetric_MarshalJSON (x : ptr) (h : store) : outcome httpMetric :=
  do c <- load h x;
  let z := Percentiles [float64_lit (5 # 10); float64_lit (75 # 100); float64_lit (99 # 100)]
             (Latency c) in
  do z0 <- index z 0;
  do z1 <- index z 1;
  do z2 <- index z 2;
  Returns {| requests := Count (Requests c);
             rate := [Rate1 (Rate c); Rate5 (Rate c); Rate15 (Rate c)];
             responses_2xx := Count (Responses2xx c);
             responses_3xx := Count (Responses3xx c);
             responses_4xx := Count (Responses4xx c);
             responses_5xx := Count (Responses5xx c);
             responses_xxx := Count (ResponsesXxx c);
             latency := <["99"%string := z2]> (<["75"%string := z1]> (<["50"%string := z0]> ∅)) |}.

Definition HttpMetric_CaptureRequest (x : ptr) (h : store) : outcome store :=
  do c <- load h x;
  let c := with_Requests (Inc 1) c in
  let c := with_Rate (Mark 1) c in
  store_at h x c.

(** [*http.Response], of which only [StatusCode] is read. *)
Record Response : Type := {
  StatusCode : Z
}.

Definition HttpMetric_CaptureResponse (x : ptr) (y : option Response) (z : Z) (h : store)
  : outcome store :=
  do c <- load h x;
  let s := match y with
           | Some r => Z.quot (StatusCode r) 100
           | None => 0
           end in
  let c := match s with
           | 2 => with_Responses2xx (Inc 1) c
           | 3 => with_Responses3xx (Inc 1) c
           | 4 => with_Responses4xx (Inc 1) c
           | 5 => with_Responses5xx (Inc 1) c
           | _ => with_ResponsesXxx (Inc 1) c
           end in
  let c := with_Latency (Update z) c in
  store_at h x c.

(** [type TaggedHttpMetric map[string]*HttpMetric]; [None] is the nil map,
    which reads as empty and panics when written.  The maps of a [Varz] are
    made by [NewVarz] and never copied from one field to another, so each is
    held by value in its field. *)
Abbreviation TaggedHttpMetric := (option (gmap string ptr)).

Definition NewTaggedHttpMetric : TaggedHttpMetric := Some ∅.

(** [x[t]]: the zero value, nil, when the key or the map is absent. *)
Definition map_get (x : TaggedHttpMetric) (t : string) : ptr :=
  match x with
  | Some m => default None (m !! t)
  | None => None
  end.

(** [x[t] = y]. *)
Definition map_set (x : TaggedHttpMetric) (t : string) (y : ptr) : outcome TaggedHttpMetric :=
  match x with
  | Some m => Returns (Some (<[t := y]> m))
  | None => Panics
  end.

Definition TaggedHttpMetric_httpMetric (x : TaggedHttpMetric) (t : string) (h : store)
  : outcome (ptr * TaggedHttpMetric * store) :=
  let y := map_get x t in
  match y with
  | None =>
      let '(y, h) := NewHttpMetric h in
      do x <- map_set x t y;
      Returns (y, x, h)
  | Some _ => Returns (y, x, h)
  end.

Definition TaggedHttpMetric_CaptureRequest (x : TaggedHttpMetric) (t : string) (h : store)
  : outcome (TaggedHttpMetric * store) :=
  do (y, x, h) <- TaggedHttpMetric_httpMetric x t h;
  do h <- HttpMetric_CaptureRequest y h;
  Returns (x, h).

Definition TaggedHttpMetric_CaptureResponse (x : TaggedHttpMetric) (t : string)
  (y : option Response) (z : Z) (h : store) : outcome (TaggedHttpMetric * store) :=
  do (c, x, h) <- TaggedHttpMetric_httpMetric x t h;
  do h <- HttpMetric_CaptureResponse c y z h;
  Returns (x, h).

(** Modelled from the spec: the backend registry, whose code is not among
    the sources; it "exposes [NumUris()], [NumBackends()], and a [TopApps]
    ranking source".  A value of this record is the content of the registry
    at the time of a call. *)
Record Registry : Type := {
  NumUris : Z;
  NumBackends : Z;
  Registry_TopApps : stats.TopApps
}.

(** Modelled from the spec: the struct [Backend] is declared outside the
    sources; the capture methods read only its [Tags], the "backendTags"
    mapping.  A nil Go map reads as the empty map. *)
Record Backend : Type := {
  Tags : gmap string string
}.

(** The structs [varz] and [Varz] together: the embedded [*Registry] (nil
    until the router sets it), and the fields of [varz] with [Tags] flattened.
    The embedded [sync.Mutex] is the subject of the section on locking. *)
Record Varz : Type := {
  Varz_Registry : option Registry;
  All : ptr;
  Component : TaggedHttpMetric;
  Framework : TaggedHttpMetric;
  Runtime : TaggedHttpMetric;
  Urls : Z;
  Droplets : Z;
  BadRequests : Z;
  RequestsPerSec : float64;
  TopApps : list topAppsEntry
}.

Definition with_Registry (r : option Registry) (x : Varz) : Varz :=
  {| Varz_Registry := r; All := All x;
     Component := Component x; Framework := Framework x; Runtime := Runtime x;
     Urls := Urls x; Droplets := Droplets x; BadRequests := BadRequests x;
     RequestsPerSec := RequestsPerSec x; TopApps := TopApps x |}.

Definition with_Component (m : TaggedHttpMetric) (x : Varz) : Varz :=
  {| Varz_Registry := Varz_Registry x; All := All x;
     Component := m; Framework := Framework x; Runtime := Runtime x;
     Urls := Urls x; Droplets := Droplets x; BadRequests := BadRequests x;
     RequestsPerSec := RequestsPerSec x; TopApps := TopApps x |}.

Definition with_Framework (m : TaggedHttpMetric) (x : Varz) : Varz :=
  {| Varz_Registry := Varz_Registry x; All := All x;
     Component := Component x; Framework := m; Runtime := Runtime x;
     Urls := Urls x; Droplets := Droplets x; BadRequests := BadRequests x;
     RequestsPerSec := RequestsPerSec x; TopApps := TopApps x |}.

Definition with_Runtime (m : TaggedHttpMetric) (x : Varz) : Varz :=
  {| Varz_Registry := Varz_Registry x; All := All x;
     Component := Component x; Framework := Framework x; Runtime := m;
     Urls := Urls x; Droplets := Droplets x; BadRequests := BadRequests x;
     RequestsPerSec := RequestsPerSec x; TopApps := TopApps x |}.

Definition with_Urls (n : Z) (x : Varz) : Varz :=
  {| Varz_Registry := Varz_Registry x; All := All x;
     Component := Component x; Framework := Framework x; Runtime := Runtime x;
     Urls := n; Droplets := Droplets x; BadRequests := BadRequests x;
     RequestsPerSec := RequestsPerSec x; TopApps := TopApps x |}.

Definition with_Droplets (n : Z) (x : Varz) : Varz :=
  {| Varz_Registry := Varz_Registry x; All := All x;
     Component := Component x; Framework := Framework x; Runtime := Runtime x;
     Urls := Urls x; Droplets := n; BadRequests := BadRequests x;
     RequestsPerSec := RequestsPerSec x; TopApps := TopApps x |}.

Definition with_BadRequests (n : Z) (x : Varz) : Varz :=
  {| Varz_Registry := Varz_Registry x; All := All x;
     Component := Component x; Framework := Framework x; Runtime := Runtime x;
     Urls := Urls x; Droplets := Droplets x; BadRequests := n;
     RequestsPerSec := RequestsPerSec x; TopApps := TopApps x |}.

Definition with_RequestsPerSec (r : float64) (x : Varz) : Varz :=
  {| Varz_Registry := Varz_Registry x; All := All x;
     Component := Component x; Framework := Framework x; Runtime := Runtime x;
     Urls := Urls x; Droplets := Droplets x; BadRequests := BadRequests x;
     RequestsPerSec := r; TopApps := TopApps x |}.

Definition with_TopApps (l : list topAppsEntry) (x : Varz) : Varz :=
  {| Varz_Registry := Varz_Registry x; All := All x;
     Component := Component x; Framework := Framework x; Runtime := Runtime x;
     Urls := Urls x; Droplets := Droplets x; BadRequests := BadRequests x;
     RequestsPerSec := RequestsPerSec x; TopApps := l |}.

Definition NewVarz (h : store) : Varz * store :=
  let '(all, h) := NewHttpMetric h in
  ({| Varz_Registry := None; All := all;
      Component := Some ∅; Framework := Some ∅; Runtime := Some ∅;
      Urls := 0; Droplets := 0; BadRequests := 0;
      RequestsPerSec := float64_lit 0; TopApps := [] |}, h).

(** The document that [json.Marshal(x.varz)] encodes, field by field under
    the JSON names.  A nil [*HttpMetric] and a nil map encode as [null]
    ([None]); a non-nil cell is encoded by [HttpMetric.MarshalJSON]. *)
Record varz_json : Type := {
  all : option httpMetric;
  tags_component : option (gmap string (option httpMetric));
  tags_framework : option (gmap string (option httpMetric));
  tags_runtime : option (gmap string (option httpMetric));
  urls : Z;
  droplets : Z;
  bad_requests : Z;
  requests_per_sec : float64;
  top10_app_requests : list topAppsEntry
}.

Definition marshal_cell (h : store) (x : ptr) : outcome (option httpMetric) :=
  match x with
  | None => Returns None
  | Some _ => do y <- HttpMetric_MarshalJSON x h; Returns (Some y)
  end.

Definition returned {A : Type} (o : outcome A) : option A :=
  match o with
  | Returns a => Some a
  | Panics => None
  end.

(** Encoding a map of cells: every entry is encoded; a panic in one of them
    is the panic of the whole. *)
Definition marshal_tagged (h : store) (x : TaggedHttpMetric)
  : outcome (option (gmap string (option httpMetric))) :=
  match x with
  | None => Returns None
  | Some m =>
      let r := marshal_cell h <$> m in
      if decide (map_Forall (fun _ o => is_Some (returned o)) r)
      then Returns (Some (omap returned r))
      else Panics
  end.

Definition json_Marshal (x : Varz) (h : store) : outcome varz_json :=
  do a <- marshal_cell h (All x);
  do c <- marshal_tagged h (Component x);
  do f <- marshal_tagged h (Framework x);
  do r <- marshal_tagged h (Runtime x);
  Returns {| all := a;
             tags_component := c; tags_framework := f; tags_runtime := r;
             urls := Urls x; droplets := Droplets x;
             bad_requests := BadRequests x;
             requests_per_sec := RequestsPerSec x;
             top10_app_requests := TopApps x |}.

(** The [for _, z := range y] loop of [updateTop], appending to [acc]. *)
Fixpoint updateTop_loop (y : list stats.topAppsTopEntry) (acc : list topAppsEntry)
  : outcome (list topAppsEntry) :=
  match y with
  | [] => Returns acc
  | z :: y =>
      do rps <- int64_div (stats.Requests z) TopAppsEntryLifetime_Seconds;
      updateTop_loop y
        (acc ++ [{| ApplicationId := stats.ApplicationId z;
                    RequestsPerSecond := rps;
                    RequestsPerMinute := stats.Requests z |}])
  end.

(** [now] is the reading of [time.Now()], in nanoseconds. *)
Definition updateTop (now : Z) (x : Varz) : outcome Varz :=
  let t := now + (-1) * Minute in
  do r <- deref (Varz_Registry x);
  let y := stats.TopSince (Registry_TopApps r) t 10 in
  let x := with_TopApps [] x in
  do tops <- updateTop_loop y (TopApps x);
  Returns (with_TopApps tops x).

(** [Varz.MarshalJSON], between [x.Lock()] and the deferred [x.Unlock()]. *)
Definition Varz_MarshalJSON (now : Z) (x : Varz) (h : store) : outcome (varz_json * Varz) :=
  do r <- deref (Varz_Registry x);
  let x := with_Urls (NumUris r) x in
  do r <- deref (Varz_Registry x);
  let x := with_Droplets (NumBackends r) x in
  do a <- load h (All x);
  let x := with_RequestsPerSec (Rate1 (Rate a)) x in
  do x <- updateTop now x;
  do b <- json_Marshal x h;
  Returns (b, x).

(** [req] is not read. *)
Definition CaptureBadRequest (x : Varz) : outcome Varz :=
  Returns (with_BadRequests (int64_wrap (BadRequests x + 1)) x).

Definition CaptureBackendRequest (b : Backend) (x : Varz) (h : store)
  : outcome (Varz * store) :=
  do (x, h) <- match Tags b !! "component"%string with
               | Some t =>
                   do (m, h) <- TaggedHttpMetric_CaptureRequest (Component x) t h;
                   Returns (with_Component m x, h)
               | None => Returns (x, h)
               end;
  do (x, h) <- match Tags b !! "framework"%string with
               | Some t =>
                   do (m, h) <- TaggedHttpMetric_CaptureRequest (Framework x) t h;
                   Returns (with_Framework m x, h)
               | None => Returns (x, h)
               end;
  do (x, h) <- match Tags b !! "runtime"%string with
               | Some t =>
                   do (m, h) <- TaggedHttpMetric_CaptureRequest (Runtime x) t h;
                   Returns (with_Runtime m x, h)
               | None => Returns (x, h)
               end;
  do h <- HttpMetric_CaptureRequest (All x) h;
  Returns (x, h).

Definition CaptureBackendResponse (b : Backend) (res : option Response) (d : Z)
  (x : Varz) (h : store) : outcome (Varz * store) :=
  do (x, h) <- match Tags b !! "component"%string with
               | Some t =>
                   do (m, h) <- TaggedHttpMetric_CaptureResponse (Component x) t res d h;
                   Returns (with_Component m x, h)
               | None => Returns (x, h)
               end;
  do (x, h) <- match Tags b !! "framework"%string with
               | Some t =>
                   do (m, h) <- TaggedHttpMetric_CaptureResponse (Framework x) t res d h;
                   Returns (with_Framework m x, h)
               | None => Returns (x, h)
               end;
  do (x, h) <- match Tags b !! "runtime"%string with
               | Some t =>
                   do (m, h) <- TaggedHttpMetric_CaptureResponse (Runtime x) t res d h;
                   Returns (with_Runtime m x, h)
               | None => Returns (x, h)
               end;
  do h <- HttpMetric_CaptureResponse (All x) res d h;
  Returns (x, h).

End Varz.

(** *** Cells and their holders

    The places of a [Varz] that hold a [*HttpMetric]: the field [All] and the
    entries of the three tag maps. *)
Inductive dimension : Type := component | framework | runtime.

Inductive slot : Type :=
| slot_All
| slot_tag (d : dimension) (t : string).

#[export] Instance dimension_eq_dec : EqDecision dimension.
Proof. solve_decision. Defined.

#[export] Instance slot_eq_dec : EqDecision slot.
Proof. solve_decision. Defined.

(** The key of [b.Tags] that selects the tag of a dimension. *)
Definition tag_key (d : dimension) : string :=
  match d with
  | component => "component"
  | framework => "framework"
  | runtime => "runtime"
  end.

Inductive bucket : Type := b2xx | b3xx | b4xx | b5xx | bxxx.

#[export] Instance bucket_eq_dec : EqDecision bucket.
Proof. solve_decision. Defined.

(** The bucket of a response as the specification words it: the status code
    integer-divided by 100 selects 2xx to 5xx, anything else, an absent
    response included, is "other". *)
Definition bucket_of_status (status : option Z) : bucket :=
  match status with
  | None => bxxx
  | Some s =>
      if Z.quot s 100 =? 2 then b2xx
      else if Z.quot s 100 =? 3 then b3xx
      else if Z.quot s 100 =? 4 then b4xx
      else if Z.quot s 100 =? 5 then b5xx
      else bxxx
  end.

Section Holders.
Context {gm : GoMetrics} {cfg : StatsConfig}.

Definition tagged (d : dimension) (x : Varz) : option (gmap string ptr) :=
  match d with
  | component => Component x
  | framework => Framework x
  | runtime => Runtime x
  end.

Definition with_tagged (d : dimension) (m : option (gmap string ptr)) (x : Varz) : Varz :=
  match d with
  | component => with_Component m x
  | framework => with_Framework m x
  | runtime => with_Runtime m x
  end.

Definition slot_ptr (x : Varz) (s : slot) : ptr :=
  match s with
  | slot_All => All x
  | slot_tag d t => map_get (tagged d x) t
  end.

(** The cell a slot holds, if any. *)
Definition cell_of (x : Varz) (h : gmap loc HttpMetric) (s : slot) : option HttpMetric :=
  match slot_ptr x s with
  | Some l => h !! l
  | None => None
  end.

(** The states that [NewVarz] and the capture methods produce: [All] and the
    three maps are non-nil, every held cell is allocated, and no cell is held
    twice. *)
Record well_formed (x : Varz) (h : gmap loc HttpMetric) : Prop := {
  wf_All : is_Some (All x);
  wf_maps : forall d, is_Some (tagged d x);
  wf_alloc : forall s l, slot_ptr x s = Some l -> is_Some (h !! l);
  wf_separate : forall s1 s2 l, slot_ptr x s1 = Some l -> slot_ptr x s2 = Some l -> s1 = s2
}.

(** What one [CaptureRequest] does to a cell. *)
Definition captured_request (c : HttpMetric) : HttpMetric :=
  with_Rate (Mark 1) (with_Requests (Inc 1) c).

(** What one [CaptureResponse(y, z)] does to a cell. *)
Definition captured_response (y : option Response) (z : Z) (c : HttpMetric) : HttpMetric :=
  with_Latency (Update z)
    match match y with Some r => Z.quot (StatusCode r) 100 | None => 0 end with
    | 2 => with_Responses2xx (Inc 1) c
    | 3 => with_Responses3xx (Inc 1) c
    | 4 => with_Responses4xx (Inc 1) c
    | 5 => with_Responses5xx (Inc 1) c
    | _ => with_ResponsesXxx (Inc 1) c
    end.

(** The common form of [HttpMetric.CaptureRequest] and
    [HttpMetric.CaptureResponse]: read the cell, write it back changed. *)
Definition update_cell (f : HttpMetric -> HttpMetric) (x : ptr) (h : gmap loc HttpMetric)
  : outcome (gmap loc HttpMetric) :=
  do c <- load h x; store_at h x (f c).

(** The common form of the three [t, ok = b.Tags[...]; if ok { ... }] blocks
    of [CaptureBackendRequest] and [CaptureBackendResponse]. *)
Definition visit (f : HttpMetric -> HttpMetric) (d : dimension) (b : Backend)
    (x : Varz) (h : gmap loc HttpMetric) : outcome (Varz * gmap loc HttpMetric) :=
  match Tags b !! tag_key d with
  | Some t =>
      do (y, m, h) <- TaggedHttpMetric_httpMetric (tagged d x) t h;
      do h <- update_cell f y h;
      Returns (with_tagged d m x, h)
  | None => Returns (x, h)
  end.

Definition visit_all (f : HttpMetric -> HttpMetric) (b : Backend)
    (x : Varz) (h : gmap loc HttpMetric) : outcome (Varz * gmap loc HttpMetric) :=
  do (x, h) <- visit f component b x h;
  do (x, h) <- visit f framework b x h;
  do (x, h) <- visit f runtime b x h;
  do h <- update_cell f (All x) h;
  Returns (x, h).

(** The slots one block reaches: dimension [d] at the tag [b] has for it. *)
Definition reached_in (d : dimension) (b : Backend) (s : slot) : bool :=
  match s with
  | slot_All => false
  | slot_tag d' t => bool_decide (d' = d) && bool_decide (Tags b !! tag_key d = Some t)
  end.

(** [effect P f x h x' h']: from [(x, h)] to [(x', h')] the cell of every
    slot in [P] went through [f] once, starting from a new cell where the
    slot held none, and the cell of every other slot is as it was. *)
Definition effect (P : slot -> bool) (f : HttpMetric -> HttpMetric)
    (x : Varz) (h : gmap loc HttpMetric) (x' : Varz) (h' : gmap loc HttpMetric) : Prop :=
  forall s, cell_of x' h' s =
            if P s then Some (f (default NewHttpMetric_cell (cell_of x h s)))
            else cell_of x h s.

(** The slots that [CaptureBackendRequest(b, _)] and
    [CaptureBackendResponse(b, _, _)] are to reach, in the specification's
    words: [All], and each dimension at the tag that [b] has for it. *)
Definition reached (b : Backend) (s : slot) : bool :=
  match s with
  | slot_All => true
  | slot_tag d t => bool_decide (Tags b !! tag_key d = Some t)
  end.

Definition bucket_count (k : bucket) (c : HttpMetric) : Z :=
  match k with
  | b2xx => Count (Responses2xx c)
  | b3xx => Count (Responses3xx c)
  | b4xx => Count (Responses4xx c)
  | b5xx => Count (Responses5xx c)
  | bxxx => Count (ResponsesXxx c)
  end.

Definition bucket_of (y : option Response) : bucket :=
  bucket_of_status (StatusCode <$> y).

(** One entry of the ranking reshaped as the specification says: rpm is the
    entry's request count, rps that count divided by the window length in
    seconds. *)
Definition reshaped (z : stats.topAppsTopEntry) : topAppsEntry :=
  {| ApplicationId := stats.ApplicationId z;
     RequestsPerSecond := Z.quot (stats.Requests z) TopAppsEntryLifetime_Seconds;
     RequestsPerMinute := stats.Requests z |}.

(** The counters of an encoded metric block. *)
Definition counters (y : httpMetric) : list Z :=
  [requests y; responses_2xx y; responses_3xx y; responses_4xx y; responses_5xx y;
   responses_xxx y].

Definition tag_counters (m : option (gmap string (option httpMetric)))
  : option (gmap string (option (list Z))) :=
  fmap (M := option) (fmap (M := gmap string) (fmap (M := option) counters)) m.

(** The counters that a document reports: those of [all], those of every
    tagged block, and [bad_requests]. *)
Definition reported_counters (doc : varz_json)
  : option (list Z) * option (gmap string (option (list Z)))
    * option (gmap string (option (list Z))) * option (gmap string (option (list Z))) * Z :=
  (counters <$> all doc,
   tag_counters (tags_component doc),
   tag_counters (tags_framework doc),
   tag_counters (tags_runtime doc),
   bad_requests doc).

End Holders.

(** *** Goroutines and the mutex

    Every method of [Varz] begins with [x.Lock()] and [defer x.Unlock()].
    Goroutines calling these methods run interleaved, one statement at a
    time; a call waits until the mutex is free, holds it while the statements
    of its body run, and gives it up when the body ends or panics. *)
Section Locking.
Context {gm : GoMetrics} {cfg : StatsConfig}.

Inductive call : Type :=
| call_CaptureBadRequest
| call_CaptureBackendRequest (b : Backend)
| call_CaptureBackendResponse (b : Backend) (res : option Response) (d : Z)
| call_MarshalJSON (now : Z).

(** What the statements of a body work on: the aggregator, the store of
    cells, and the local [b] that [MarshalJSON] returns. *)
Definition frame : Type := Varz * gmap loc HttpMetric * option varz_json.

(** What a statement comes to: it goes on to the next statement with the
    frame it leaves, or it panics and the call unwinds, the aggregator and
    the cells staying as the panic finds them. *)
Inductive ending : Type :=
| Continues (fr : frame)
| Unwinds (x : Varz) (h : gmap loc HttpMetric).

Definition stmt : Type := frame -> ending.

(** A statement that does [f] and that, when [f] panics, has by then made
    of the aggregator and the cells what [u] says. *)
Definition on_state_or
    (f : Varz -> gmap loc HttpMetric -> outcome (Varz * gmap loc HttpMetric))
    (u : Varz -> gmap loc HttpMetric -> Varz * gmap loc HttpMetric) : stmt :=
  fun fr =>
    let '(x, h, r) := fr in
    match f x h with
    | Returns (x', h') => Continues (x', h', r)
    | Panics => Unwinds (u x h).1 (u x h).2
    end.

(** A statement that panics, if it does, before it has written to the
    aggregator or to a cell: a nil registry, a nil [All], a nil cell, or the
    insertion into a nil map, which follows a [NewHttpMetric] whose cell
    nothing refers to, so that the cell is not kept. *)
Definition on_state (f : Varz -> gmap loc HttpMetric -> outcome (Varz * gmap loc HttpMetric))
  : stmt :=
  on_state_or f (fun x h => (x, h)).

(** The aggregator as [updateTop] leaves it, when it returns and when it
    panics.  With a nil registry line 186 panics and nothing has been
    written.  Otherwise line 188 has stored the empty list, and every turn of
    the loop that came to its end has stored the list with its entry
    appended; the division of line 192 is evaluated before the [append], so
    a turn that panics leaves the list as it found it. *)
Fixpoint updateTop_loop_leaves (y : list stats.topAppsTopEntry) (acc : list topAppsEntry)
  : list topAppsEntry :=
  match y with
  | [] => acc
  | z :: y =>
      match int64_div (stats.Requests z) TopAppsEntryLifetime_Seconds with
      | Returns rps =>
          updateTop_loop_leaves y
            (acc ++ [{| ApplicationId := stats.ApplicationId z;
                        RequestsPerSecond := rps;
                        RequestsPerMinute := stats.Requests z |}])
      | Panics => acc
      end
  end.

Definition updateTop_leaves (now : Z) (x : Varz) : Varz :=
  let t := now + (-1) * Minute in
  match Varz_Registry x with
  | None => x
  | Some r =>
      let y := stats.TopSince (Registry_TopApps r) t 10 in
      let x := with_TopApps [] x in
      with_TopApps (updateTop_loop_leaves y (TopApps x)) x
  end.

(** The statements between [Lock] and [Unlock], in order. *)
Definition body (c : call) : list stmt :=
  match c with
  | call_CaptureBadRequest =>
      [on_state (fun x h => do x <- CaptureBadRequest x; Returns (x, h))]
  | call_CaptureBackendRequest b =>
      [on_state (visit captured_request component b);
       on_state (visit captured_request framework b);
       on_state (visit captured_request runtime b);
       on_state (fun x h => do h <- HttpMetric_CaptureRequest (All x) h; Returns (x, h))]
  | call_CaptureBackendResponse b res d =>
      [on_state (visit (captured_response res d) component b);
       on_state (visit (captured_response res d) framework b);
       on_state (visit (captured_response res d) runtime b);
       on_state (fun x h => do h <- HttpMetric_CaptureResponse (All x) res d h; Returns (x, h))]
  | call_MarshalJSON now =>
      [on_state (fun x h => do r <- deref (Varz_Registry x);
                            Returns (with_Urls (NumUris r) x, h));
       on_state (fun x h => do r <- deref (Varz_Registry x);
                            Returns (with_Droplets (NumBackends r) x, h));
       on_state (fun x h => do a <- load h (All x);
                            Returns (with_RequestsPerSec (Rate1 (Rate a)) x, h));
       on_state_or (fun x h => do x <- updateTop now x; Returns (x, h))
                   (fun x h => (updateTop_leaves now x, h));
       (fun fr => let '(x, h, _) := fr in
                  match json_Marshal x h with
                  | Returns b => Continues (x, h, Some b)
                  | Panics => Unwinds x h
                  end)]
  end.

(** The statements [ss] run to their end, one after another, without
    another goroutine in between. *)
Fixpoint run (ss : list stmt) (fr : frame) : outcome frame :=
  match ss with
  | [] => Returns fr
  | s :: ss =>
      match s fr with
      | Continues fr => run ss fr
      | Unwinds _ _ => Panics
      end
  end.

(** A goroutine making one call: waiting for the mutex; holding it, with
    the statements still to run and its local [b]; or done, with the value
    of [b] it returned, [None] if it panicked. *)
Inductive thread : Type :=
| Waiting (c : call)
| Holding (c : call) (rest : list stmt) (b : option varz_json)
| Finished (c : call) (result : option (option varz_json)).

Record machine : Type := {
  mutex : bool;
  varz : Varz;
  cells : gmap loc HttpMetric;
  threads : gmap nat thread
}.

(** A panic unwinds through the deferred [Unlock], which frees the mutex;
    the aggregator and the cells are left as the statement that panicked had
    made them. *)
Inductive step : machine -> machine -> Prop :=
| step_Lock (i : nat) (c : call) (m : machine) :
    threads m !! i = Some (Waiting c) ->
    mutex m = false ->
    step m {| mutex := true; varz := varz m; cells := cells m;
              threads := <[i := Holding c (body c) None]> (threads m) |}
| step_stmt (i : nat) (c : call) (s : stmt) (rest : list stmt) (b b' : option varz_json)
    (x' : Varz) (h' : gmap loc HttpMetric) (m : machine) :
    threads m !! i = Some (Holding c (s :: rest) b) ->
    s (varz m, cells m, b) = Continues (x', h', b') ->
    step m {| mutex := mutex m; varz := x'; cells := h';
              threads := <[i := Holding c rest b']> (threads m) |}
| step_panic (i : nat) (c : call) (s : stmt) (rest : list stmt) (b : option varz_json)
    (x' : Varz) (h' : gmap loc HttpMetric) (m : machine) :
    threads m !! i = Some (Holding c (s :: rest) b) ->
    s (varz m, cells m, b) = Unwinds x' h' ->
    step m {| mutex := false; varz := x'; cells := h';
              threads := <[i := Finished c None]> (threads m) |}
| step_Unlock (i : nat) (c : call) (b : option varz_json) (m : machine) :
    threads m !! i = Some (Holding c [] b) ->
    step m {| mutex := false; varz := varz m; cells := cells m;
              threads := <[i := Finished c (Some b)]> (threads m) |}.

(** At the start the mutex is free and every goroutine is about to call. *)
Definition initial (m : machine) : Prop :=
  mutex m = false /\ forall i t, threads m !! i = Some t -> exists c, t = Waiting c.

(** [execution init tr m]: the machine went from [init] to [m] through the
    states [tr], latest first, [init] and [m] included. *)
Inductive execution (init : machine) : list machine -> machine -> Prop :=
| execution_start : execution init [init] init
| execution_step (tr : list machine) (m m' : machine) :
    execution init tr m -> step m m' -> execution init (m' :: tr) m'.

Definition holding (m : machine) (i : nat) : Prop :=
  exists c rest b, threads m !! i = Some (Holding c rest b).

(** What holds of every state [m] of an execution through [tr]: with the
    mutex free no goroutine is inside a body; at most one is; the one inside
    holds the mutex, and what remains of its body, run from the present
    state, gives what the whole body gives when run alone from a state of the
    execution; a call that returned gave what its body gives when run alone
    from a state of the execution. *)
Definition lock_invariant (tr : list machine) (m : machine) : Prop :=
  (mutex m = false -> forall i, ~ holding m i) /\
  (forall i j, holding m i -> holding m j -> i = j) /\
  (forall i c rest b,
      threads m !! i = Some (Holding c rest b) ->
      mutex m = true /\
      exists m0, m0 ∈ tr /\
        run rest (varz m, cells m, b) = run (body c) (varz m0, cells m0, None)) /\
  (forall i c b,
      threads m !! i = Some (Finished c (Some b)) ->
      exists m0 x1 h1, m0 ∈ tr /\
        run (body c) (varz m0, cells m0, None) = Returns (x1, h1, b)).

(** The step of goroutine [i], if it can take one. *)
Definition next (i : nat) (m : machine) : option machine :=
  match threads m !! i with
  | Some (Waiting c) =>
      if mutex m then None
      else Some {| mutex := true; varz := varz m; cells := cells m;
                   threads := <[i := Holding c (body c) None]> (threads m) |}
  | Some (Holding c (s :: rest) b) =>
      match s (varz m, cells m, b) with
      | Continues (x', h', b') =>
          Some {| mutex := mutex m; varz := x'; cells := h';
                  threads := <[i := Holding c rest b']> (threads m) |}
      | Unwinds x' h' =>
          Some {| mutex := false; varz := x'; cells := h';
                  threads := <[i := Finished c None]> (threads m) |}
      end
  | Some (Holding c [] b) =>
      Some {| mutex := false; varz := varz m; cells := cells m;
              threads := <[i := Finished c (Some b)]> (threads m) |}
  | _ => None
  end.

(** The states a schedule leads through, latest first; a goroutine that is
    scheduled while it cannot step is passed over. *)
Fixpoint schedule (order : list nat) (tr : list machine) (m : machine)
  : list machine * machine :=
  match order with
  | [] => (tr, m)
  | i :: order =>
      match next i m with
      | Some m' => schedule order (m' :: tr) m'
      | None => schedule order tr m
      end
  end.

End Locking.

(** *** Sequences of calls *)
Section Sequences.
Context {gm : GoMetrics} {cfg : StatsConfig}.

(** A call on one cell: [x.CaptureRequest()] or [x.CaptureResponse(y, z)]. *)
Inductive cell_event : Type :=
| cell_request
| cell_response (y : option Response) (z : Z).

Definition cell_step (e : cell_event) (c : HttpMetric) : HttpMetric :=
  match e with
  | cell_request => captured_request c
  | cell_response y z => captured_response y z c
  end.

(** The calls [es] made in order on the cell [x]. *)
Fixpoint HttpMetric_calls (es : list cell_event) (x : ptr) (h : gmap loc HttpMetric)
  : outcome (gmap loc HttpMetric) :=
  match es with
  | [] => Returns h
  | e :: es =>
      do h <- match e with
              | cell_request => HttpMetric_CaptureRequest x h
              | cell_response y z => HttpMetric_CaptureResponse x y z h
              end;
      HttpMetric_calls es x h
  end.

Fixpoint requests_in (es : list cell_event) : Z :=
  match es with
  | [] => 0
  | cell_request :: es => 1 + requests_in es
  | cell_response _ _ :: es => requests_in es
  end.

Fixpoint responses_in (k : bucket) (es : list cell_event) : Z :=
  match es with
  | [] => 0
  | cell_request :: es => responses_in k es
  | cell_response y _ :: es =>
      (if decide (bucket_of y = k) then 1 else 0) + responses_in k es
  end.

(** The five bucket counters of a cell, added up. *)
Definition responses_total (c : HttpMetric) : Z :=
  bucket_count b2xx c + bucket_count b3xx c + bucket_count b4xx c + bucket_count b5xx c
  + bucket_count bxxx c.

(** Every counter of the cell is an [int64] that [n] more increments do not
    overflow. *)
Definition headroom (n : Z) (c : HttpMetric) : Prop :=
  (min_int64 <= Count (Requests c) /\ Count (Requests c) + n <= max_int64) /\
  forall k, min_int64 <= bucket_count k c /\ bucket_count k c + n <= max_int64.

(** A capture call on the aggregator. *)
Inductive capture : Type :=
| BadRequest
| BackendRequest (b : Backend)
| BackendResponse (b : Backend) (res : option Response) (d : Z).

Definition capture_call (e : capture) (x : Varz) (h : gmap loc HttpMetric)
  : outcome (Varz * gmap loc HttpMetric) :=
  match e with
  | BadRequest => do x <- CaptureBadRequest x; Returns (x, h)
  | BackendRequest b => CaptureBackendRequest b x h
  | BackendResponse b res d => CaptureBackendResponse b res d x h
  end.

(** The capture calls [es] made in order. *)
Fixpoint captures (es : list capture) (x : Varz) (h : gmap loc HttpMetric)
  : outcome (Varz * gmap loc HttpMetric) :=
  match es with
  | [] => Returns (x, h)
  | e :: es => do (x, h) <- capture_call e x h; captures es x h
  end.

(** The calls that a sequence of captures is to make on the cell of slot
    [s]: one for every backend request or response whose backend reaches
    [s], in order. *)
Definition events_for (s : slot) (es : list capture) : list cell_event :=
  omap (fun e => match e with
                 | BadRequest => None
                 | BackendRequest b => if reached b s then Some cell_request else None
                 | BackendResponse b res d =>
                     if reached b s then Some (cell_response res d) else None
                 end) es.

(** A slot after a call on its cell: the call is made on a new cell where
    the slot held none. *)
Definition slot_step (o : option HttpMetric) (e : cell_event) : option HttpMetric :=
  Some (cell_step e (default NewHttpMetric_cell o)).

Fixpoint bad_requests_in (es : list capture) : Z :=
  match es with
  | [] => 0
  | BadRequest :: es => 1 + bad_requests_in es
  | _ :: es => bad_requests_in es
  end.

(** The fields of the aggregator that only serialization writes, with the
    registry pointer. *)
Definition derived_fields (x : Varz)
  : option Registry * Z * Z * float64 * list topAppsEntry :=
  (Varz_Registry x, Urls x, Droplets x, RequestsPerSec x, TopApps x).

(** The map of a dimension in the document. *)
Definition doc_tags (d : dimension) (doc : varz_json)
  : option (gmap string (option httpMetric)) :=
  match d with
  | component => tags_component doc
  | framework => tags_framework doc
  | runtime => tags_runtime doc
  end.

(** The bucket counters of an encoded metric block. *)
Definition reported_bucket (k : bucket) (y : httpMetric) : Z :=
  match k with
  | b2xx => responses_2xx y
  | b3xx => responses_3xx y
  | b4xx => responses_4xx y
  | b5xx => responses_5xx y
  | bxxx => responses_xxx y
  end.

(** Some goroutine has not finished its call. *)
Definition unfinished (m : machine) : Prop :=
  exists i t, threads m !! i = Some t /\ forall c r, t <> Finished c r.

(** The steps a goroutine has yet to take: taking the mutex, the statements
    of its body, and giving the mutex up. *)
Definition weight (t : thread) : nat :=
  match t with
  | Waiting c => length (body c) + 2
  | Holding _ rest _ => length rest + 1
  | Finished _ _ => 0
  end.

Definition remaining (ts : gmap nat thread) : nat :=
  map_fold (fun _ t acc => weight t + acc)%nat 0%nat ts.

(** The bodies of the calls [cs] run one after another, each alone. *)
Fixpoint run_calls (cs : list call) (x : Varz) (h : gmap loc HttpMetric)
  : outcome (Varz * gmap loc HttpMetric) :=
  match cs with
  | [] => Returns (x, h)
  | c :: cs => do fr <- run (body c) (x, h, None); run_calls cs fr.1.1 fr.1.2
  end.

(** The capture a call makes; serialization makes none. *)
Definition call_captures (c : call) : list capture :=
  match c with
  | call_CaptureBadRequest => [BadRequest]
  | call_CaptureBackendRequest b => [BackendRequest b]
  | call_CaptureBackendResponse b res d => [BackendResponse b res d]
  | call_MarshalJSON _ => []
  end.

(** No goroutine has panicked. *)
Definition no_panic (ts : gmap nat thread) : Prop :=
  forall i c, ts !! i <> Some (Finished c None).

(** [log] lists the goroutines whose call has returned, each once, with
    the call. *)
Definition returned_calls (ts : gmap nat thread) (log : list (nat * call)) : Prop :=
  NoDup log.*1 /\
  forall i c, (i, c) ∈ log <-> exists b, ts !! i = Some (Finished c (Some b)).

End Sequences.

End router.

(** ** Instances on which the definitions can be run *)

(** The three foreign error structs reduced to the text of their message;
    [None] is a crypto/x509 struct whose pointer field is nil, such as the
    zero value [x509.HostnameError{}], on which [Error] panics. *)
Definition text_errors : error_classifiers.StdErrors :=
  {| error_classifiers.RecordHeaderError := string;
     error_classifiers.HostnameError := option string;
     error_classifiers.UnknownAuthorityError := option string;
     error_classifiers.RecordHeaderError_Error := fun m => ("tls: " +:+ m)%string;
     error_classifiers.HostnameError_Error := fun m => deref m;
     error_classifiers.UnknownAuthorityError_Error := fun m => deref m |}.

(** A peer reset as the net package reports it: a read on a TCP connection
    that failed with ECONNRESET. *)
Definition peer_reset_op : @error_classifiers.OpError text_errors :=
  error_classifiers.mkOpError "read" "tcp" None None
    (error_classifiers.other_error "*os.SyscallError"
       (Returns "read: connection reset by peer"%string)).

Definition peer_reset : @error_classifiers.error text_errors :=
  error_classifiers.ptr_OpError (Some peer_reset_op).

(** A refused dial. *)
Definition dial_refused_op : @error_classifiers.OpError text_errors :=
  error_classifiers.mkOpError "dial" "tcp" None None
    (error_classifiers.other_error "*os.SyscallError"
       (Returns "connect: connection refused"%string)).

Definition dial_refused : @error_classifiers.error text_errors :=
  error_classifiers.ptr_OpError (Some dial_refused_op).

(** A read error whose [Err] field was left nil. *)
Definition read_without_cause : @error_classifiers.error text_errors :=
  error_classifiers.ptr_OpError
    (Some (error_classifiers.mkOpError "read" "tcp" None None error_classifiers.nil)).

(** A read error whose [Err] is the zero value [x509.HostnameError{}]. *)
Definition read_with_bare_hostname_error : @error_classifiers.error text_errors :=
  error_classifiers.ptr_OpError
    (Some (error_classifiers.mkOpError "read" "tcp" None None
             (@error_classifiers.val_HostnameError text_errors None))).

(** A go-metrics stand-in that records what it is given: the meter counts
    its marks, the histogram lists its updates, and percentiles are not
    computed. *)
Definition recording_metrics : router.GoMetrics :=
  {| router.float64 := Q;
     router.float64_lit := fun q => q;
     router.Meter := Z;
     router.NewMeter := 0;
     router.Mark := fun n m => m + n;
     router.Rate1 := fun m => inject_Z m;
     router.Rate5 := fun m => inject_Z m;
     router.Rate15 := fun m => inject_Z m;
     router.Sample := unit;
     router.NewExpDecaySample := fun _ _ => tt;
     router.Histogram := list Z;
     router.NewHistogram := fun _ => [];
     router.Update := fun v l => l ++ [v];
     router.Percentiles := fun ps _ => (fun _ => 0%Q) <$> ps |}.

(** A go-metrics stand-in whose histogram keeps every sample it is given,
    as a reservoir does that has not reached its capacity, and answers
    percentile queries as [metrics.SamplePercentiles] says; [float64] numbers
    are rationals. *)
Definition sampling_metrics : router.GoMetrics :=
  {| router.float64 := Q;
     router.float64_lit := fun q => q;
     router.Meter := Z;
     router.NewMeter := 0;
     router.Mark := fun n m => m + n;
     router.Rate1 := fun m => inject_Z m;
     router.Rate5 := fun m => inject_Z m;
     router.Rate15 := fun m => inject_Z m;
     router.Sample := unit;
     router.NewExpDecaySample := fun _ _ => tt;
     router.Histogram := list Z;
     router.NewHistogram := fun _ => [];
     router.Update := fun v l => l ++ [v];
     router.Percentiles := fun ps l => metrics.SamplePercentiles l ps |}.

(** A store with two cells: cell 1 has seen three responses, which took 30,
    10 and 20 nanoseconds; cell 2 is new. *)
Definition latency_store : gmap router.loc (@router.HttpMetric sampling_metrics) :=
  {[ 1%positive :=
       router.captured_response None 20
         (router.captured_response None 10
            (router.captured_response None 30
               (router.NewHttpMetric_cell (gm := sampling_metrics))));
     2%positive := router.NewHttpMetric_cell (gm := sampling_metrics) ]}.

(** A one-minute lifetime of the top-apps entries. *)
Definition one_minute : router.StatsConfig :=
  {| router.TopAppsEntryLifetime_Seconds := 60 |}.

(** A new aggregator in an empty store. *)
Definition varz0 : @router.Varz recording_metrics * gmap router.loc (@router.HttpMetric recording_metrics) :=
  @router.NewVarz recording_metrics ∅.

(** A registry of three routes to five backends whose ranking names two
    applications. *)
Definition registry0 : router.Registry :=
  {| router.NumUris := 3;
     router.NumBackends := 5;
     router.Registry_TopApps :=
       {| stats.ranked_since := fun _ =>
            [ {| stats.ApplicationId := "app-a"; stats.Requests := 600 |};
              {| stats.ApplicationId := "app-b"; stats.Requests := 59 |} ] |} |}.

(** A backend tagged with a framework and a runtime, but no component. *)
Definition backend0 : router.Backend :=
  {| router.Tags := {[ "framework"%string := "sinatra"%string;
                       "runtime"%string := "ruby19"%string ]} |}.

(** Two goroutines on a new aggregator whose registry is set: goroutine 0
    serializes, goroutine 1 captures a request to [backend0]. *)
Definition machine0 : @router.machine recording_metrics :=
  {| router.mutex := false;
     router.varz := router.with_Registry (Some registry0) varz0.1;
     router.cells := varz0.2;
     router.threads := {[ 0%nat := router.Waiting (router.call_MarshalJSON 0);
                          1%nat := router.Waiting (router.call_CaptureBackendRequest backend0) ]} |}.

(** Goroutine 0 takes the mutex; goroutine 1, scheduled between the
    statements of the serialization, has to wait, and runs once goroutine 0
    has returned. *)
Definition schedule0 : list nat := [0; 1; 0; 0; 1; 0; 0; 1; 0; 0; 1; 1; 1; 1; 1; 1]%nat.

(** The zero value [Varz{}]: what a caller has who did not go through
    [NewVarz]. *)
Definition zero_varz : @router.Varz recording_metrics :=
  {| router.Varz_Registry := None; router.All := None;
     router.Component := None; router.Framework := None; router.Runtime := None;
     router.Urls := 0; router.Droplets := 0; router.BadRequests := 0;
     router.RequestsPerSec := @router.float64_lit recording_metrics 0;
     router.TopApps := [] |}.

(** A backend of the "dea" component. *)
Definition backend_dea : router.Backend :=
  {| router.Tags := {[ "component"%string := "dea"%string;
                       "runtime"%string := "ruby19"%string ]} |}.

(** A request to [backend0], a bad request, the 503 answer of [backend0], and
    a request to [backend_dea]. *)
Definition captures0 : list router.capture :=
  [ router.BackendRequest backend0;
    router.BadRequest;
    router.BackendResponse backend0 (Some {| router.StatusCode := 503 |}) 7000;
    router.BackendRequest backend_dea ].

(** An entry lifetime under one second. *)
Definition sub_second : router.StatsConfig :=
  {| router.TopAppsEntryLifetime_Seconds := 0 |}.

(** One goroutine that serializes an aggregator whose [TopApps] still holds
    the list of an earlier serialization. *)
Definition machine_stale : @router.machine recording_metrics :=
  {| router.mutex := false;
     router.varz :=
       router.with_TopApps
         [ {| router.ApplicationId := "app-z"; router.RequestsPerSecond := 1;
              router.RequestsPerMinute := 60 |} ]
         (router.with_Registry (Some registry0) varz0.1);
     router.cells := varz0.2;
     router.threads := {[ 0%nat := router.Waiting (router.call_MarshalJSON 0) ]} |}.

(** * Theorems *)

(** ** The classifiers *)

Module classifier_facts.
Import error_classifiers.

Section Facts.
Context {std : StdErrors}.

Ltac unfold_classifiers :=
  unfold Classify, classifier, AttemptedTLSWithNonTLSBackend, Dial, ConnectionResetOnRead,
    RemoteFailedCertCheck, RemoteHandshakeFailure, HostnameMismatch, UntrustedCert,
    shape, op_error_shape, defined_on, message_tag, asserts_OpError in *;
  simpl in *.

Ltac split_on_tag o :=
  destruct (String.eqb (Op o) _) eqn:?; simpl in *;
  try reflexivity; try discriminate;
  destruct (Error (Err o)) eqn:?; simpl in *;
  try reflexivity; try discriminate; try congruence.

(** A classifier that asserts [*net.OpError] answers false on every other
    dynamic type, the nil interface included. *)
Lemma foreign_type_rejected (c : category) (err : error) :
  is_ptr_OpError err = false -> classifier c err = Returns (shape c err).
Proof.
  intros Hty. destruct err; try discriminate Hty; destruct c; reflexivity.
Qed.

Lemma type_switch_total (c : category) (err : error) :
  asserts_OpError c = false -> classifier c err = Returns (shape c err).
Proof.
  intros Hc. destruct c; try discriminate Hc; destruct err; reflexivity.
Qed.

Lemma defined_on_returns (c : category) (err : error) :
  defined_on c err = true -> classifier c err = Returns (shape c err).
Proof.
  intros Hd.
  destruct (asserts_OpError c) eqn:Hc; [| by apply type_switch_total].
  destruct (is_ptr_OpError err) eqn:Hty; [| by apply foreign_type_rejected].
  destruct err as [|[o|]| | | | | | | |]; try discriminate Hty.
  - destruct c; try discriminate Hc; unfold_classifiers; split_on_tag o.
  - unfold defined_on in Hd. rewrite Hc in Hd. discriminate Hd.
Qed.

(** Outside [defined_on] the classifier panics: the domain is exact. *)
Lemma outside_defined_on_panics (c : category) (err : error) :
  defined_on c err = false -> classifier c err = Panics.
Proof.
  intros Hd. unfold defined_on in Hd.
  destruct (asserts_OpError c) eqn:Hc; [| discriminate Hd]. simpl in Hd.
  destruct err as [|[o|]| | | | | | | |]; try discriminate Hd.
  - destruct c; try discriminate Hc; unfold_classifiers; split_on_tag o.
  - destruct c; try discriminate Hc; reflexivity.
Qed.

(** C1 (amended).  Every classifier returns, and returns exactly whether
    the error has its shape (so false on every error that has not), in each
    of these cases: the classifier is one of the three type switches; the
    error is nil or of a dynamic type other than [*net.OpError]; the error is
    a non-nil [*net.OpError] whose [Err.Error()] returns; or, generally, the
    error lies in [defined_on], which leaves out only a nil [*net.OpError]
    and a matching operation tag whose [Err.Error()] call panics. *)
Theorem classify_returns_shape (c : category) (err : error) :
  asserts_OpError c = false \/
  is_ptr_OpError err = false \/
  (exists o m, err = ptr_OpError (Some o) /\ Error (Err o) = Returns m) \/
  defined_on c err = true ->
  Classify (classifier c) err = Returns (shape c err) /\
  (shape c err = false -> Classify (classifier c) err = Returns false).
Proof.
  intros H.
  assert (E : Classify (classifier c) err = Returns (shape c err)).
  { unfold Classify.
    destruct H as [H | [H | [(o & m & -> & Hm) | H]]].
    - by apply type_switch_total.
    - by apply foreign_type_rejected.
    - apply defined_on_returns. unfold defined_on. simpl. rewrite Hm.
      destruct (message_tag c); [| by rewrite orb_true_r].
      by rewrite !orb_true_r.
    - by apply defined_on_returns. }
  split; [exact E |]. intros Hs. by rewrite E, Hs.
Qed.

(** C4.  The literal scenarios: a read error with the peer-reset message is
    accepted by [ConnectionResetOnRead] alone; a dial error by [Dial] alone;
    a hostname error, by value or by pointer, by [HostnameMismatch] alone;
    the nil error and an error of an unrelated type by none. *)
Theorem literal_scenarios :
  (forall o : OpError,
      Op o = "read"%string ->
      Error (Err o) = Returns "read: connection reset by peer"%string ->
      forall c, Classify (classifier c) (ptr_OpError (Some o))
                = Returns (category_eqb c cConnectionResetOnRead)) /\
  (forall o : OpError,
      Op o = "dial"%string ->
      forall c, Classify (classifier c) (ptr_OpError (Some o))
                = Returns (category_eqb c cDial)) /\
  (forall (v : HostnameError) c,
      Classify (classifier c) (val_HostnameError v)
      = Returns (category_eqb c cHostnameMismatch)) /\
  (forall (p : option HostnameError) c,
      Classify (classifier c) (ptr_HostnameError p)
      = Returns (category_eqb c cHostnameMismatch)) /\
  (forall c, Classify (classifier c) nil = Returns false) /\
  (forall T msg c, Classify (classifier c) (other_error T msg) = Returns false).
Proof.
  repeat split.
  - intros o Hop Hm c. destruct c; unfold_classifiers; rewrite ?Hop, ?Hm; reflexivity.
  - intros o Hop c. destruct c; unfold_classifiers; rewrite ?Hop; reflexivity.
  - intros v c. destruct c; reflexivity.
  - intros p c. destruct c; reflexivity.
  - intros c. destruct c; reflexivity.
  - intros T msg c. destruct c; reflexivity.
Qed.

(** C10.  The four [*net.OpError] classifiers answer true only on a non-nil
    pointer [*net.OpError] and answer false on a [net.OpError] held by value;
    the three type switches answer true on the value and on the pointer form
    of their type. *)
Theorem pointer_and_value_forms :
  (forall c err,
      asserts_OpError c = true ->
      Classify (classifier c) err = Returns true ->
      exists o, err = ptr_OpError (Some o)) /\
  (forall c v,
      asserts_OpError c = true ->
      Classify (classifier c) (val_OpError v) = Returns false) /\
  (forall v, Classify AttemptedTLSWithNonTLSBackend (val_RecordHeaderError v) = Returns true) /\
  (forall p, Classify AttemptedTLSWithNonTLSBackend (ptr_RecordHeaderError p) = Returns true) /\
  (forall v, Classify HostnameMismatch (val_HostnameError v) = Returns true) /\
  (forall p, Classify HostnameMismatch (ptr_HostnameError p) = Returns true) /\
  (forall v, Classify UntrustedCert (val_UnknownAuthorityError v) = Returns true) /\
  (forall p, Classify UntrustedCert (ptr_UnknownAuthorityError p) = Returns true).
Proof.
  repeat split.
  - intros c err Hc H.
    destruct err as [|[o|]| | | | | | | |];
      try (destruct c; discriminate Hc || discriminate H).
    by exists o.
  - intros c v Hc. destruct c; discriminate Hc || reflexivity.
Qed.

End Facts.

(** C1, as stated, fails: a read error whose [Err] is nil has not the shape
    of a peer reset, and [ConnectionResetOnRead] panics on it. *)
Lemma connection_reset_panics_without_cause :
  shape cConnectionResetOnRead read_without_cause = false /\
  Classify ConnectionResetOnRead read_without_cause = Panics /\
  ~ (forall (c : category) (err : @error text_errors),
        shape c err = false -> Classify (classifier c) err = Returns false).
Proof.
  split; [reflexivity |]. split; [reflexivity |].
  intros H. specialize (H cConnectionResetOnRead read_without_cause eq_refl).
  discriminate H.
Qed.

Lemma classify_returns_shape_witness :
  is_ptr_OpError (@nil text_errors) = false /\
  Classify (classifier cConnectionResetOnRead) (@nil text_errors) = Returns false.
Proof.
  split; [reflexivity |].
  apply (classify_returns_shape cConnectionResetOnRead nil);
    [right; left; reflexivity | reflexivity].
Defined.

Lemma literal_scenarios_witness :
  Classify ConnectionResetOnRead peer_reset = Returns true /\
  Classify Dial peer_reset = Returns false /\
  Classify Dial dial_refused = Returns true.
Proof.
  destruct (@literal_scenarios text_errors) as (Hread & Hdial & _).
  split; [| split].
  - exact (Hread peer_reset_op eq_refl eq_refl cConnectionResetOnRead).
  - exact (Hread peer_reset_op eq_refl eq_refl cDial).
  - exact (Hdial dial_refused_op eq_refl cDial).
Defined.

Lemma pointer_and_value_forms_witness :
  Classify (classifier cDial) dial_refused = Returns true /\
  exists o, dial_refused = ptr_OpError (Some o).
Proof.
  split; [reflexivity |].
  exact (proj1 (@pointer_and_value_forms text_errors) cDial dial_refused eq_refl eq_refl).
Defined.

End classifier_facts.

(** ** Machine integers *)

Lemma int64_wrap_small (z : Z) : int64_range z -> int64_wrap z = z.
Proof.
  unfold int64_range, min_int64, max_int64, int64_wrap. intros Hz.
  rewrite Z.mod_small; lia.
Qed.

Lemma Inc_one_below_max (n : Z) :
  int64_range n -> n < max_int64 -> router.Inc 1 n = n + 1.
Proof.
  intros Hn Hlt. unfold router.Inc. apply int64_wrap_small.
  unfold int64_range, min_int64, max_int64 in *. lia.
Qed.

Lemma quot_hundreds (q s : Z) :
  0 <= q -> 100 * q <= s < 100 * q + 100 -> Z.quot s 100 = q.
Proof.
  intros Hq Hs. rewrite Z.quot_div_nonneg by lia.
  symmetry. apply (Z.div_unique s 100 q (s - 100 * q)); lia.
Qed.

Lemma quot_nonneg_le (a w : Z) : 0 <= a -> 0 < w -> 0 <= Z.quot a w <= a.
Proof.
  intros Ha Hw.
  pose proof (Z.quot_pos a w Ha Hw) as Hq.
  pose proof (Z.quot_rem' a w) as E.
  pose proof (Z.rem_bound_pos a w Ha Hw) as Hr.
  split; [exact Hq |]. nia.
Qed.

Lemma quot_in_range (a w : Z) : int64_range a -> 0 < w -> int64_range (Z.quot a w).
Proof.
  unfold int64_range, min_int64, max_int64. intros Ha Hw.
  destruct (Z_le_gt_dec 0 a) as [Hpos | Hneg].
  - pose proof (quot_nonneg_le a w Hpos Hw). lia.
  - pose proof (quot_nonneg_le (- a) w ltac:(lia) Hw) as H.
    rewrite Z.quot_opp_l in H by lia. lia.
Qed.

(** ** The metric cell and the tagged set *)

Module varz_facts.
Import router.

Section Facts.
Context {gm : GoMetrics} {cfg : StatsConfig}.

(** The [switch s] of [CaptureResponse] picks the bucket the specification
    describes. *)
Lemma switch_is_bucket {A : Type} (q : Z) (a2 a3 a4 a5 ax : A) :
  match q with 2 => a2 | 3 => a3 | 4 => a4 | 5 => a5 | _ => ax end =
  if q =? 2 then a2 else if q =? 3 then a3 else if q =? 4 then a4
  else if q =? 5 then a5 else ax.
Proof.
  destruct q as [|p|p]; try reflexivity.
  destruct p as [p|p|]; try reflexivity;
    destruct p as [p|p|]; try reflexivity;
    destruct p as [p|p|]; reflexivity.
Qed.

(** C2.  [CaptureResponse] on an allocated cell adds one (in [int64]) to the
    counter of the bucket of the response, which is 2xx..5xx when the
    response is present and its status code divided by 100 is 2..5 and
    "other" otherwise, leaves the other four bucket counters, the request
    counter and the meter as they were, and updates the latency histogram
    with the elapsed nanoseconds.  Status codes 200-299, 300-399, 400-499 and
    500-599 fall in the buckets of their hundreds; an absent response falls
    in "other". *)
Theorem CaptureResponse_one_bucket (l : loc) (c : HttpMetric) (y : option Response)
    (z : Z) (h : gmap loc HttpMetric) :
  h !! l = Some c ->
  exists c',
    HttpMetric_CaptureResponse (Some l) y z h = Returns (<[l := c']> h) /\
    (forall k, bucket_count k c' =
               if decide (k = bucket_of y) then int64_wrap (bucket_count k c + 1)
               else bucket_count k c) /\
    (int64_range (bucket_count (bucket_of y) c) ->
     bucket_count (bucket_of y) c < max_int64 ->
     bucket_count (bucket_of y) c' = bucket_count (bucket_of y) c + 1) /\
    Latency c' = Update z (Latency c) /\
    Requests c' = Requests c /\
    Rate c' = Rate c /\
    (forall s, 200 <= s <= 299 -> bucket_of (Some {| StatusCode := s |}) = b2xx) /\
    (forall s, 300 <= s <= 399 -> bucket_of (Some {| StatusCode := s |}) = b3xx) /\
    (forall s, 400 <= s <= 499 -> bucket_of (Some {| StatusCode := s |}) = b4xx) /\
    (forall s, 500 <= s <= 599 -> bucket_of (Some {| StatusCode := s |}) = b5xx) /\
    bucket_of None = bxxx.
Proof.
  intros Hl.
  unfold HttpMetric_CaptureResponse, load, store_at. simpl. rewrite Hl. simpl.
  eexists. split; [reflexivity |].
  assert (Hcount : forall k,
    bucket_count k
      (with_Latency (Update z)
         match match y with Some r => Z.quot (StatusCode r) 100 | None => 0 end with
         | 2 => with_Responses2xx (Inc 1) c
         | 3 => with_Responses3xx (Inc 1) c
         | 4 => with_Responses4xx (Inc 1) c
         | 5 => with_Responses5xx (Inc 1) c
         | _ => with_ResponsesXxx (Inc 1) c
         end) =
    if decide (k = bucket_of y) then int64_wrap (bucket_count k c + 1)
    else bucket_count k c).
  { intros k. rewrite switch_is_bucket.
    unfold bucket_of, bucket_of_status.
    destruct y as [r|]; simpl.
    - destruct (Z.quot (StatusCode r) 100 =? 2);
        [destruct k; reflexivity |].
      destruct (Z.quot (StatusCode r) 100 =? 3);
        [destruct k; reflexivity |].
      destruct (Z.quot (StatusCode r) 100 =? 4);
        [destruct k; reflexivity |].
      destruct (Z.quot (StatusCode r) 100 =? 5);
        destruct k; reflexivity.
    - destruct k; reflexivity. }
  split; [exact Hcount |].
  split.
  { intros Hr Hlt. rewrite Hcount. rewrite decide_True by reflexivity.
    apply (Inc_one_below_max _ Hr Hlt). }
  split; [rewrite switch_is_bucket; repeat case_match; reflexivity |].
  split; [rewrite switch_is_bucket; repeat case_match; reflexivity |].
  split; [rewrite switch_is_bucket; repeat case_match; reflexivity |].
  unfold bucket_of, bucket_of_status. simpl.
  repeat split; intros s Hs.
  - rewrite (quot_hundreds 2 s); [reflexivity | lia | lia].
  - rewrite (quot_hundreds 3 s); [reflexivity | lia | lia].
  - rewrite (quot_hundreds 4 s); [reflexivity | lia | lia].
  - rewrite (quot_hundreds 5 s); [reflexivity | lia | lia].
Qed.


(** *** Get-or-create *)

Lemma map_get_lookup (m : gmap string ptr) (t : string) (y : ptr) :
  m !! t = Some y -> map_get (Some m) t = y.
Proof. unfold map_get, ptr in *. by intros ->. Qed.

Lemma map_get_set_eq (m : gmap string ptr) (t : string) (y : ptr) :
  map_get (Some (<[t := y]> m)) t = y.
Proof. unfold map_get. by rewrite lookup_insert_eq. Qed.

Lemma map_get_set_ne (m : gmap string ptr) (t t' : string) (y : ptr) :
  t' <> t -> map_get (Some (<[t := y]> m)) t' = map_get (Some m) t'.
Proof. intros Hne. unfold map_get. by rewrite lookup_insert_ne. Qed.

(** The two ways [httpMetric] can return: the entry was there, or a cell was
    made at a location not in use and entered in a non-nil map. *)
Lemma httpMetric_cases (x : option (gmap string ptr)) (t : string)
    (h : gmap loc HttpMetric) (y : ptr) (x' : option (gmap string ptr))
    (h' : gmap loc HttpMetric) :
  TaggedHttpMetric_httpMetric x t h = Returns (y, x', h') ->
  (exists l, map_get x t = Some l /\ y = Some l /\ x' = x /\ h' = h) \/
  (exists m, map_get x t = None /\ x = Some m /\
             y = Some (fresh (dom h)) /\
             x' = Some (<[t := Some (fresh (dom h))]> m) /\
             h' = <[fresh (dom h) := NewHttpMetric_cell]> h).
Proof.
  unfold TaggedHttpMetric_httpMetric.
  destruct (map_get x t) as [l|] eqn:Hget.
  - intros [= <- <- <-]. left. by exists l.
  - unfold NewHttpMetric, alloc. destruct x as [m|]; simpl; [| discriminate].
    intros [= <- <- <-]. right. by exists m.
Qed.

(** C6.  [httpMetric] returns on every map made by [make]; whenever it
    returns, the cell it returns is not nil and is the one the map now holds
    for the tag, the entries of the other tags are as before, an entry that
    was there is returned with map and store untouched, and a second call
    with the same tag returns the same cell and changes neither the map nor
    the store. *)
Theorem httpMetric_get_or_create (x : option (gmap string ptr)) (t : string)
    (h : gmap loc HttpMetric) :
  (is_Some x -> exists y x' h', TaggedHttpMetric_httpMetric x t h = Returns (y, x', h')) /\
  (forall y x' h',
      TaggedHttpMetric_httpMetric x t h = Returns (y, x', h') ->
      is_Some y /\
      map_get x' t = y /\
      (forall t', t' <> t -> map_get x' t' = map_get x t') /\
      (is_Some (map_get x t) -> y = map_get x t /\ x' = x /\ h' = h) /\
      TaggedHttpMetric_httpMetric x' t h' = Returns (y, x', h')).
Proof.
  split.
  - intros [m ->]. unfold TaggedHttpMetric_httpMetric.
    destruct (map_get (Some m) t) as [l|]; simpl; eauto.
  - intros y x' h' Hret.
    destruct (httpMetric_cases _ _ _ _ _ _ Hret)
      as [(l & Hget & -> & -> & ->) | (m & Hget & -> & -> & -> & ->)].
    + split; [eauto |]. split; [exact Hget |]. split; [done |].
      split; [done | exact Hret].
    + split; [eauto |]. split; [apply map_get_set_eq |].
      split; [intros t' Hne; by apply map_get_set_ne |].
      split; [rewrite Hget; by intros [? ?] |].
      unfold TaggedHttpMetric_httpMetric. by rewrite map_get_set_eq.
Qed.

(** *** The top-apps list *)

Lemma updateTop_loop_reshapes (y : list stats.topAppsTopEntry) (acc : list topAppsEntry) :
  0 < TopAppsEntryLifetime_Seconds ->
  Forall (fun z => int64_range (stats.Requests z)) y ->
  updateTop_loop y acc = Returns (acc ++ (reshaped <$> y)).
Proof.
  intros Hw Hy. revert acc.
  induction Hy as [| z y Hz Hy IH]; intros acc; simpl.
  - by rewrite app_nil_r.
  - unfold int64_div.
    destruct (TopAppsEntryLifetime_Seconds =? 0) eqn:E; [lia |]. simpl.
    rewrite int64_wrap_small by (by apply quot_in_range).
    rewrite IH. by rewrite <- app_assoc.
Qed.

Lemma updateTop_returns (now : Z) (x : Varz) (r : Registry) :
  Varz_Registry x = Some r ->
  0 < TopAppsEntryLifetime_Seconds ->
  Forall (fun z => int64_range (stats.Requests z))
         (stats.ranked_since (Registry_TopApps r) (now + -1 * Minute)) ->
  exists x',
    updateTop now x = Returns x' /\
    x' = with_TopApps (TopApps x') x /\
    TopApps x' = reshaped <$> stats.TopSince (Registry_TopApps r) (now + -1 * Minute) 10.
Proof.
  intros Hr Hw Hrange.
  unfold updateTop. rewrite Hr. simpl.
  rewrite updateTop_loop_reshapes;
    [| exact Hw | unfold stats.TopSince; by apply Forall_take].
  simpl. eexists. split; [reflexivity |]. split; reflexivity.
Qed.

(** C5.  With the registry set, a positive entry lifetime and request
    counts that are [int64] values, [updateTop] returns; the list it stores is
    the registry's answer to [TopSince(now - 1 minute, 10)], entry by entry
    and in order, with rpm the entry's request count and rps that count
    divided (truncating) by the lifetime in seconds; the list has at most 10
    entries; with a lifetime of 60 seconds an entry of 600 requests has
    rps 10 and rpm 600; no other field of the aggregator changes. *)
Theorem updateTop_reshapes (now : Z) (x : Varz) (r : Registry) :
  Varz_Registry x = Some r ->
  0 < TopAppsEntryLifetime_Seconds ->
  Forall (fun z => int64_range (stats.Requests z))
         (stats.ranked_since (Registry_TopApps r) (now + -1 * Minute)) ->
  exists x',
    updateTop now x = Returns x' /\
    x' = with_TopApps (TopApps x') x /\
    TopApps x' = reshaped <$> stats.TopSince (Registry_TopApps r) (now + -1 * Minute) 10 /\
    (length (TopApps x') <= 10)%nat /\
    (forall e, e ∈ TopApps x' ->
       RequestsPerSecond e = Z.quot (RequestsPerMinute e) TopAppsEntryLifetime_Seconds) /\
    (TopAppsEntryLifetime_Seconds = 60 ->
     forall e, e ∈ TopApps x' -> RequestsPerMinute e = 600 -> RequestsPerSecond e = 10).
Proof.
  intros Hr Hw Hrange.
  destruct (updateTop_returns now x r Hr Hw Hrange) as (x' & Hret & Hx' & Htops).
  exists x'. split; [exact Hret |]. split; [exact Hx' |]. split; [exact Htops |].
  assert (Hentry : forall e,
    e ∈ TopApps x' ->
    RequestsPerSecond e = Z.quot (RequestsPerMinute e) TopAppsEntryLifetime_Seconds).
  { intros e He. rewrite Htops in He.
    apply list_elem_of_fmap in He as (z & -> & _). reflexivity. }
  split; [| split].
  - rewrite Htops. unfold stats.TopSince. rewrite length_fmap, length_take. lia.
  - exact Hentry.
  - intros H60 e He H600. rewrite (Hentry e He), H600, H60. reflexivity.
Qed.

(** *** Holders of cells: the invariant *)

Lemma with_tagged_same (d : dimension) (x : Varz) : with_tagged d (tagged d x) x = x.
Proof. destruct x, d; reflexivity. Qed.

Lemma tagged_with_tagged (d d' : dimension) (m : option (gmap string ptr)) (x : Varz) :
  tagged d' (with_tagged d m x) = if decide (d' = d) then m else tagged d' x.
Proof. destruct d, d'; reflexivity. Qed.

Lemma tagged_frame (d d' : dimension) (m : option (gmap string ptr)) (x x' : Varz) :
  x' = with_tagged d m x -> d' <> d -> tagged d' x' = tagged d' x.
Proof. intros -> Hne. rewrite tagged_with_tagged. by rewrite decide_False. Qed.

Lemma slot_ptr_with_tagged (d : dimension) (m : option (gmap string ptr)) (x : Varz) (s : slot) :
  slot_ptr (with_tagged d m x) s =
  match s with
  | slot_All => All x
  | slot_tag d' t => if decide (d' = d) then map_get m t else map_get (tagged d' x) t
  end.
Proof.
  destruct s as [| d' t]; simpl.
  - by destruct d.
  - rewrite tagged_with_tagged. by destruct (decide (d' = d)).
Qed.

Lemma cell_of_None (x : Varz) (h : gmap loc HttpMetric) (s : slot) :
  slot_ptr x s = None -> cell_of x h s = None.
Proof. unfold cell_of. by intros ->. Qed.

Lemma cell_of_Some (x : Varz) (h : gmap loc HttpMetric) (s : slot) (l : loc) :
  slot_ptr x s = Some l -> cell_of x h s = h !! l.
Proof. unfold cell_of. by intros ->. Qed.

(** [NewVarz] establishes the invariant, whatever the store. *)
Lemma NewVarz_well_formed (h : gmap loc HttpMetric) :
  well_formed (NewVarz h).1 (NewVarz h).2.
Proof.
  unfold NewVarz, NewHttpMetric, alloc. simpl.
  split; simpl.
  - eauto.
  - intros []; simpl; eauto.
  - intros [| d t] l; simpl.
    + intros [= <-]. rewrite lookup_insert_eq. eauto.
    + destruct d; simpl; rewrite lookup_empty; discriminate.
  - intros [| d1 t1] [| d2 t2] l; simpl; try done;
      destruct d1 || destruct d2; simpl; rewrite lookup_empty; discriminate.
Qed.

(** Get-or-create in dimension [d] keeps the invariant; the slot of the tag
    now holds a cell, new if it held none, and all cells are as they were. *)
Lemma httpMetric_step (d : dimension) (t : string) (x : Varz) (h : gmap loc HttpMetric) :
  well_formed x h ->
  exists l m' h',
    TaggedHttpMetric_httpMetric (tagged d x) t h = Returns (Some l, m', h') /\
    well_formed (with_tagged d m' x) h' /\
    slot_ptr (with_tagged d m' x) (slot_tag d t) = Some l /\
    h' !! l = Some (default NewHttpMetric_cell (cell_of x h (slot_tag d t))) /\
    (forall s, s <> slot_tag d t ->
               cell_of (with_tagged d m' x) h' s = cell_of x h s).
Proof.
  intros Hwf.
  destruct (wf_maps _ _ Hwf d) as [m Hm].
  unfold TaggedHttpMetric_httpMetric.
  destruct (map_get (tagged d x) t) as [l|] eqn:Hget.
  - exists l, (tagged d x), h. rewrite with_tagged_same.
    split; [reflexivity |]. split; [exact Hwf |]. split; [exact Hget |].
    split; [| done].
    rewrite (cell_of_Some x h (slot_tag d t) l Hget).
    destruct (wf_alloc _ _ Hwf (slot_tag d t) l Hget) as [c ->]. reflexivity.
  - unfold NewHttpMetric, alloc. rewrite Hm. simpl.
    set (l := fresh (dom h)).
    assert (Hfresh : h !! l = None).
    { apply not_elem_of_dom. apply is_fresh. }
    assert (Hold : forall s l', slot_ptr x s = Some l' -> l' <> l).
    { intros s l' Hs ->. destruct (wf_alloc _ _ Hwf s l Hs) as [c Hc]. congruence. }
    assert (Hptr : forall s, s <> slot_tag d t ->
              slot_ptr (with_tagged d (Some (<[t := Some l]> m)) x) s = slot_ptr x s).
    { intros s Hs. rewrite slot_ptr_with_tagged. destruct s as [| d' t']; [done |].
      simpl. destruct (decide (d' = d)) as [-> |]; [| done].
      rewrite Hm. apply map_get_set_ne. congruence. }
    assert (Hnew : slot_ptr (with_tagged d (Some (<[t := Some l]> m)) x) (slot_tag d t) = Some l).
    { rewrite slot_ptr_with_tagged. rewrite decide_True by done. apply map_get_set_eq. }
    exists l, (Some (<[t := Some l]> m)), (<[l := NewHttpMetric_cell]> h).
    split; [reflexivity |]. split; [| split; [exact Hnew | split]].
    + split.
      * destruct d; simpl; apply (wf_All _ _ Hwf).
      * intros d'. rewrite tagged_with_tagged.
        destruct (decide (d' = d)); [eauto | apply (wf_maps _ _ Hwf)].
      * intros s l' Hs. destruct (decide (s = slot_tag d t)) as [-> | Hne].
        -- rewrite Hnew in Hs. injection Hs as <-. rewrite lookup_insert_eq. eauto.
        -- rewrite (Hptr s Hne) in Hs. rewrite lookup_insert_ne.
           ++ apply (wf_alloc _ _ Hwf s l' Hs).
           ++ intros E. by apply (Hold s l' Hs).
      * intros s1 s2 l' H1 H2.
        destruct (decide (s1 = slot_tag d t)) as [-> | Hne1];
          destruct (decide (s2 = slot_tag d t)) as [-> | Hne2]; [done | | |].
        -- rewrite Hnew in H1. injection H1 as <-. rewrite (Hptr s2 Hne2) in H2.
           by destruct (Hold s2 l H2).
        -- rewrite Hnew in H2. injection H2 as <-. rewrite (Hptr s1 Hne1) in H1.
           by destruct (Hold s1 l H1).
        -- rewrite (Hptr s1 Hne1) in H1. rewrite (Hptr s2 Hne2) in H2.
           apply (wf_separate _ _ Hwf s1 s2 l' H1 H2).
    + rewrite lookup_insert_eq. by rewrite (cell_of_None x h (slot_tag d t) Hget).
    + intros s Hne. unfold cell_of. rewrite (Hptr s Hne).
      destruct (slot_ptr x s) as [l'|] eqn:Hs; [| done].
      rewrite lookup_insert_ne; [done |]. intros E. by apply (Hold s l' Hs).
Qed.

(** Rewriting the cell of one slot keeps the invariant and the other cells. *)
Lemma update_cell_step (f : HttpMetric -> HttpMetric) (s0 : slot) (l : loc)
    (x : Varz) (h : gmap loc HttpMetric) :
  well_formed x h ->
  slot_ptr x s0 = Some l ->
  exists c,
    h !! l = Some c /\
    update_cell f (Some l) h = Returns (<[l := f c]> h) /\
    well_formed x (<[l := f c]> h) /\
    cell_of x (<[l := f c]> h) s0 = Some (f c) /\
    (forall s, s <> s0 -> cell_of x (<[l := f c]> h) s = cell_of x h s).
Proof.
  intros Hwf Hs0.
  destruct (wf_alloc _ _ Hwf s0 l Hs0) as [c Hc]. exists c.
  split; [exact Hc |].
  split; [unfold update_cell, load, store_at; simpl; by rewrite Hc |].
  split; [| split].
  - split; try apply Hwf.
    intros s l' Hs. destruct (decide (l' = l)) as [-> |].
    + rewrite lookup_insert_eq. eauto.
    + rewrite lookup_insert_ne by done. apply (wf_alloc _ _ Hwf s l' Hs).
  - rewrite (cell_of_Some _ _ _ _ Hs0). apply lookup_insert_eq.
  - intros s Hne. unfold cell_of.
    destruct (slot_ptr x s) as [l'|] eqn:Hs; [| done].
    rewrite lookup_insert_ne; [done |].
    intros <-. apply Hne. apply (wf_separate _ _ Hwf s s0 l Hs Hs0).
Qed.

Lemma effect_compose (P1 P2 : slot -> bool) (f : HttpMetric -> HttpMetric)
    (x x1 x2 : Varz) (h h1 h2 : gmap loc HttpMetric) :
  effect P1 f x h x1 h1 ->
  effect P2 f x1 h1 x2 h2 ->
  (forall s, P1 s = true -> P2 s = true -> False) ->
  effect (fun s => P1 s || P2 s) f x h x2 h2.
Proof.
  intros E1 E2 Hdisj s.
  pose proof (E1 s) as E1s. pose proof (E2 s) as E2s.
  rewrite E2s, E1s.
  destruct (P1 s) eqn:H1, (P2 s) eqn:H2; simpl; try reflexivity.
  destruct (Hdisj s H1 H2).
Qed.

(** One block of a capture method: it returns, keeps the invariant, reaches
    the slot of its dimension at the backend's tag and no other. *)
Lemma visit_step (f : HttpMetric -> HttpMetric) (d : dimension) (b : Backend)
    (x : Varz) (h : gmap loc HttpMetric) :
  well_formed x h ->
  exists x' h',
    visit f d b x h = Returns (x', h') /\
    well_formed x' h' /\
    effect (reached_in d b) f x h x' h' /\
    x' = with_tagged d (tagged d x') x /\
    (Tags b !! tag_key d = None -> x' = x /\ h' = h).
Proof.
  intros Hwf. unfold visit.
  destruct (Tags b !! tag_key d) as [t|] eqn:Htag.
  - destruct (httpMetric_step d t x h Hwf) as (l & m' & h1 & -> & Hwf1 & Hl & Hh1 & Hrest).
    simpl.
    destruct (update_cell_step f (slot_tag d t) l _ h1 Hwf1 Hl)
      as (c & Hc & -> & Hwf2 & Hhit & Hmiss).
    simpl. eexists _, _. split; [reflexivity |]. split; [exact Hwf2 |].
    split; [| split; [| discriminate]].
    + intros s. destruct (decide (s = slot_tag d t)) as [-> | Hne].
      * rewrite Hhit. simpl. rewrite Htag. rewrite bool_decide_eq_true_2 by done.
        rewrite bool_decide_eq_true_2 by done. simpl.
        rewrite Hh1 in Hc. by injection Hc as <-.
      * rewrite (Hmiss s Hne), (Hrest s Hne).
        destruct s as [| d' t']; [done |]. simpl. rewrite Htag.
        destruct (decide (d' = d)) as [-> | Hd].
        -- rewrite (bool_decide_eq_false_2 (Some t = Some t')); [by rewrite andb_false_r |].
           intros [= ->]. by apply Hne.
        -- by rewrite (bool_decide_eq_false_2 (d' = d)).
    + rewrite tagged_with_tagged. rewrite decide_True by done. reflexivity.
  - eexists _, _. split; [reflexivity |]. split; [exact Hwf |].
    split; [| split; [by rewrite with_tagged_same | done]].
    intros s. destruct s as [| d' t']; [done |]. simpl. rewrite Htag.
    rewrite (bool_decide_eq_false_2 (None = Some t')) by discriminate.
    by rewrite andb_false_r.
Qed.


Lemma outcome_bind_ext {A B : Type} (a a' : outcome A) (k k' : A -> outcome B) :
  a = a' -> (forall v, k v = k' v) -> outcome_bind a k = outcome_bind a' k'.
Proof. intros <- Hk. destruct a; simpl; [apply Hk | reflexivity]. Qed.

Lemma request_block_is_visit (d : dimension) (b : Backend) (x : Varz) (h : gmap loc HttpMetric) :
  match Tags b !! tag_key d with
  | Some t =>
      do (m, h) <- TaggedHttpMetric_CaptureRequest (tagged d x) t h;
      Returns (with_tagged d m x, h)
  | None => Returns (x, h)
  end = visit captured_request d b x h.
Proof.
  unfold visit. destruct (Tags b !! tag_key d) as [t|]; [| reflexivity].
  unfold TaggedHttpMetric_CaptureRequest.
  destruct (TaggedHttpMetric_httpMetric (tagged d x) t h) as [[[y m] h1]|]; [| reflexivity].
  simpl. change (HttpMetric_CaptureRequest y h1) with (update_cell captured_request y h1).
  destruct (update_cell captured_request y h1); reflexivity.
Qed.

Lemma response_block_is_visit (d : dimension) (b : Backend) (res : option Response) (z : Z)
    (x : Varz) (h : gmap loc HttpMetric) :
  match Tags b !! tag_key d with
  | Some t =>
      do (m, h) <- TaggedHttpMetric_CaptureResponse (tagged d x) t res z h;
      Returns (with_tagged d m x, h)
  | None => Returns (x, h)
  end = visit (captured_response res z) d b x h.
Proof.
  unfold visit. destruct (Tags b !! tag_key d) as [t|]; [| reflexivity].
  unfold TaggedHttpMetric_CaptureResponse.
  destruct (TaggedHttpMetric_httpMetric (tagged d x) t h) as [[[y m] h1]|]; [| reflexivity].
  simpl.
  change (HttpMetric_CaptureResponse y res z h1)
    with (update_cell (captured_response res z) y h1).
  destruct (update_cell (captured_response res z) y h1); reflexivity.
Qed.

Lemma CaptureBackendRequest_is_visit_all (b : Backend) (x : Varz) (h : gmap loc HttpMetric) :
  CaptureBackendRequest b x h = visit_all captured_request b x h.
Proof.
  unfold CaptureBackendRequest, visit_all.
  apply outcome_bind_ext; [exact (request_block_is_visit component b x h) | intros [x1 h1]].
  apply outcome_bind_ext; [exact (request_block_is_visit framework b x1 h1) | intros [x2 h2]].
  apply outcome_bind_ext; [exact (request_block_is_visit runtime b x2 h2) | intros [x3 h3]].
  reflexivity.
Qed.

Lemma CaptureBackendResponse_is_visit_all (b : Backend) (res : option Response) (z : Z)
    (x : Varz) (h : gmap loc HttpMetric) :
  CaptureBackendResponse b res z x h = visit_all (captured_response res z) b x h.
Proof.
  unfold CaptureBackendResponse, visit_all.
  apply outcome_bind_ext; [exact (response_block_is_visit component b res z x h) | intros [x1 h1]].
  apply outcome_bind_ext; [exact (response_block_is_visit framework b res z x1 h1) | intros [x2 h2]].
  apply outcome_bind_ext; [exact (response_block_is_visit runtime b res z x2 h2) | intros [x3 h3]].
  reflexivity.
Qed.

Lemma reached_split (b : Backend) (s : slot) :
  reached b s =
  reached_in component b s || reached_in framework b s || reached_in runtime b s
  || bool_decide (s = slot_All).
Proof.
  destruct s as [| d t]; [reflexivity |].
  destruct d; simpl; by rewrite ?orb_false_r.
Qed.

Lemma reached_in_disjoint (d1 d2 : dimension) (b : Backend) (s : slot) :
  d1 <> d2 -> reached_in d1 b s = true -> reached_in d2 b s = true -> False.
Proof.
  intros Hne. destruct s as [| d t]; simpl; [discriminate |].
  intros H1 H2.
  apply andb_true_iff in H1 as [H1 _]. apply andb_true_iff in H2 as [H2 _].
  apply bool_decide_eq_true_1 in H1. apply bool_decide_eq_true_1 in H2. congruence.
Qed.

(** A capture method as a whole: on a well-formed state it returns a
    well-formed state in which exactly the reached slots went through [f],
    each once. *)
Lemma visit_all_step (f : HttpMetric -> HttpMetric) (b : Backend)
    (x : Varz) (h : gmap loc HttpMetric) :
  well_formed x h ->
  exists x' h',
    visit_all f b x h = Returns (x', h') /\
    well_formed x' h' /\
    effect (reached b) f x h x' h' /\
    All x' = All x /\
    (forall d, Tags b !! tag_key d = None -> tagged d x' = tagged d x).
Proof.
  intros Hwf. unfold visit_all.
  destruct (visit_step f component b x h Hwf) as (x1 & h1 & -> & Hwf1 & E1 & Hx1 & Hn1).
  simpl.
  destruct (visit_step f framework b x1 h1 Hwf1) as (x2 & h2 & -> & Hwf2 & E2 & Hx2 & Hn2).
  simpl.
  destruct (visit_step f runtime b x2 h2 Hwf2) as (x3 & h3 & -> & Hwf3 & E3 & Hx3 & Hn3).
  simpl.
  destruct (wf_All _ _ Hwf3) as [a Ha].
  destruct (update_cell_step f slot_All a x3 h3 Hwf3 Ha) as (c & Hc & Hupd & Hwf4 & Hhit & Hmiss).
  rewrite Ha, Hupd. simpl.
  eexists _, _. split; [reflexivity |]. split; [exact Hwf4 |].
  assert (E4 : effect (fun s => bool_decide (s = slot_All)) f x3 h3 x3 (<[a := f c]> h3)).
  { intros s. destruct (decide (s = slot_All)) as [-> | Hne].
    - rewrite bool_decide_eq_true_2 by done. rewrite Hhit.
      by rewrite (cell_of_Some x3 h3 slot_All a Ha), Hc.
    - rewrite bool_decide_eq_false_2 by done. by apply Hmiss. }
  assert (Hall : All x3 = All x).
  { rewrite Hx3, Hx2, Hx1. by destruct x. }
  split; [| split; [exact Hall |]].
  - pose proof (effect_compose _ _ f _ _ _ _ _ _ E1 E2
                  (fun s => reached_in_disjoint component framework b s ltac:(done))) as E12.
    assert (D3 : forall s, reached_in component b s || reached_in framework b s = true ->
                           reached_in runtime b s = true -> False).
    { intros s H12 H3. apply orb_true_iff in H12 as [H | H].
      - by apply (reached_in_disjoint component runtime b s).
      - by apply (reached_in_disjoint framework runtime b s). }
    pose proof (effect_compose _ _ f _ _ _ _ _ _ E12 E3 D3) as E123.
    assert (D4 : forall s,
      reached_in component b s || reached_in framework b s || reached_in runtime b s = true ->
      bool_decide (s = slot_All) = true -> False).
    { intros s H123 H4. apply bool_decide_eq_true_1 in H4. subst s. discriminate H123. }
    pose proof (effect_compose _ _ f _ _ _ _ _ _ E123 E4 D4) as E.
    intros s. rewrite (E s). by rewrite reached_split.
  - intros d Hd. destruct d.
    + rewrite (tagged_frame _ component _ _ _ Hx3) by done.
      rewrite (tagged_frame _ component _ _ _ Hx2) by done.
      by destruct (Hn1 Hd) as [-> _].
    + rewrite (tagged_frame _ framework _ _ _ Hx3) by done.
      destruct (Hn2 Hd) as [-> _].
      by rewrite (tagged_frame _ framework _ _ _ Hx1).
    + destruct (Hn3 Hd) as [-> _].
      rewrite (tagged_frame _ runtime _ _ _ Hx2) by done.
      by rewrite (tagged_frame _ runtime _ _ _ Hx1).
Qed.

(** C3.  On a well-formed aggregator [CaptureBackendRequest] returns a
    well-formed aggregator in which the cell of every reached slot, that is
    [All] and each dimension at the tag the backend has for it, went through
    one [CaptureRequest] (from a new cell where the tag had none) and every
    other cell is as it was.  For a dimension whose key the backend lacks, in
    particular "component", the map of the dimension is the same map and each
    of its cells is unchanged.  The request counter of [All] is the old one
    plus one in [int64], which is the old one plus one below the maximum. *)
Theorem CaptureBackendRequest_reaches (b : Backend) (x : Varz) (h : gmap loc HttpMetric) :
  well_formed x h ->
  exists x' h',
    CaptureBackendRequest b x h = Returns (x', h') /\
    well_formed x' h' /\
    (forall s, cell_of x' h' s =
               if reached b s
               then Some (captured_request (default NewHttpMetric_cell (cell_of x h s)))
               else cell_of x h s) /\
    (forall d, Tags b !! tag_key d = None ->
               tagged d x' = tagged d x /\
               forall t, cell_of x' h' (slot_tag d t) = cell_of x h (slot_tag d t)) /\
    (Tags b !! "component"%string = None ->
     Component x' = Component x /\
     forall t, cell_of x' h' (slot_tag component t) = cell_of x h (slot_tag component t)) /\
    All x' = All x /\
    exists c c',
      cell_of x h slot_All = Some c /\
      cell_of x' h' slot_All = Some c' /\
      Count (Requests c') = int64_wrap (Count (Requests c) + 1) /\
      (int64_range (Count (Requests c)) -> Count (Requests c) < max_int64 ->
       Count (Requests c') = Count (Requests c) + 1).
Proof.
  intros Hwf. rewrite CaptureBackendRequest_is_visit_all.
  destruct (visit_all_step captured_request b x h Hwf) as (x' & h' & -> & Hwf' & E & Hall & Hmaps).
  exists x', h'. split; [reflexivity |]. split; [exact Hwf' |]. split; [exact E |].
  assert (Habsent : forall d, Tags b !! tag_key d = None ->
            tagged d x' = tagged d x /\
            forall t, cell_of x' h' (slot_tag d t) = cell_of x h (slot_tag d t)).
  { intros d Hd. split; [by apply Hmaps |].
    intros t. rewrite (E (slot_tag d t)). simpl. rewrite Hd.
    by rewrite (bool_decide_eq_false_2 (None = Some t)). }
  split; [exact Habsent |]. split; [exact (Habsent component) |]. split; [exact Hall |].
  destruct (wf_All _ _ Hwf) as [a Ha].
  destruct (wf_alloc _ _ Hwf slot_All a Ha) as [c Hc].
  assert (Hcell : cell_of x h slot_All = Some c).
  { by rewrite (cell_of_Some x h slot_All a Ha). }
  exists c, (captured_request c).
  split; [exact Hcell |].
  split; [rewrite (E slot_All); simpl; by rewrite Hcell |].
  split; [reflexivity |].
  intros Hr Hlt. apply (Inc_one_below_max _ Hr Hlt).
Qed.

(** The same for [CaptureBackendResponse]. *)
Lemma CaptureBackendResponse_reaches (b : Backend) (res : option Response) (z : Z)
    (x : Varz) (h : gmap loc HttpMetric) :
  well_formed x h ->
  exists x' h',
    CaptureBackendResponse b res z x h = Returns (x', h') /\
    well_formed x' h' /\
    (forall s, cell_of x' h' s =
               if reached b s
               then Some (captured_response res z (default NewHttpMetric_cell (cell_of x h s)))
               else cell_of x h s) /\
    All x' = All x.
Proof.
  intros Hwf. rewrite CaptureBackendResponse_is_visit_all.
  destruct (visit_all_step (captured_response res z) b x h Hwf)
    as (x' & h' & -> & Hwf' & E & Hall & _).
  exists x', h'. eauto.
Qed.


(** *** Serialization *)

(** The latency map of an encoded cell has the keys "50", "75" and "99" and
    no other; they hold the first three percentiles the histogram returns
    for the ranks 0.5, 0.75 and 0.99. *)
Lemma latency_keys (x : ptr) (h : gmap loc HttpMetric) (y : httpMetric) :
  HttpMetric_MarshalJSON x h = Returns y ->
  dom (latency y) = {[ "50"%string; "75"%string; "99"%string ]} /\
  exists c, load h x = Returns c /\
    let z := Percentiles [float64_lit (5 # 10); float64_lit (75 # 100); float64_lit (99 # 100)]
               (Latency c) in
    latency y !! "50"%string = z !! 0%nat /\
    latency y !! "75"%string = z !! 1%nat /\
    latency y !! "99"%string = z !! 2%nat.
Proof.
  unfold HttpMetric_MarshalJSON, index.
  destruct (load h x) as [c|]; simpl; [| discriminate].
  destruct (Percentiles _ (Latency c) !! 0%nat) as [z0|] eqn:H0; simpl; [| discriminate].
  destruct (Percentiles _ (Latency c) !! 1%nat) as [z1|] eqn:H1; simpl; [| discriminate].
  destruct (Percentiles _ (Latency c) !! 2%nat) as [z2|] eqn:H2; simpl; [| discriminate].
  intros [= <-]. simpl. split.
  - rewrite !dom_insert_L, dom_empty_L. set_solver.
  - exists c. split; [reflexivity |]. simpl. rewrite H0, H1, H2.
    split; [| split].
    + rewrite lookup_insert_ne by done. rewrite lookup_insert_ne by done.
      by rewrite lookup_insert_eq.
    + rewrite lookup_insert_ne by done. by rewrite lookup_insert_eq.
    + by rewrite lookup_insert_eq.
Qed.

Lemma updateTop_frame (now : Z) (x x' : Varz) :
  updateTop now x = Returns x' -> x' = with_TopApps (TopApps x') x.
Proof.
  unfold updateTop. destruct (Varz_Registry x) as [r|]; simpl; [| discriminate].
  destruct (updateTop_loop _ _) as [tops|]; simpl; [| discriminate].
  by intros [= <-].
Qed.

(** What [MarshalJSON] does, step by step, when it returns. *)
Lemma Varz_MarshalJSON_inv (now : Z) (x : Varz) (h : gmap loc HttpMetric)
    (doc : varz_json) (x' : Varz) :
  Varz_MarshalJSON now x h = Returns (doc, x') ->
  exists r a,
    Varz_Registry x = Some r /\
    load h (All x) = Returns a /\
    x' = with_TopApps (TopApps x')
           (with_RequestsPerSec (Rate1 (Rate a))
              (with_Droplets (NumBackends r) (with_Urls (NumUris r) x))) /\
    json_Marshal x' h = Returns doc.
Proof.
  unfold Varz_MarshalJSON.
  destruct (Varz_Registry x) as [r|] eqn:Hr; simpl; [| discriminate].
  rewrite Hr. simpl.
  destruct (load h (All x)) as [a|] eqn:Ha; simpl; [| discriminate].
  destruct (updateTop now _) as [x1|] eqn:Htop; simpl; [| discriminate].
  destruct (json_Marshal x1 h) as [d|] eqn:Hd; simpl; [| discriminate].
  intros [= <- <-]. exists r, a.
  split; [reflexivity |]. split; [reflexivity |].
  split; [exact (updateTop_frame _ _ _ Htop) | exact Hd].
Qed.

(** The counters of a document are a function of the cells, the maps and
    the bad-request counter. *)
Lemma json_Marshal_counters (x1 x2 : Varz) (h : gmap loc HttpMetric) (d1 d2 : varz_json) :
  json_Marshal x1 h = Returns d1 ->
  json_Marshal x2 h = Returns d2 ->
  All x1 = All x2 -> Component x1 = Component x2 -> Framework x1 = Framework x2 ->
  Runtime x1 = Runtime x2 -> BadRequests x1 = BadRequests x2 ->
  reported_counters d1 = reported_counters d2.
Proof.
  unfold json_Marshal. intros H1 H2 Ea Ec Ef Er Eb.
  rewrite <- Ea, <- Ec, <- Ef, <- Er, <- Eb in H2.
  destruct (marshal_cell h (All x1)); simpl in *; [| discriminate].
  destruct (marshal_tagged h (Component x1)); simpl in *; [| discriminate].
  destruct (marshal_tagged h (Framework x1)); simpl in *; [| discriminate].
  destruct (marshal_tagged h (Runtime x1)); simpl in *; [| discriminate].
  injection H1 as <-. injection H2 as <-. reflexivity.
Qed.

(** C9.  When [Varz.MarshalJSON] returns, the aggregator differs from the
    one before the call in [Urls], [Droplets], [RequestsPerSec] and [TopApps]
    only: [All], the three tag maps, [BadRequests] and the registry pointer
    are the same, and every cell of the store, which the call only reads, is
    the same; the document reports the bad-request counter and the counters
    of the [All] cell as they are in the store; and a second serialization
    of the resulting aggregator, at any later time and whatever the registry
    then answers, reports the same counters. *)
Theorem MarshalJSON_reads_only (now : Z) (x : Varz) (h : gmap loc HttpMetric)
    (doc : varz_json) (x' : Varz) :
  Varz_MarshalJSON now x h = Returns (doc, x') ->
  (exists r,
     Varz_Registry x = Some r /\
     x' = with_TopApps (TopApps x')
            (with_RequestsPerSec (RequestsPerSec x')
               (with_Droplets (NumBackends r) (with_Urls (NumUris r) x)))) /\
  All x' = All x /\
  Component x' = Component x /\ Framework x' = Framework x /\ Runtime x' = Runtime x /\
  BadRequests x' = BadRequests x /\
  Varz_Registry x' = Varz_Registry x /\
  (forall s, cell_of x' h s = cell_of x h s) /\
  bad_requests doc = BadRequests x /\
  (exists c y,
     cell_of x h slot_All = Some c /\ all doc = Some y /\
     counters y = [Count (Requests c); Count (Responses2xx c); Count (Responses3xx c);
                   Count (Responses4xx c); Count (Responses5xx c); Count (ResponsesXxx c)]) /\
  (forall now2 r2 doc2 x2,
     Varz_MarshalJSON now2 (with_Registry r2 x') h = Returns (doc2, x2) ->
     reported_counters doc2 = reported_counters doc).
Proof.
  intros Hret.
  destruct (Varz_MarshalJSON_inv _ _ _ _ _ Hret) as (r & a & Hr & Ha & Hx' & Hdoc).
  assert (Hall : All x' = All x) by (rewrite Hx'; reflexivity).
  assert (Hc : Component x' = Component x) by (rewrite Hx'; reflexivity).
  assert (Hf : Framework x' = Framework x) by (rewrite Hx'; reflexivity).
  assert (Hru : Runtime x' = Runtime x) by (rewrite Hx'; reflexivity).
  assert (Hb : BadRequests x' = BadRequests x) by (rewrite Hx'; reflexivity).
  split.
  { exists r. split; [exact Hr |]. rewrite Hx' at 1. rewrite Hx'. reflexivity. }
  split; [exact Hall |]. split; [exact Hc |]. split; [exact Hf |]. split; [exact Hru |].
  split; [exact Hb |]. split; [rewrite Hx'; reflexivity |].
  split.
  { intros s. unfold cell_of. destruct s as [| d t]; simpl; [by rewrite Hall |].
    destruct d; simpl; by rewrite ?Hc, ?Hf, ?Hru. }
  split.
  { unfold json_Marshal in Hdoc.
    destruct (marshal_cell h (All x')); simpl in *; [| discriminate].
    destruct (marshal_tagged h (Component x')); simpl in *; [| discriminate].
    destruct (marshal_tagged h (Framework x')); simpl in *; [| discriminate].
    destruct (marshal_tagged h (Runtime x')); simpl in *; [| discriminate].
    injection Hdoc as <-. exact Hb. }
  split.
  { exists a. unfold json_Marshal in Hdoc. rewrite Hall in Hdoc.
    unfold load in Ha. unfold cell_of. simpl.
    destruct (All x) as [l|] eqn:Hl; simpl in *; [| discriminate].
    destruct (h !! l) as [c|] eqn:Hcell; simpl in *; [| discriminate].
    injection Ha as ->.
    unfold HttpMetric_MarshalJSON, load in Hdoc. simpl in Hdoc. rewrite Hcell in Hdoc.
    simpl in Hdoc.
    destruct (index _ 0); simpl in *; [| discriminate].
    destruct (index _ 1); simpl in *; [| discriminate].
    destruct (index _ 2); simpl in *; [| discriminate].
    destruct (marshal_tagged h (Component x')); simpl in *; [| discriminate].
    destruct (marshal_tagged h (Framework x')); simpl in *; [| discriminate].
    destruct (marshal_tagged h (Runtime x')); simpl in *; [| discriminate].
    injection Hdoc as <-. simpl. eauto. }
  intros now2 r2 doc2 x2 Hret2.
  destruct (Varz_MarshalJSON_inv _ _ _ _ _ Hret2) as (r' & a' & _ & _ & Hx2 & Hdoc2).
  apply (json_Marshal_counters x2 x' h doc2 doc Hdoc2 Hdoc); rewrite Hx2; reflexivity.
Qed.


(** Encoding an allocated cell returns, provided the histogram answers one
    percentile per rank. *)
Lemma HttpMetric_MarshalJSON_returns (l : loc) (c : HttpMetric) (h : gmap loc HttpMetric) :
  (forall ps hist, length (Percentiles ps hist) = length ps) ->
  h !! l = Some c ->
  exists y, HttpMetric_MarshalJSON (Some l) h = Returns y.
Proof.
  intros Hlen Hc. unfold HttpMetric_MarshalJSON, load, index. simpl. rewrite Hc. simpl.
  set (z := Percentiles _ (Latency c)).
  assert (Hz : length z = 3%nat) by (unfold z; by rewrite Hlen).
  destruct z as [| z0 [| z1 [| z2 z]]]; try discriminate Hz.
  simpl. eauto.
Qed.

Lemma marshal_tagged_returns (d : dimension) (x : Varz) (h : gmap loc HttpMetric) :
  (forall ps hist, length (Percentiles ps hist) = length ps) ->
  well_formed x h ->
  exists r, marshal_tagged h (tagged d x) = Returns r.
Proof.
  intros Hlen Hwf. destruct (wf_maps _ _ Hwf d) as [m Hm].
  rewrite Hm. unfold marshal_tagged. rewrite decide_True; [eauto |].
  apply map_Forall_lookup. intros t o. rewrite lookup_fmap.
  intros Ho. apply fmap_Some in Ho as (p & Hp & ->).
  destruct p as [l|]; simpl; [| eauto].
  assert (Hs : slot_ptr x (slot_tag d t) = Some l).
  { simpl. rewrite Hm. by apply map_get_lookup. }
  destruct (wf_alloc _ _ Hwf _ _ Hs) as [c Hc].
  destruct (HttpMetric_MarshalJSON_returns l c h Hlen Hc) as [y ->]. simpl. eauto.
Qed.

(** [Varz.MarshalJSON] returns on a well-formed aggregator whose registry
    is set, for a positive entry lifetime, [int64] request counts and a
    histogram that answers one percentile per rank. *)
Lemma Varz_MarshalJSON_returns (now : Z) (x : Varz) (h : gmap loc HttpMetric) (r : Registry) :
  (forall ps hist, length (Percentiles ps hist) = length ps) ->
  well_formed x h ->
  Varz_Registry x = Some r ->
  0 < TopAppsEntryLifetime_Seconds ->
  Forall (fun z => int64_range (stats.Requests z))
         (stats.ranked_since (Registry_TopApps r) (now + -1 * Minute)) ->
  exists doc x', Varz_MarshalJSON now x h = Returns (doc, x').
Proof.
  intros Hlen Hwf Hr Hw Hrange.
  destruct (wf_All _ _ Hwf) as [a Ha].
  destruct (wf_alloc _ _ Hwf slot_All a Ha) as [c Hc].
  unfold Varz_MarshalJSON. rewrite Hr. simpl. rewrite Hr. simpl.
  unfold load. rewrite Ha. simpl. rewrite Hc. simpl.
  set (x0 := with_RequestsPerSec _ _).
  destruct (updateTop_returns now x0 r Hr Hw Hrange) as (x1 & -> & Hx1 & _).
  simpl.
  assert (Hwf1 : well_formed x1 h).
  { rewrite Hx1. destruct Hwf as [W1 W2 W3 W4]. split.
    - exact W1.
    - intros d. specialize (W2 d). by destruct d.
    - intros s l. specialize (W3 s l). by destruct s as [| [] t].
    - intros s1 s2 l. specialize (W4 s1 s2 l).
      by destruct s1 as [| [] t1], s2 as [| [] t2]. }
  unfold json_Marshal.
  assert (Ha1 : All x1 = Some a) by (rewrite Hx1; exact Ha).
  rewrite Ha1. simpl.
  destruct (HttpMetric_MarshalJSON_returns a c h Hlen Hc) as [y ->]. simpl.
  destruct (marshal_tagged_returns component x1 h Hlen Hwf1) as [rc Hrc].
  destruct (marshal_tagged_returns framework x1 h Hlen Hwf1) as [rf Hrf].
  destruct (marshal_tagged_returns runtime x1 h Hlen Hwf1) as [rr Hrr].
  simpl in Hrc, Hrf, Hrr. rewrite Hrc, Hrf, Hrr. simpl. eauto.
Qed.

End Facts.

(** *** The theorems at concrete inputs *)

Lemma CaptureResponse_one_bucket_witness :
  varz0.2 !! 1%positive = Some (NewHttpMetric_cell (gm := recording_metrics)) /\
  exists c',
    HttpMetric_CaptureResponse (Some 1%positive) (Some {| StatusCode := 404 |}) 1500 varz0.2
    = Returns (<[1%positive := c']> varz0.2) /\
    bucket_count b4xx c' = 1 /\ bucket_count b5xx c' = 0 /\ Latency c' = [1500].
Proof.
  split; [reflexivity |].
  destruct (CaptureResponse_one_bucket (gm := recording_metrics) 1%positive NewHttpMetric_cell
              (Some {| StatusCode := 404 |}) 1500 varz0.2 eq_refl)
    as (c' & Hret & Hcount & _ & Hlat & _).
  exists c'. split; [exact Hret |].
  split; [rewrite (Hcount b4xx); reflexivity |].
  split; [rewrite (Hcount b5xx); reflexivity | rewrite Hlat; reflexivity].
Defined.

Lemma httpMetric_get_or_create_witness :
  is_Some (Some (∅ : gmap string ptr)) /\
  exists y x' h',
    TaggedHttpMetric_httpMetric (gm := recording_metrics) (Some ∅) "dea" ∅ = Returns (y, x', h') /\
    is_Some y /\
    TaggedHttpMetric_httpMetric x' "dea" h' = Returns (y, x', h').
Proof.
  split; [by eexists |].
  destruct (httpMetric_get_or_create (gm := recording_metrics) (Some ∅) "dea" ∅)
    as [Htotal Hspec].
  destruct (Htotal ltac:(by eexists)) as (y & x' & h' & Hret).
  exists y, x', h'. split; [exact Hret |].
  destruct (Hspec y x' h' Hret) as (Hy & _ & _ & _ & Hagain).
  split; [exact Hy | exact Hagain].
Defined.

Lemma updateTop_reshapes_witness :
  Varz_Registry (with_Registry (Some registry0) varz0.1) = Some registry0 /\
  0 < TopAppsEntryLifetime_Seconds (StatsConfig := one_minute) /\
  exists x',
    updateTop (cfg := one_minute) 0 (with_Registry (Some registry0) varz0.1) = Returns x' /\
    TopApps x' =
      [ {| ApplicationId := "app-a"; RequestsPerSecond := 10; RequestsPerMinute := 600 |};
        {| ApplicationId := "app-b"; RequestsPerSecond := 0; RequestsPerMinute := 59 |} ].
Proof.
  split; [reflexivity |]. split; [reflexivity |].
  assert (Hrange : Forall (fun z => int64_range (stats.Requests z))
            (stats.ranked_since (Registry_TopApps registry0) (0 + -1 * Minute))).
  { repeat constructor; discriminate. }
  destruct (updateTop_reshapes (gm := recording_metrics) (cfg := one_minute) 0
              (with_Registry (Some registry0) varz0.1) registry0 eq_refl eq_refl Hrange)
    as (x' & Hret & _ & Htops & _).
  exists x'. split; [exact Hret | rewrite Htops; reflexivity].
Defined.

Lemma CaptureBackendRequest_reaches_witness :
  well_formed varz0.1 varz0.2 /\
  exists x' h',
    CaptureBackendRequest backend0 varz0.1 varz0.2 = Returns (x', h') /\
    Component x' = Component varz0.1 /\
    Requests <$> cell_of x' h' slot_All = Some 1 /\
    Requests <$> cell_of x' h' (slot_tag runtime "ruby19") = Some 1 /\
    cell_of x' h' (slot_tag component "dea") = None.
Proof.
  split; [apply NewVarz_well_formed |].
  destruct (CaptureBackendRequest_reaches (gm := recording_metrics) backend0 varz0.1 varz0.2
              (NewVarz_well_formed ∅))
    as (x' & h' & Hret & _ & Hcells & _ & Hcomp & _).
  exists x', h'. split; [exact Hret |].
  split; [apply Hcomp; reflexivity |].
  rewrite !Hcells. repeat split; reflexivity.
Defined.

Lemma MarshalJSON_reads_only_witness :
  exists doc x',
    Varz_MarshalJSON (cfg := one_minute) 0 (with_Registry (Some registry0) varz0.1) varz0.2
    = Returns (doc, x') /\
    All x' = All varz0.1 /\
    BadRequests x' = 0 /\
    bad_requests doc = 0.
Proof.
  assert (Hret : { p | Varz_MarshalJSON (cfg := one_minute) 0
                         (with_Registry (Some registry0) varz0.1) varz0.2 = Returns p }).
  { eexists. vm_compute. reflexivity. }
  destruct Hret as [[doc x'] Hret].
  exists doc, x'. split; [exact Hret |].
  destruct (MarshalJSON_reads_only (gm := recording_metrics) (cfg := one_minute)
              0 _ _ doc x' Hret) as (_ & Hall & _ & _ & _ & Hbad & _ & _ & Hdoc & _).
  split; [exact Hall |]. split; [exact Hbad | exact Hdoc].
Defined.

End varz_facts.

(** ** The latency percentiles *)

Module percentile_facts.
Import router metrics.

Lemma sorted_nth_le (s : list Z) (i j : nat) :
  StronglySorted Z.le s -> (i <= j < length s)%nat -> nth i s 0 <= nth j s 0.
Proof.
  intros Hs. revert i j. induction Hs as [| x s Hs IH Hx]; intros i j Hij; simpl in Hij.
  - lia.
  - destruct j as [| j]; [replace i with 0%nat by lia; simpl; lia |].
    destruct i as [| i]; simpl.
    + apply (proj1 (Forall_nth (Z.le x) 0 s) Hx). lia.
    + apply IH. lia.
Qed.

(** A linear interpolation stays between its two ends. *)
Lemma between (L U t : Q) :
  (L <= U -> 0 <= t -> t <= 1 -> L <= L + t * (U - L) /\ L + t * (U - L) <= U)%Q.
Proof. intros. split; nra. Qed.

Lemma floor_in_range (pos : Q) (n : Z) :
  (1 <= pos)%Q -> (pos < inject_Z n)%Q -> 1 <= Qfloor pos <= n - 1.
Proof.
  intros H1 Hn.
  pose proof (Qfloor_resp_le _ _ H1) as Hf. change 1%Q with (inject_Z 1) in Hf.
  rewrite Qfloor_Z in Hf.
  pose proof (Qfloor_le pos) as Hle.
  assert (inject_Z (Qfloor pos) < inject_Z n)%Q as Hlt by lra.
  rewrite <- Zlt_Qlt in Hlt. lia.
Qed.

Lemma Qle_bool_cases (a b : Q) :
  (Qle_bool a b = true /\ (a <= b)%Q) \/ (Qle_bool a b = false /\ (b < a)%Q).
Proof.
  destruct (Qle_bool a b) eqn:E.
  - left. split; [reflexivity |]. by apply Qle_bool_iff.
  - right. split; [reflexivity |]. apply Qnot_le_lt. intros H.
    apply Qle_bool_iff in H. congruence.
Qed.

(** Every position gives a number between the least and the greatest
    sample. *)
Lemma at_position_bounds (s : list Z) (pos : Q) :
  StronglySorted Z.le s -> s <> [] ->
  (inject_Z (nth 0 s 0%Z) <= at_position s pos /\
   at_position s pos <= inject_Z (nth (length s - 1)%nat s 0%Z))%Q.
Proof.
  intros Hs Hne.
  assert (Hlen : (0 < length s)%nat) by (destruct s; [done | simpl; lia]).
  assert (Hends : (inject_Z (nth 0 s 0%Z) <= inject_Z (nth (length s - 1)%nat s 0%Z))%Q).
  { rewrite <- Zle_Qle. apply sorted_nth_le; [exact Hs | lia]. }
  unfold at_position.
  destruct (Qle_bool_cases 1 pos) as [[-> Hlow] | [-> Hlow]]; simpl negb; cbv iota;
    [| split; [lra | exact Hends]].
  destruct (Qle_bool_cases (inject_Z (Z.of_nat (length s))) pos) as [[-> Hhigh] | [-> Hhigh]];
    [split; [exact Hends | lra] |].
  pose proof (floor_in_range pos _ Hlow Hhigh) as Hk.
  pose proof (Qfloor_le pos) as Hfl. pose proof (Qlt_floor pos) as Hfu.
  rewrite inject_Z_plus in Hfu. change (inject_Z 1) with 1%Q in Hfu.
  set (k := Qfloor pos) in *.
  assert (HL : (inject_Z (nth 0 s 0%Z) <= inject_Z (nth (Z.to_nat k - 1)%nat s 0%Z))%Q).
  { rewrite <- Zle_Qle. apply sorted_nth_le; [exact Hs | lia]. }
  assert (HLU : (inject_Z (nth (Z.to_nat k - 1)%nat s 0%Z) <= inject_Z (nth (Z.to_nat k) s 0%Z))%Q).
  { rewrite <- Zle_Qle. apply sorted_nth_le; [exact Hs | lia]. }
  assert (HU : (inject_Z (nth (Z.to_nat k) s 0%Z) <= inject_Z (nth (length s - 1)%nat s 0%Z))%Q).
  { rewrite <- Zle_Qle. apply sorted_nth_le; [exact Hs | lia]. }
  destruct (between _ _ (pos - inject_Z k) HLU ltac:(lra) ltac:(lra)) as [Ha Hb].
  simpl. split; lra.
Qed.

(** A later position gives no smaller a number. *)
Lemma at_position_mono (s : list Z) (pos1 pos2 : Q) :
  StronglySorted Z.le s -> s <> [] -> (pos1 <= pos2)%Q ->
  (at_position s pos1 <= at_position s pos2)%Q.
Proof.
  intros Hs Hne Hpos.
  destruct (at_position_bounds s pos1 Hs Hne) as [Hlo1 Hhi1].
  destruct (at_position_bounds s pos2 Hs Hne) as [Hlo2 Hhi2].
  assert (Hlen : (0 < length s)%nat) by (destruct s; [done | simpl; lia]).
  unfold at_position in *.
  destruct (Qle_bool_cases 1 pos1) as [[E1 Hlow1] | [E1 Hlow1]]; rewrite E1 in *;
    simpl negb in *; cbv iota in *; [| exact Hlo2].
  destruct (Qle_bool_cases 1 pos2) as [[E2 Hlow2] | [E2 Hlow2]]; rewrite E2 in *;
    simpl negb in *; cbv iota in *; [| lra].
  destruct (Qle_bool_cases (inject_Z (Z.of_nat (length s))) pos2)
    as [[E3 Hhigh2] | [E3 Hhigh2]]; rewrite E3 in *; [exact Hhi1 |].
  destruct (Qle_bool_cases (inject_Z (Z.of_nat (length s))) pos1)
    as [[E4 Hhigh1] | [E4 Hhigh1]]; rewrite E4 in *; [lra |].
  pose proof (floor_in_range pos1 _ Hlow1 Hhigh1) as Hk1.
  pose proof (floor_in_range pos2 _ Hlow2 Hhigh2) as Hk2.
  pose proof (Qfloor_resp_le _ _ Hpos) as Hk.
  pose proof (Qfloor_le pos1) as Hfl1. pose proof (Qlt_floor pos1) as Hfu1.
  pose proof (Qfloor_le pos2) as Hfl2. pose proof (Qlt_floor pos2) as Hfu2.
  rewrite inject_Z_plus in Hfu1, Hfu2. change (inject_Z 1) with 1%Q in Hfu1, Hfu2.
  set (k1 := Qfloor pos1) in *. set (k2 := Qfloor pos2) in *.
  assert (HLU1 : (inject_Z (nth (Z.to_nat k1 - 1)%nat s 0%Z)
                  <= inject_Z (nth (Z.to_nat k1) s 0%Z))%Q).
  { rewrite <- Zle_Qle. apply sorted_nth_le; [exact Hs | lia]. }
  assert (HLU2 : (inject_Z (nth (Z.to_nat k2 - 1)%nat s 0%Z)
                  <= inject_Z (nth (Z.to_nat k2) s 0%Z))%Q).
  { rewrite <- Zle_Qle. apply sorted_nth_le; [exact Hs | lia]. }
  destruct (between _ _ (pos1 - inject_Z k1) HLU1 ltac:(lra) ltac:(lra)) as [Ha1 Hb1].
  destruct (between _ _ (pos2 - inject_Z k2) HLU2 ltac:(lra) ltac:(lra)) as [Ha2 Hb2].
  simpl in *.
  destruct (Z.eq_dec k1 k2) as [E | Hne12].
  - rewrite <- E in *.
    set (L := inject_Z (nth (Z.to_nat k1 - 1)%nat s 0%Z)) in *.
    set (U := inject_Z (nth (Z.to_nat k1) s 0%Z)) in *.
    nra.
  - assert (Hmid : (inject_Z (nth (Z.to_nat k1) s 0%Z)
                    <= inject_Z (nth (Z.to_nat k2 - 1)%nat s 0%Z))%Q).
    { rewrite <- Zle_Qle. apply sorted_nth_le; [exact Hs | lia]. }
    lra.
Qed.

(** A higher rank gives no smaller a percentile, whatever the samples. *)
Lemma SamplePercentile_mono (values : list Z) (p1 p2 : Q) :
  (p1 <= p2)%Q -> (SamplePercentile values p1 <= SamplePercentile values p2)%Q.
Proof.
  intros Hp. unfold SamplePercentile.
  pose proof (StronglySorted_merge_sort Z.le values) as Hs.
  destruct (merge_sort Z.le values) as [| first rest] eqn:E; [lra |].
  apply at_position_mono; [exact Hs | done |].
  assert (0 <= inject_Z (Z.of_nat (length (first :: rest)) + 1))%Q.
  { change 0%Q with (inject_Z 0). rewrite <- Zle_Qle. lia. }
  nra.
Qed.

Lemma SamplePercentile_empty (p : Q) : SamplePercentile [] p = 0%Q.
Proof. reflexivity. Qed.

Section Facts.
Context {gm : GoMetrics}.

(** C7.  Let [real] give the number a [float64] stands for and [samples]
    the sample set a histogram holds, and let the histogram answer percentile
    queries as the specification says: sort the samples, interpolate at the
    rank, zero for every rank when there is no sample.  Then encoding any
    allocated cell returns, without an error; the latency map has the keys
    "50", "75" and "99" and no other; the three numbers it holds are in order,
    p50 <= p75 <= p99, for every reservoir; and all three are zero when the
    reservoir is empty. *)
Theorem latency_percentiles_ordered (real : float64 -> Q) (samples : Histogram -> list Z)
    (l : loc) (c : HttpMetric) (h : gmap loc HttpMetric) :
  (forall q, real (float64_lit q) == q)%Q ->
  (forall ps hist,
      Forall2 Qeq (real <$> Percentiles ps hist)
                  (SamplePercentiles (samples hist) (real <$> ps))) ->
  h !! l = Some c ->
  exists y p50 p75 p99,
    HttpMetric_MarshalJSON (Some l) h = Returns y /\
    dom (latency y) = {[ "50"%string; "75"%string; "99"%string ]} /\
    latency y !! "50"%string = Some p50 /\
    latency y !! "75"%string = Some p75 /\
    latency y !! "99"%string = Some p99 /\
    (real p50 <= real p75)%Q /\
    (real p75 <= real p99)%Q /\
    (samples (Latency c) = [] ->
     (real p50 == 0 /\ real p75 == 0 /\ real p99 == 0)%Q).
Proof.
  intros Hlit Hspec Hc.
  pose proof (Hspec [float64_lit (5 # 10); float64_lit (75 # 100); float64_lit (99 # 100)]
                (Latency c)) as Hz.
  unfold HttpMetric_MarshalJSON, load, index. simpl. rewrite Hc. simpl.
  destruct (Percentiles _ (Latency c)) as [| z0 [| z1 [| z2 [| z3 z]]]];
    simpl in Hz; try (by repeat (inversion Hz as [| ? ? ? ? ? Hz']; subst; clear Hz;
                                 rename Hz' into Hz)).
  apply Forall2_cons_1 in Hz as [E0 Hz].
  apply Forall2_cons_1 in Hz as [E1 Hz].
  apply Forall2_cons_1 in Hz as [E2 _].
  simpl. eexists _, z0, z1, z2. split; [reflexivity |]. simpl.
  split; [rewrite !dom_insert_L, dom_empty_L; set_solver |].
  split; [rewrite lookup_insert_ne by done; rewrite lookup_insert_ne by done;
          by rewrite lookup_insert_eq |].
  split; [rewrite lookup_insert_ne by done; by rewrite lookup_insert_eq |].
  split; [by rewrite lookup_insert_eq |].
  pose proof (Hlit (5 # 10)) as H50. pose proof (Hlit (75 # 100)) as H75.
  pose proof (Hlit (99 # 100)) as H99.
  split; [| split].
  - rewrite E0, E1. apply SamplePercentile_mono. rewrite H50, H75. by vm_compute.
  - rewrite E1, E2. apply SamplePercentile_mono. rewrite H75, H99. by vm_compute.
  - intros Hnone. rewrite Hnone in E0, E1, E2.
    rewrite SamplePercentile_empty in E0, E1, E2. done.
Qed.

End Facts.

Lemma latency_percentiles_ordered_witness :
  (forall q, id (float64_lit (GoMetrics := sampling_metrics) q) == q)%Q /\
  latency_store !! 1%positive
  = Some (captured_response None 20
            (captured_response None 10
               (captured_response None 30 (NewHttpMetric_cell (gm := sampling_metrics))))) /\
  (exists y (p50 p75 p99 : Q),
      HttpMetric_MarshalJSON (Some 1%positive) latency_store = Returns y /\
      latency y !! "50"%string = Some p50 /\
      latency y !! "75"%string = Some p75 /\
      latency y !! "99"%string = Some p99 /\
      (p50 <= p75)%Q /\ (p75 <= p99)%Q /\
      (p50 == 20 /\ p75 == 30 /\ p99 == 30)%Q) /\
  (exists y (p50 p75 p99 : Q),
      HttpMetric_MarshalJSON (Some 2%positive) latency_store = Returns y /\
      latency y !! "50"%string = Some p50 /\
      latency y !! "75"%string = Some p75 /\
      latency y !! "99"%string = Some p99 /\
      (p50 == 0 /\ p75 == 0 /\ p99 == 0)%Q).
Proof.
  assert (Hlit : (forall q, id (float64_lit (GoMetrics := sampling_metrics) q) == q)%Q)
    by (intros q; reflexivity).
  assert (Hspec : forall ps hist,
    Forall2 Qeq (id <$> Percentiles (GoMetrics := sampling_metrics) ps hist)
                (SamplePercentiles (id hist) (id <$> ps))).
  { intros ps hist. rewrite !list_fmap_id.
    change (Percentiles ps hist) with (SamplePercentiles hist ps).
    apply Forall_Forall2_diag, Forall_forall. intros q _. reflexivity. }
  split; [exact Hlit |]. split; [reflexivity |]. split.
  - destruct (latency_percentiles_ordered (gm := sampling_metrics) id id
                1%positive _ latency_store Hlit Hspec eq_refl)
      as (y & p50 & p75 & p99 & Hret & _ & H50 & H75 & H99 & Hle1 & Hle2 & _).
    exists y, p50, p75, p99. repeat (split; [assumption |]).
    destruct (varz_facts.latency_keys _ _ _ Hret) as (_ & c' & Hload & K).
    change (load latency_store (Some 1%positive))
      with (Returns (captured_response None 20
                       (captured_response None 10
                          (captured_response None 30
                             (NewHttpMetric_cell (gm := sampling_metrics)))))) in Hload.
    injection Hload as <-. cbv zeta in K. destruct K as (K50 & K75 & K99).
    pose proof (eq_trans (eq_sym H50) K50) as E50.
    pose proof (eq_trans (eq_sym H75) K75) as E75.
    pose proof (eq_trans (eq_sym H99) K99) as E99.
    vm_compute in E50, E75, E99.
    injection E50 as ->. injection E75 as ->. injection E99 as ->.
    repeat split; reflexivity.
  - destruct (latency_percentiles_ordered (gm := sampling_metrics) id id
                2%positive _ latency_store Hlit Hspec eq_refl)
      as (y & p50 & p75 & p99 & Hret & _ & H50 & H75 & H99 & _ & _ & Hzero).
    exists y, p50, p75, p99. repeat (split; [assumption |]).
    exact (Hzero eq_refl).
Defined.

End percentile_facts.

(** ** The mutex *)

Module locking_facts.
Import router.

Section Facts.
Context {gm : GoMetrics} {cfg : StatsConfig}.

(** The statements of each body, run in order, are the method. *)
Lemma run_body_CaptureBadRequest (x : Varz) (h : gmap loc HttpMetric) (b : option varz_json) :
  run (body call_CaptureBadRequest) (x, h, b) =
  do x' <- CaptureBadRequest x; Returns (x', h, b).
Proof. reflexivity. Qed.

Lemma run_body_CaptureBackendRequest (bk : Backend) (x : Varz) (h : gmap loc HttpMetric)
    (b : option varz_json) :
  run (body (call_CaptureBackendRequest bk)) (x, h, b) =
  do (x', h') <- CaptureBackendRequest bk x h; Returns (x', h', b).
Proof.
  rewrite varz_facts.CaptureBackendRequest_is_visit_all. unfold visit_all. simpl.
  unfold on_state.
  destruct (visit captured_request component bk x h) as [[x1 h1]|]; simpl; [| reflexivity].
  destruct (visit captured_request framework bk x1 h1) as [[x2 h2]|]; simpl; [| reflexivity].
  destruct (visit captured_request runtime bk x2 h2) as [[x3 h3]|]; simpl; [| reflexivity].
  change (HttpMetric_CaptureRequest (All x3) h3)
    with (update_cell captured_request (All x3) h3).
  destruct (update_cell captured_request (All x3) h3); reflexivity.
Qed.

Lemma run_body_CaptureBackendResponse (bk : Backend) (res : option Response) (d : Z)
    (x : Varz) (h : gmap loc HttpMetric) (b : option varz_json) :
  run (body (call_CaptureBackendResponse bk res d)) (x, h, b) =
  do (x', h') <- CaptureBackendResponse bk res d x h; Returns (x', h', b).
Proof.
  rewrite varz_facts.CaptureBackendResponse_is_visit_all. unfold visit_all. simpl.
  unfold on_state.
  destruct (visit (captured_response res d) component bk x h) as [[x1 h1]|];
    simpl; [| reflexivity].
  destruct (visit (captured_response res d) framework bk x1 h1) as [[x2 h2]|];
    simpl; [| reflexivity].
  destruct (visit (captured_response res d) runtime bk x2 h2) as [[x3 h3]|];
    simpl; [| reflexivity].
  change (HttpMetric_CaptureResponse (All x3) res d h3)
    with (update_cell (captured_response res d) (All x3) h3).
  destruct (update_cell (captured_response res d) (All x3) h3); reflexivity.
Qed.

Lemma run_body_MarshalJSON (now : Z) (x : Varz) (h : gmap loc HttpMetric)
    (b : option varz_json) :
  run (body (call_MarshalJSON now)) (x, h, b) =
  do (doc, x') <- Varz_MarshalJSON now x h; Returns (x', h, Some doc).
Proof.
  unfold Varz_MarshalJSON. simpl. unfold on_state.
  destruct (Varz_Registry x) as [r|] eqn:Hr; simpl; [| reflexivity].
  rewrite Hr. simpl.
  destruct (load h (All x)) as [a|]; simpl; [| reflexivity].
  destruct (updateTop now _) as [x1|]; simpl; [| reflexivity].
  destruct (json_Marshal x1 h) as [d|]; reflexivity.
Qed.

Lemma holding_insert (m : machine) (i j : nat) (t : thread)
    (mu : bool) (x : Varz) (h : gmap loc HttpMetric) :
  holding {| mutex := mu; varz := x; cells := h; threads := <[i := t]> (threads m) |} j ->
  (i = j /\ exists c rest b, t = Holding c rest b) \/ (i <> j /\ holding m j).
Proof.
  intros (c & rest & b & Hj). simpl in Hj.
  apply lookup_insert_Some in Hj as [[-> ->] | [Hne Hj]].
  - left. eauto.
  - right. split; [done |]. by exists c, rest, b.
Qed.

Lemma lock_invariant_start (init : machine) : initial init -> lock_invariant [init] init.
Proof.
  intros [Hfree Hwait].
  assert (Hnone : forall i, ~ holding init i).
  { intros i (c & rest & b & Hi). destruct (Hwait _ _ Hi) as [c' Hc']. discriminate. }
  split; [intros _; exact Hnone |].
  split; [intros i j Hi; by destruct (Hnone i) |].
  split.
  - intros i c rest b Hi. destruct (Hnone i). by exists c, rest, b.
  - intros i c b Hi. destruct (Hwait _ _ Hi) as [c' Hc']. discriminate.
Qed.

Lemma lock_invariant_step (tr : list machine) (m m' : machine) :
  lock_invariant tr m -> step m m' -> lock_invariant (m' :: tr) m'.
Proof.
  intros (Hfree & Hone & Hhold & Hdone) Hstep.
  assert (Hkeep : forall i c b,
    threads m !! i = Some (Finished c (Some b)) ->
    exists m0 x1 h1, m0 ∈ m' :: tr /\
      run (body c) (varz m0, cells m0, None) = Returns (x1, h1, b)).
  { intros i c b Hi. destruct (Hdone i c b Hi) as (m0 & x1 & h1 & Hin & Hrun).
    exists m0, x1, h1. split; [by apply list_elem_of_further | exact Hrun]. }
  inversion Hstep as [i c m1 Hi Hmu | i c s rest b b' x' h' m1 Hi Hs
                     | i c s rest b x' h' m1 Hi Hs | i c b m1 Hi]; subst; simpl.
  - (* Lock *)
    assert (Hnone : forall j, ~ holding m j) by (by apply Hfree).
    split; [discriminate |].
    split.
    { intros j k Hj Hk.
      apply holding_insert in Hj as [[<- _] | [_ Hj]]; [| by destruct (Hnone j)].
      apply holding_insert in Hk as [[<- _] | [_ Hk]]; [done | by destruct (Hnone k)]. }
    split.
    { intros j c' rest b Hj. simpl in Hj.
      apply lookup_insert_Some in Hj as [[<- [= <- <- <-]] | [Hne Hj]].
      - split; [reflexivity |]. eexists. split; [apply list_elem_of_here |]. reflexivity.
      - destruct (Hnone j). by exists c', rest, b. }
    intros j c' b Hj. simpl in Hj.
    apply lookup_insert_Some in Hj as [[_ [=]] | [_ Hj]]. by apply (Hkeep j).
  - (* a statement *)
    destruct (Hhold i c (s :: rest) b Hi) as (Hmu & m0 & Hin & Hrun).
    assert (Hi' : holding m i) by (by exists c, (s :: rest), b).
    split; [rewrite Hmu; discriminate |].
    split.
    { intros j k Hj Hk.
      apply holding_insert in Hj as [[<- _] | [_ Hj]];
        apply holding_insert in Hk as [[<- _] | [_ Hk]]; try done.
      - by apply Hone.
      - symmetry. by apply Hone.
      - by rewrite <- (Hone i j Hi' Hj), <- (Hone i k Hi' Hk). }
    split.
    { intros j c' rest' b0 Hj. simpl in Hj.
      apply lookup_insert_Some in Hj as [[<- [= <- <- <-]] | [Hne Hj]].
      - split; [exact Hmu |]. exists m0. split; [by apply list_elem_of_further |].
        rewrite <- Hrun. simpl. by rewrite Hs.
      - destruct Hne. apply Hone; [exact Hi' | by exists c', rest', b0]. }
    intros j c' b0 Hj. simpl in Hj.
    apply lookup_insert_Some in Hj as [[_ [=]] | [_ Hj]]. by apply (Hkeep j).
  - (* a panic *)
    assert (Hi' : holding m i) by (by exists c, (s :: rest), b).
    assert (Hnone : forall j,
      ~ holding {| mutex := false; varz := varz m; cells := cells m;
                   threads := <[i := Finished c None]> (threads m) |} j).
    { intros j Hj. apply holding_insert in Hj as [[_ (? & ? & ? & [=])] | [Hne Hj]].
      destruct Hne. by apply Hone. }
    split; [intros _; exact Hnone |].
    split; [intros j k Hj; by destruct (Hnone j) |].
    split.
    { intros j c' rest' b0 Hj. destruct (Hnone j). by exists c', rest', b0. }
    intros j c' b0 Hj. simpl in Hj.
    apply lookup_insert_Some in Hj as [[_ [=]] | [_ Hj]]. by apply (Hkeep j).
  - (* Unlock *)
    destruct (Hhold i c [] b Hi) as (Hmu & m0 & Hin & Hrun).
    assert (Hi' : holding m i) by (by exists c, [], b).
    assert (Hnone : forall j,
      ~ holding {| mutex := false; varz := varz m; cells := cells m;
                   threads := <[i := Finished c (Some b)]> (threads m) |} j).
    { intros j Hj. apply holding_insert in Hj as [[_ (? & ? & ? & [=])] | [Hne Hj]].
      destruct Hne. by apply Hone. }
    split; [intros _; exact Hnone |].
    split; [intros j k Hj; by destruct (Hnone j) |].
    split.
    { intros j c' rest' b0 Hj. destruct (Hnone j). by exists c', rest', b0. }
    intros j c' b0 Hj. simpl in Hj.
    apply lookup_insert_Some in Hj as [[<- [= <- <-]] | [_ Hj]]; [| by apply (Hkeep j)].
    exists m0, (varz m), (cells m). split; [by apply list_elem_of_further |].
    by rewrite <- Hrun.
Qed.

Lemma lock_invariant_execution (init : machine) (tr : list machine) (m : machine) :
  initial init -> execution init tr m -> lock_invariant tr m.
Proof.
  intros Hinit Hexec. induction Hexec as [| tr m m' Hexec IH Hstep].
  - by apply lock_invariant_start.
  - by apply (lock_invariant_step tr m m').
Qed.


Lemma next_is_step (i : nat) (m m' : machine) : next i m = Some m' -> step m m'.
Proof.
  unfold next.
  destruct (threads m !! i) as [[c | c [| s rest] b | c r]|] eqn:Hi; try discriminate.
  - destruct (mutex m) eqn:Hmu; [discriminate |].
    intros [= <-]. exact (step_Lock i c m Hi Hmu).
  - intros [= <-]. exact (step_Unlock i c b m Hi).
  - destruct (s (varz m, cells m, b)) as [[[x' h'] b'] | x' h'] eqn:Hs; intros [= <-].
    + exact (step_stmt i c s rest b b' x' h' m Hi Hs).
    + exact (step_panic i c s rest b x' h' m Hi Hs).
Qed.

Lemma schedule_is_execution (init : machine) (order : list nat) (tr : list machine)
    (m : machine) :
  execution init tr m ->
  execution init (schedule order tr m).1 (schedule order tr m).2.
Proof.
  revert tr m. induction order as [| i order IH]; intros tr m Hexec; simpl; [exact Hexec |].
  destruct (next i m) as [m'|] eqn:Hnext; [| by apply IH].
  apply IH. apply execution_step with m; [exact Hexec | exact (next_is_step i m m' Hnext)].
Qed.

(** When [updateTop] returns, the aggregator it leaves is the one it
    returns. *)
Lemma updateTop_loop_leaves_returns (y : list stats.topAppsTopEntry)
    (acc tops : list topAppsEntry) :
  updateTop_loop y acc = Returns tops -> updateTop_loop_leaves y acc = tops.
Proof.
  revert acc. induction y as [| z y IH]; intros acc; simpl.
  - by intros [= <-].
  - destruct (int64_div _ _) as [rps|]; simpl; [apply IH | discriminate].
Qed.

Lemma updateTop_leaves_returns (now : Z) (x x' : Varz) :
  updateTop now x = Returns x' -> updateTop_leaves now x = x'.
Proof.
  unfold updateTop, updateTop_leaves.
  destruct (Varz_Registry x) as [r|]; simpl; [| discriminate].
  destruct (updateTop_loop _ []) as [tops|] eqn:Hloop; simpl; [| discriminate].
  intros [= <-]. by rewrite (updateTop_loop_leaves_returns _ _ _ Hloop).
Qed.

(** The loop panics in its first turn or not at all, the divisor being the
    same in every turn; so a panic of [updateTop] leaves the aggregator
    untouched when the registry is nil, and with an empty [TopApps]
    otherwise. *)
Lemma updateTop_loop_panics (y : list stats.topAppsTopEntry) (acc : list topAppsEntry) :
  updateTop_loop y acc = Panics -> TopAppsEntryLifetime_Seconds = 0 /\ y <> [].
Proof.
  revert acc. induction y as [| z y IH]; intros acc; simpl; [discriminate |].
  unfold int64_div. destruct (Z.eqb_spec TopAppsEntryLifetime_Seconds 0) as [H0 | Hne]; simpl.
  - done.
  - intros H. by destruct (IH _ H).
Qed.

Lemma updateTop_leaves_panics (now : Z) (x : Varz) :
  updateTop now x = Panics ->
  updateTop_leaves now x
  = match Varz_Registry x with
    | None => x
    | Some _ => with_TopApps [] x
    end.
Proof.
  unfold updateTop, updateTop_leaves.
  destruct (Varz_Registry x) as [r|]; simpl; [| reflexivity].
  destruct (updateTop_loop _ []) as [tops|] eqn:Hloop; simpl; [discriminate |].
  intros _. destruct (updateTop_loop_panics _ _ Hloop) as [H0 Hy].
  destruct (stats.TopSince _ _ _) as [| z y]; [done |].
  simpl. unfold int64_div. by rewrite H0.
Qed.

(** C8.  Goroutines that call [CaptureBadRequest], [CaptureBackendRequest],
    [CaptureBackendResponse] and [MarshalJSON] on one aggregator, each between
    [Lock] and the deferred [Unlock], run interleaved in any order.  In every
    state of every execution at most one goroutine is inside a body, and it
    holds the mutex; a step that changes the aggregator or a cell is taken by
    the holder of the mutex; the document a [MarshalJSON] call returned is the
    one [MarshalJSON] computes, alone, from the aggregator and the cells of
    one state of the execution, so its derived fields and its counters are
    those of one instant; and every call that returned did what its body
    does, alone, from one state of the execution. *)
Theorem serialized_document_is_one_instant (init : machine) (tr : list machine) (m : machine) :
  initial init ->
  execution init tr m ->
  (forall i j, holding m i -> holding m j -> i = j) /\
  (forall i, holding m i -> mutex m = true) /\
  (forall m', step m m' -> varz m' <> varz m \/ cells m' <> cells m ->
              mutex m = true /\ exists i, holding m i) /\
  (forall i now doc,
      threads m !! i = Some (Finished (call_MarshalJSON now) (Some (Some doc))) ->
      exists m0 x1, m0 ∈ tr /\
        Varz_MarshalJSON now (varz m0) (cells m0) = Returns (doc, x1)) /\
  (forall i c b,
      threads m !! i = Some (Finished c (Some b)) ->
      exists m0 x1 h1, m0 ∈ tr /\
        run (body c) (varz m0, cells m0, None) = Returns (x1, h1, b)).
Proof.
  intros Hinit Hexec.
  destruct (lock_invariant_execution init tr m Hinit Hexec) as (Hfree & Hone & Hhold & Hdone).
  split; [exact Hone |].
  split; [intros i (c & rest & b & Hi); by destruct (Hhold i c rest b Hi) |].
  split.
  { intros m' Hstep Hchange.
    inversion Hstep as [i c m1 Hi Hmu | i c s rest b b' x' h' m1 Hi Hs
                       | i c s rest b x' h' m1 Hi Hs | i c b m1 Hi]; subst; simpl in Hchange;
      try (by destruct Hchange as [H | H]; destruct H).
    all: split; [by destruct (Hhold i c (s :: rest) b Hi) |].
    all: exists i; by exists c, (s :: rest), b. }
  split; [| exact Hdone].
  intros i now doc Hi.
  destruct (Hdone i _ _ Hi) as (m0 & x1 & h1 & Hin & Hrun).
  rewrite run_body_MarshalJSON in Hrun.
  destruct (Varz_MarshalJSON now (varz m0) (cells m0)) as [[d x']|] eqn:Hm;
    simpl in Hrun; [| discriminate].
  injection Hrun as <- <- <-. by exists m0, x'.
Qed.

End Facts.

Lemma machine0_initial : initial machine0.
Proof.
  split; [reflexivity |]. intros i t Hi. unfold machine0 in Hi. simpl in Hi.
  apply lookup_insert_Some in Hi as [[_ <-] | [_ Hi]]; [eauto |].
  apply lookup_singleton_Some in Hi as [_ <-]. eauto.
Qed.

(** A serialization that panics in the loop of [updateTop], the entry
    lifetime being under one second: the goroutine ends without a document,
    the mutex is free again, and the aggregator keeps what the call had
    written by then, the counts of the registry and the empty [TopApps] in
    place of the earlier list. *)
Lemma panicked_serialization_leaves_its_writes :
  let m := (schedule (cfg := sub_second) [0; 0; 0; 0; 0; 0; 0]%nat
              [machine_stale] machine_stale).2 in
  length (TopApps (varz machine_stale)) = 1%nat /\
  threads m !! 0%nat = Some (Finished (call_MarshalJSON 0) None) /\
  mutex m = false /\
  TopApps (varz m) = [] /\
  Urls (varz m) = 3 /\ Droplets (varz m) = 5 /\
  cells m = cells machine_stale.
Proof. vm_compute. repeat split; reflexivity. Qed.

Lemma serialized_document_is_one_instant_witness :
  initial machine0 /\
  execution (cfg := one_minute) machine0
    (schedule (cfg := one_minute) schedule0 [machine0] machine0).1
    (schedule (cfg := one_minute) schedule0 [machine0] machine0).2 /\
  exists doc,
    threads (schedule (cfg := one_minute) schedule0 [machine0] machine0).2 !! 0%nat
    = Some (Finished (call_MarshalJSON 0) (Some (Some doc))) /\
    requests <$> all doc = Some 0 /\
    Requests <$> cell_of (varz (schedule (cfg := one_minute) schedule0 [machine0] machine0).2)
                         (cells (schedule (cfg := one_minute) schedule0 [machine0] machine0).2)
                         slot_All = Some 1 /\
    exists m0 x1,
      m0 ∈ (schedule (cfg := one_minute) schedule0 [machine0] machine0).1 /\
      Varz_MarshalJSON (cfg := one_minute) 0 (varz m0) (cells m0) = Returns (doc, x1).
Proof.
  pose proof machine0_initial as Hinit.
  pose proof (schedule_is_execution (cfg := one_minute) machine0 schedule0 [machine0] machine0
                (execution_start (cfg := one_minute) machine0)) as Hexec.
  split; [exact Hinit |]. split; [exact Hexec |].
  assert (Hdoc : { doc |
    threads (schedule (cfg := one_minute) schedule0 [machine0] machine0).2 !! 0%nat
    = Some (Finished (call_MarshalJSON 0) (Some (Some doc))) }).
  { eexists. vm_compute. reflexivity. }
  destruct Hdoc as [doc Hdoc]. exists doc.
  split; [exact Hdoc |].
  split; [vm_compute in Hdoc; injection Hdoc as <-; reflexivity |].
  split; [vm_compute; reflexivity |].
  destruct (serialized_document_is_one_instant (cfg := one_minute) machine0 _ _ Hinit Hexec)
    as (_ & _ & _ & Hsnap & _).
  exact (Hsnap 0%nat 0 doc Hdoc).
Defined.

End locking_facts.

(** * Further properties *)

(** ** The classifiers *)

Module classifier_extras.
Import error_classifiers.

Section Facts.
Context {std : StdErrors}.

Ltac open_classifiers :=
  unfold Classify, classifier, AttemptedTLSWithNonTLSBackend, Dial, ConnectionResetOnRead,
    RemoteFailedCertCheck, RemoteHandshakeFailure, HostnameMismatch, UntrustedCert,
    assert_ptr_OpError in *;
  simpl in *.

Ltac case_tags :=
  repeat match goal with
         | H : context [String.eqb ?a ?b] |- _ => destruct (String.eqb_spec a b); simpl in H
         | |- context [String.eqb ?a ?b] => destruct (String.eqb_spec a b); simpl
         end.

(** A classifier that answers true has met its trigger. *)
Lemma true_has_shape (c : category) (err : error) :
  classifier c err = Returns true -> shape c err = true.
Proof.
  intros H. destruct (defined_on c err) eqn:Hd.
  - rewrite (classifier_facts.defined_on_returns c err Hd) in H. by injection H.
  - rewrite (classifier_facts.outside_defined_on_panics c err Hd) in H. discriminate H.
Qed.

Lemma shapes_exclude (c1 c2 : category) (err : error) :
  shape c1 err = true -> shape c2 err = true -> c1 = c2.
Proof.
  intros H1 H2.
  destruct err as [|[o|]| | | | | | | |]; destruct c1; try discriminate H1;
    destruct c2; try discriminate H2; try reflexivity;
    unfold shape, op_error_shape in *; case_tags; try discriminate; try congruence;
    destruct (Error (Err o)) as [m|]; try discriminate; case_tags;
    try discriminate; congruence.
Qed.

(** X1.  No error is accepted by two classifiers: whenever two of the seven
    answer true on the same error, they are the same classifier. *)
Theorem at_most_one_category (err : error) (c1 c2 : category) :
  Classify (classifier c1) err = Returns true ->
  Classify (classifier c2) err = Returns true ->
  c1 = c2.
Proof.
  unfold Classify. intros H1 H2.
  apply (shapes_exclude c1 c2 err); by apply true_has_shape.
Qed.

(** X2.  Where the classifiers panic: the three type switches never do;
    [Dial] does exactly on a nil [*net.OpError]; each of the three classifiers
    that read the message does exactly on a nil [*net.OpError] and on a
    [*net.OpError] carrying its operation tag whose [Err.Error()] call
    panics, as it does when [Err] is nil, a nil pointer to a struct with a
    value-receiver [Error], or an [x509.HostnameError] without a
    certificate. *)
Theorem classifiers_panic_exactly (err : error) :
  Classify AttemptedTLSWithNonTLSBackend err <> Panics /\
  Classify HostnameMismatch err <> Panics /\
  Classify UntrustedCert err <> Panics /\
  (Classify Dial err = Panics <-> err = ptr_OpError None) /\
  (Classify ConnectionResetOnRead err = Panics <->
     err = ptr_OpError None \/
     exists o, err = ptr_OpError (Some o) /\ Op o = "read"%string /\ Error (Err o) = Panics) /\
  (Classify RemoteFailedCertCheck err = Panics <->
     err = ptr_OpError None \/
     exists o, err = ptr_OpError (Some o) /\ Op o = "remote error"%string /\
               Error (Err o) = Panics) /\
  (Classify RemoteHandshakeFailure err = Panics <->
     err = ptr_OpError None \/
     exists o, err = ptr_OpError (Some o) /\ Op o = "remote error"%string /\
               Error (Err o) = Panics).
Proof.
  split; [destruct err; discriminate |].
  split; [destruct err; discriminate |].
  split; [destruct err; discriminate |].
  split.
  { destruct err as [|[o|]| | | | | | | |]; open_classifiers; split; try discriminate;
      reflexivity. }
  repeat split.
  all: try (intros H; destruct err as [|[o|]| | | | | | | |]; open_classifiers;
            try discriminate H; [| by left];
            right; exists o; split; [reflexivity |];
            case_tags; try discriminate H;
            split; [assumption |];
            destruct (Error (Err o)); [discriminate H | reflexivity]).
  all: intros [-> | (o & -> & Hop & Hm)]; open_classifiers; [reflexivity |];
       rewrite Hop, Hm; reflexivity.
Qed.

End Facts.

Lemma at_most_one_category_witness :
  Classify (classifier cConnectionResetOnRead) peer_reset = Returns true /\
  forall c, Classify (classifier c) peer_reset = Returns true -> c = cConnectionResetOnRead.
Proof.
  split; [reflexivity |].
  intros c Hc.
  exact (at_most_one_category peer_reset c cConnectionResetOnRead Hc eq_refl).
Defined.

Lemma classifiers_panic_exactly_witness :
  Classify ConnectionResetOnRead read_without_cause = Panics /\
  Classify Dial read_without_cause <> Panics /\
  Classify ConnectionResetOnRead read_with_bare_hostname_error = Panics /\
  Classify RemoteFailedCertCheck read_with_bare_hostname_error <> Panics.
Proof.
  destruct (classifiers_panic_exactly read_without_cause) as (_ & _ & _ & Hdial & Hread & _).
  destruct (classifiers_panic_exactly read_with_bare_hostname_error)
    as (_ & _ & _ & _ & Hread' & Hcert & _).
  split; [| split; [| split]].
  - apply Hread. right. eexists. split; [reflexivity |]. split; reflexivity.
  - intros H. apply Hdial in H. discriminate H.
  - apply Hread'. right. eexists. split; [reflexivity |]. split; reflexivity.
  - intros H. apply Hcert in H. destruct H as [H | (o & H & Hop & _)]; [discriminate H |].
    injection H as <-. discriminate Hop.
Defined.

End classifier_extras.

(** ** The metric cell *)

Module cell_extras.
Import router.

Section Facts.
Context {gm : GoMetrics} {cfg : StatsConfig}.

Lemma quot_hundreds_inv (q s : Z) :
  2 <= q -> Z.quot s 100 = q -> 100 * q <= s < 100 * q + 100.
Proof.
  intros Hq E.
  destruct (Z_le_gt_dec 0 s) as [Hpos | Hneg].
  - pose proof (Z.quot_rem' s 100) as D.
    pose proof (Z.rem_bound_pos s 100 Hpos ltac:(lia)) as R. lia.
  - pose proof (quot_nonneg_le (- s) 100 ltac:(lia) ltac:(lia)) as B.
    rewrite Z.quot_opp_l in B by lia. lia.
Qed.

(** The status codes of the four numbered buckets are 200 to 599. *)
Lemma bucket_of_status_other (s : Z) :
  bucket_of_status (Some s) = bxxx <-> s < 200 \/ 600 <= s.
Proof.
  unfold bucket_of_status.
  destruct (Z.eqb_spec (Z.quot s 100) 2) as [E2 | N2];
    [apply quot_hundreds_inv in E2; [| lia]; split; [discriminate | lia] |].
  destruct (Z.eqb_spec (Z.quot s 100) 3) as [E3 | N3];
    [apply quot_hundreds_inv in E3; [| lia]; split; [discriminate | lia] |].
  destruct (Z.eqb_spec (Z.quot s 100) 4) as [E4 | N4];
    [apply quot_hundreds_inv in E4; [| lia]; split; [discriminate | lia] |].
  destruct (Z.eqb_spec (Z.quot s 100) 5) as [E5 | N5];
    [apply quot_hundreds_inv in E5; [| lia]; split; [discriminate | lia] |].
  split; [| reflexivity]. intros _.
  destruct (Z_lt_ge_dec s 200) as [| H200]; [by left |].
  destruct (Z_lt_ge_dec s 600) as [H600 |]; [| right; lia].
  exfalso.
  destruct (Z_lt_ge_dec s 300); [apply N2, (quot_hundreds 2 s); lia |].
  destruct (Z_lt_ge_dec s 400); [apply N3, (quot_hundreds 3 s); lia |].
  destruct (Z_lt_ge_dec s 500); [apply N4, (quot_hundreds 4 s); lia |].
  apply N5, (quot_hundreds 5 s); lia.
Qed.

Lemma bucket_count_captured_response (k : bucket) (y : option Response) (z : Z)
    (c : HttpMetric) :
  bucket_count k (captured_response y z c) =
  if decide (k = bucket_of y) then Inc 1 (bucket_count k c) else bucket_count k c.
Proof.
  unfold captured_response. rewrite varz_facts.switch_is_bucket.
  unfold bucket_of, bucket_of_status.
  destruct y as [r|]; simpl.
  - destruct (Z.quot (StatusCode r) 100 =? 2); [destruct k; reflexivity |].
    destruct (Z.quot (StatusCode r) 100 =? 3); [destruct k; reflexivity |].
    destruct (Z.quot (StatusCode r) 100 =? 4); [destruct k; reflexivity |].
    destruct (Z.quot (StatusCode r) 100 =? 5); destruct k; reflexivity.
  - destruct k; reflexivity.
Qed.

Lemma Requests_captured_response (y : option Response) (z : Z) (c : HttpMetric) :
  Requests (captured_response y z c) = Requests c.
Proof.
  unfold captured_response. rewrite varz_facts.switch_is_bucket.
  repeat case_match; reflexivity.
Qed.

Lemma bucket_count_captured_request (k : bucket) (c : HttpMetric) :
  bucket_count k (captured_request c) = bucket_count k c.
Proof. destruct k; reflexivity. Qed.

Lemma CaptureResponse_on_cell (l : loc) (c : HttpMetric) (y : option Response) (z : Z)
    (h : gmap loc HttpMetric) :
  h !! l = Some c ->
  HttpMetric_CaptureResponse (Some l) y z h = Returns (<[l := captured_response y z c]> h).
Proof.
  intros Hl. unfold HttpMetric_CaptureResponse, load, store_at. simpl. by rewrite Hl.
Qed.

Lemma CaptureRequest_on_cell (l : loc) (c : HttpMetric) (h : gmap loc HttpMetric) :
  h !! l = Some c ->
  HttpMetric_CaptureRequest (Some l) h = Returns (<[l := captured_request c]> h).
Proof.
  intros Hl. unfold HttpMetric_CaptureRequest, load, store_at. simpl. by rewrite Hl.
Qed.

(** X3.  [CaptureResponse] files every status code outside 200..599 under
    "other": the informational codes, zero, negative codes and 600 and above
    add one to [ResponsesXxx] and leave the four numbered counters alone,
    while a code from 200 to 599 leaves [ResponsesXxx] alone. *)
Theorem CaptureResponse_other_statuses (l : loc) (c : HttpMetric) (s z : Z)
    (h : gmap loc HttpMetric) :
  h !! l = Some c ->
  exists c',
    HttpMetric_CaptureResponse (Some l) (Some {| StatusCode := s |}) z h
    = Returns (<[l := c']> h) /\
    (s < 200 \/ 600 <= s ->
     ResponsesXxx c' = Inc 1 (ResponsesXxx c) /\
     Responses2xx c' = Responses2xx c /\ Responses3xx c' = Responses3xx c /\
     Responses4xx c' = Responses4xx c /\ Responses5xx c' = Responses5xx c) /\
    (200 <= s < 600 -> ResponsesXxx c' = ResponsesXxx c).
Proof.
  intros Hl. eexists. split; [by apply CaptureResponse_on_cell |].
  pose proof (fun k => bucket_count_captured_response k (Some {| StatusCode := s |}) z c) as Hk.
  change (bucket_of (Some {| StatusCode := s |})) with (bucket_of_status (Some s)) in Hk.
  pose proof (bucket_of_status_other s) as Hother.
  split.
  - intros Hs. apply Hother in Hs. rewrite Hs in Hk.
    pose proof (Hk bxxx) as Hx. pose proof (Hk b2xx) as H2. pose proof (Hk b3xx) as H3.
    pose proof (Hk b4xx) as H4. pose proof (Hk b5xx) as H5.
    rewrite decide_True in Hx by done.
    rewrite decide_False in H2 by done. rewrite decide_False in H3 by done.
    rewrite decide_False in H4 by done. rewrite decide_False in H5 by done.
    auto.
  - intros Hs. pose proof (Hk bxxx) as Hx.
    rewrite decide_False in Hx; [exact Hx |].
    intros E. symmetry in E. apply Hother in E. lia.
Qed.

Lemma responses_in_total (es : list cell_event) :
  responses_in b2xx es + responses_in b3xx es + responses_in b4xx es
  + responses_in b5xx es + responses_in bxxx es
  = Z.of_nat (length es) - requests_in es.
Proof.
  induction es as [| [| y z] es IH].
  - reflexivity.
  - cbn [responses_in requests_in length]. lia.
  - cbn [responses_in requests_in length].
    destruct (bucket_of y); repeat case_decide; try congruence; lia.
Qed.

Lemma headroom_step (n : Z) (e : cell_event) (c : HttpMetric) :
  0 <= n ->
  headroom (n + 1) c ->
  headroom n (cell_step e c) /\
  Count (Requests (cell_step e c)) = Count (Requests c) + requests_in [e] /\
  forall k, bucket_count k (cell_step e c) = bucket_count k c + responses_in k [e].
Proof.
  intros Hn [Hreq Hbuckets].
  assert (Hinc : forall v, min_int64 <= v -> v + (n + 1) <= max_int64 -> Inc 1 v = v + 1).
  { intros v Hlo Hhi. apply Inc_one_below_max; unfold int64_range; lia. }
  destruct e as [| y z]; cbn [cell_step requests_in responses_in].
  - assert (Hr : Count (Requests (captured_request c)) = Count (Requests c) + 1).
    { unfold Count. simpl. apply Hinc; apply Hreq. }
    split; [| split; [lia |]].
    + split; [lia |]. intros k. rewrite bucket_count_captured_request.
      specialize (Hbuckets k). lia.
    + intros k. rewrite bucket_count_captured_request. lia.
  - assert (Hk : forall k, bucket_count k (captured_response y z c)
                           = bucket_count k c + (if decide (bucket_of y = k) then 1 else 0)).
    { intros k. rewrite bucket_count_captured_response. specialize (Hbuckets k).
      destruct (decide (k = bucket_of y)) as [-> | Hne].
      - rewrite decide_True by done. apply Hinc; lia.
      - rewrite decide_False by congruence. lia. }
    rewrite Requests_captured_response.
    split; [| split; [lia |]].
    + split; [rewrite Requests_captured_response; lia |].
      intros k. rewrite Hk. specialize (Hbuckets k). case_decide; lia.
    + intros k. rewrite Hk. lia.
Qed.

Lemma calls_count (es : list cell_event) (l : loc) (c : HttpMetric) (h : gmap loc HttpMetric) :
  h !! l = Some c ->
  headroom (Z.of_nat (length es)) c ->
  exists c',
    HttpMetric_calls es (Some l) h = Returns (<[l := c']> h) /\
    c' = foldl (fun c e => cell_step e c) c es /\
    Count (Requests c') = Count (Requests c) + requests_in es /\
    forall k, bucket_count k c' = bucket_count k c + responses_in k es.
Proof.
  revert c h. induction es as [| e es IH]; intros c h Hl Hroom.
  - exists c. simpl. split; [by rewrite insert_id |]. split; [reflexivity |].
    split; [lia | intros k; lia].
  - assert (Hsucc : Z.of_nat (length (e :: es)) = Z.of_nat (length es) + 1)
      by (simpl length; lia).
    rewrite Hsucc in Hroom.
    destruct (headroom_step (Z.of_nat (length es)) e c ltac:(lia) Hroom)
      as (Hroom1 & Hr1 & Hk1).
    assert (Hfirst : match e with
                     | cell_request => HttpMetric_CaptureRequest (Some l) h
                     | cell_response y z => HttpMetric_CaptureResponse (Some l) y z h
                     end = Returns (<[l := cell_step e c]> h)).
    { destruct e; [by apply CaptureRequest_on_cell | by apply CaptureResponse_on_cell]. }
    destruct (IH (cell_step e c) (<[l := cell_step e c]> h)
                ltac:(by rewrite lookup_insert_eq) Hroom1) as (c' & Hrun & Hfold & Hr & Hk).
    exists c'. cbn [HttpMetric_calls]. rewrite Hfirst. simpl. rewrite Hrun.
    split; [by rewrite insert_insert_eq |]. split; [exact Hfold |].
    split.
    + rewrite Hr, Hr1. destruct e; cbn [requests_in]; lia.
    + intros k. rewrite Hk, Hk1. destruct e; cbn [responses_in]; lia.
Qed.

(** X4.  Calls on one cell add up.  After any sequence of [CaptureRequest]
    and [CaptureResponse] calls on a cell whose counters have room for that
    many increments, the request counter has grown by the number of
    [CaptureRequest] calls, each bucket counter by the number of responses of
    that bucket, and the five bucket counters together by the number of
    [CaptureResponse] calls: every response is counted once, none is lost. *)
Theorem HttpMetric_calls_add_up (es : list cell_event) (l : loc) (c : HttpMetric)
    (h : gmap loc HttpMetric) :
  h !! l = Some c ->
  headroom (Z.of_nat (length es)) c ->
  exists c',
    HttpMetric_calls es (Some l) h = Returns (<[l := c']> h) /\
    Count (Requests c') = Count (Requests c) + requests_in es /\
    (forall k, bucket_count k c' = bucket_count k c + responses_in k es) /\
    responses_total c' = responses_total c + (Z.of_nat (length es) - requests_in es).
Proof.
  intros Hl Hroom.
  destruct (calls_count es l c h Hl Hroom) as (c' & Hrun & _ & Hr & Hk).
  exists c'. split; [exact Hrun |]. split; [exact Hr |]. split; [exact Hk |].
  unfold responses_total. rewrite !Hk. pose proof (responses_in_total es). lia.
Qed.

(** X5.  What [HttpMetric.MarshalJSON] encodes.  On a nil receiver it
    panics.  On a cell it returns exactly when the histogram answers at least
    three percentiles, and then reports the six counters of the cell, the
    three rates of its meter in the order 1, 5, 15 minutes, and a latency map
    with the keys "50", "75" and "99" and no other, holding the first three
    percentiles in that order. *)
Theorem HttpMetric_MarshalJSON_encodes (l : loc) (c : HttpMetric) (h : gmap loc HttpMetric) :
  h !! l = Some c ->
  HttpMetric_MarshalJSON None h = Panics /\
  let z := Percentiles [float64_lit (5 # 10); float64_lit (75 # 100); float64_lit (99 # 100)]
             (Latency c) in
  ((length z < 3)%nat -> HttpMetric_MarshalJSON (Some l) h = Panics) /\
  ((3 <= length z)%nat ->
   exists y,
     HttpMetric_MarshalJSON (Some l) h = Returns y /\
     counters y = [Count (Requests c); Count (Responses2xx c); Count (Responses3xx c);
                   Count (Responses4xx c); Count (Responses5xx c); Count (ResponsesXxx c)] /\
     rate y = [Rate1 (Rate c); Rate5 (Rate c); Rate15 (Rate c)] /\
     dom (latency y) = {[ "50"%string; "75"%string; "99"%string ]} /\
     latency y !! "50"%string = z !! 0%nat /\
     latency y !! "75"%string = z !! 1%nat /\
     latency y !! "99"%string = z !! 2%nat).
Proof.
  intros Hl. split; [reflexivity |].
  unfold HttpMetric_MarshalJSON, load, index. simpl. rewrite Hl. simpl.
  set (z := Percentiles _ (Latency c)).
  destruct z as [| z0 [| z1 [| z2 z]]]; simpl.
  - split; [reflexivity | lia].
  - split; [reflexivity | lia].
  - split; [reflexivity | lia].
  - split; [lia |]. intros _. eexists. split; [reflexivity |]. simpl.
    split; [reflexivity |]. split; [reflexivity |].
    split; [rewrite !dom_insert_L, dom_empty_L; set_solver |].
    split; [| split].
    + rewrite lookup_insert_ne by done. rewrite lookup_insert_ne by done.
      by rewrite lookup_insert_eq.
    + rewrite lookup_insert_ne by done. by rewrite lookup_insert_eq.
    + by rewrite lookup_insert_eq.
Qed.

End Facts.

Lemma CaptureResponse_other_statuses_witness :
  varz0.2 !! 1%positive = Some (NewHttpMetric_cell (gm := recording_metrics)) /\
  (101 < 200 \/ 600 <= 101) /\
  exists c',
    HttpMetric_CaptureResponse (Some 1%positive) (Some {| StatusCode := 101 |}) 5 varz0.2
    = Returns (<[1%positive := c']> varz0.2) /\
    ResponsesXxx c' = 1 /\ Responses2xx c' = 0.
Proof.
  split; [reflexivity |]. split; [left; lia |].
  destruct (CaptureResponse_other_statuses (gm := recording_metrics) 1%positive
              NewHttpMetric_cell 101 5 varz0.2 eq_refl) as (c' & Hret & Hother & _).
  exists c'. split; [exact Hret |].
  destruct (Hother ltac:(left; lia)) as (Hx & H2 & _).
  split; [rewrite Hx; reflexivity | rewrite H2; reflexivity].
Defined.

Lemma HttpMetric_calls_add_up_witness :
  varz0.2 !! 1%positive = Some (NewHttpMetric_cell (gm := recording_metrics)) /\
  headroom 5 (NewHttpMetric_cell (gm := recording_metrics)) /\
  exists c',
    HttpMetric_calls
      [cell_request; cell_response (Some {| StatusCode := 200 |}) 10; cell_response None 20;
       cell_request; cell_response (Some {| StatusCode := 503 |}) 30]
      (Some 1%positive) varz0.2
    = Returns (<[1%positive := c']> varz0.2) /\
    Count (Requests c') = 2 /\ bucket_count b5xx c' = 1 /\ responses_total c' = 3.
Proof.
  assert (Hroom : headroom 5 (NewHttpMetric_cell (gm := recording_metrics))).
  { split; [split; [discriminate | discriminate] |].
    intros k. destruct k; split; discriminate. }
  split; [reflexivity |]. split; [exact Hroom |].
  destruct (HttpMetric_calls_add_up (gm := recording_metrics)
              [cell_request; cell_response (Some {| StatusCode := 200 |}) 10;
               cell_response None 20; cell_request;
               cell_response (Some {| StatusCode := 503 |}) 30]
              1%positive NewHttpMetric_cell varz0.2 eq_refl Hroom)
    as (c' & Hret & Hreq & Hbucket & Htotal).
  exists c'. split; [exact Hret |].
  split; [rewrite Hreq; reflexivity |].
  split; [rewrite (Hbucket b5xx); reflexivity | rewrite Htotal; reflexivity].
Defined.

Lemma HttpMetric_MarshalJSON_encodes_witness :
  varz0.2 !! 1%positive = Some (NewHttpMetric_cell (gm := recording_metrics)) /\
  exists y,
    HttpMetric_MarshalJSON (Some 1%positive) varz0.2 = Returns y /\
    dom (latency y) = {[ "50"%string; "75"%string; "99"%string ]}.
Proof.
  split; [reflexivity |].
  destruct (HttpMetric_MarshalJSON_encodes (gm := recording_metrics) 1%positive
              NewHttpMetric_cell varz0.2 eq_refl) as (_ & _ & Hreturns).
  destruct (Hreturns ltac:(simpl; lia)) as (y & Hret & _ & _ & Hdom & _).
  exists y. split; [exact Hret | exact Hdom].
Defined.

End cell_extras.

(** ** The aggregator *)

Module varz_extras.
Import router.

Section Facts.
Context {gm : GoMetrics} {cfg : StatsConfig}.

Lemma slot_ptr_same_holders (x x' : Varz) :
  All x' = All x -> (forall d, tagged d x' = tagged d x) ->
  forall s, slot_ptr x' s = slot_ptr x s.
Proof. intros Ha Ht [| d t]; simpl; [done | by rewrite Ht]. Qed.

Lemma well_formed_same_holders (x x' : Varz) (h : gmap loc HttpMetric) :
  All x' = All x -> (forall d, tagged d x' = tagged d x) ->
  well_formed x h -> well_formed x' h.
Proof.
  intros Ha Ht [W1 W2 W3 W4].
  pose proof (slot_ptr_same_holders x x' Ha Ht) as E. split.
  - by rewrite Ha.
  - intros d. by rewrite Ht.
  - intros s l. rewrite E. apply W3.
  - intros s1 s2 l. rewrite !E. apply W4.
Qed.

Lemma derived_with_tagged (d : dimension) (m : option (gmap string ptr)) (x : Varz) :
  derived_fields (with_tagged d m x) = derived_fields x /\
  BadRequests (with_tagged d m x) = BadRequests x /\
  All (with_tagged d m x) = All x.
Proof. by destruct d. Qed.

(** What a block does to the map of its dimension, when it returns. *)
Lemma visit_frame (f : HttpMetric -> HttpMetric) (d : dimension) (b : Backend)
    (x x' : Varz) (h h' : gmap loc HttpMetric) :
  visit f d b x h = Returns (x', h') ->
  exists m,
    x' = with_tagged d m x /\
    (forall t l, map_get (tagged d x) t = Some l -> map_get m t = Some l) /\
    (forall t, map_get (tagged d x) t = None -> Tags b !! tag_key d <> Some t ->
               map_get m t = None).
Proof.
  unfold visit. destruct (Tags b !! tag_key d) as [t|] eqn:Htag.
  - destruct (TaggedHttpMetric_httpMetric (tagged d x) t h) as [[[y m] h1]|] eqn:Hm;
      simpl; [| discriminate].
    destruct (update_cell f y h1) as [h2|]; simpl; [| discriminate].
    intros [= <- <-]. exists m. split; [reflexivity |].
    destruct (varz_facts.httpMetric_cases _ _ _ _ _ _ Hm)
      as [(l & Hget & -> & -> & ->) | (m0 & Hget & Hx & -> & -> & ->)]; [done |].
    rewrite Hx in *. split.
    + intros t' l Hl. destruct (decide (t' = t)) as [-> |]; [congruence |].
      by rewrite varz_facts.map_get_set_ne.
    + intros t' Hn Hne. rewrite varz_facts.map_get_set_ne; [done | congruence].
  - intros [= <- <-]. exists (tagged d x). by rewrite varz_facts.with_tagged_same.
Qed.

Lemma visit_slots (f : HttpMetric -> HttpMetric) (d : dimension) (b : Backend)
    (x x' : Varz) (h h' : gmap loc HttpMetric) :
  visit f d b x h = Returns (x', h') ->
  derived_fields x' = derived_fields x /\
  BadRequests x' = BadRequests x /\
  (forall d', d' <> d -> tagged d' x' = tagged d' x) /\
  (forall s l, slot_ptr x s = Some l -> slot_ptr x' s = Some l) /\
  (forall s, slot_ptr x s = None -> reached_in d b s = false -> slot_ptr x' s = None).
Proof.
  intros Hv. destruct (visit_frame f d b x x' h h' Hv) as (m & -> & Hkeep & Hnone).
  destruct (derived_with_tagged d m x) as (Hd & Hb & Ha).
  split; [exact Hd |]. split; [exact Hb |].
  split; [intros d' Hne; by apply (varz_facts.tagged_frame d d' m x) |].
  split.
  - intros s l Hs. rewrite varz_facts.slot_ptr_with_tagged.
    destruct s as [| d' t]; [exact Hs |]. simpl in Hs.
    destruct (decide (d' = d)) as [-> |]; [by apply Hkeep | exact Hs].
  - intros s Hs Hr. rewrite varz_facts.slot_ptr_with_tagged.
    destruct s as [| d' t]; [exact Hs |]. simpl in Hs, Hr.
    destruct (decide (d' = d)) as [-> | Hne]; [| exact Hs].
    apply Hnone; [exact Hs |]. intros Htag.
    rewrite bool_decide_eq_true_2 in Hr by done.
    rewrite bool_decide_eq_true_2 in Hr by done. discriminate Hr.
Qed.

Lemma visit_all_slots (f : HttpMetric -> HttpMetric) (b : Backend)
    (x x' : Varz) (h h' : gmap loc HttpMetric) :
  visit_all f b x h = Returns (x', h') ->
  derived_fields x' = derived_fields x /\
  BadRequests x' = BadRequests x /\
  (forall s l, slot_ptr x s = Some l -> slot_ptr x' s = Some l) /\
  (forall s, slot_ptr x s = None -> reached b s = false -> slot_ptr x' s = None).
Proof.
  unfold visit_all.
  destruct (visit f component b x h) as [[x1 h1]|] eqn:H1; simpl; [| discriminate].
  destruct (visit f framework b x1 h1) as [[x2 h2]|] eqn:H2; simpl; [| discriminate].
  destruct (visit f runtime b x2 h2) as [[x3 h3]|] eqn:H3; simpl; [| discriminate].
  destruct (update_cell f (All x3) h3) as [h4|]; simpl; [| discriminate].
  intros [= <- <-].
  destruct (visit_slots _ _ _ _ _ _ _ H1) as (D1 & B1 & _ & K1 & N1).
  destruct (visit_slots _ _ _ _ _ _ _ H2) as (D2 & B2 & _ & K2 & N2).
  destruct (visit_slots _ _ _ _ _ _ _ H3) as (D3 & B3 & _ & K3 & N3).
  split; [congruence |]. split; [congruence |].
  split; [intros s l Hs; by apply K3, K2, K1 |].
  intros s Hs Hr. rewrite varz_facts.reached_split in Hr.
  apply orb_false_iff in Hr as [Hr _]. apply orb_false_iff in Hr as [Hr Hr3].
  apply orb_false_iff in Hr as [Hr1 Hr2].
  apply N3; [apply N2; [apply N1 |] |]; assumption.
Qed.

Lemma events_for_cons (s : slot) (e : capture) (es : list capture) :
  events_for s (e :: es) = events_for s [e] ++ events_for s es.
Proof.
  unfold events_for. simpl.
  destruct e as [| b | b res d]; [reflexivity | |]; by destruct (reached b s).
Qed.

(** One capture call, whatever the state, when it returns. *)
Lemma capture_call_frame (e : capture) (x x' : Varz) (h h' : gmap loc HttpMetric) :
  capture_call e x h = Returns (x', h') ->
  derived_fields x' = derived_fields x /\
  BadRequests x' = match e with
                   | BadRequest => int64_wrap (BadRequests x + 1)
                   | _ => BadRequests x
                   end /\
  (forall s l, slot_ptr x s = Some l -> slot_ptr x' s = Some l) /\
  (forall s, slot_ptr x s = None -> events_for s [e] = [] -> slot_ptr x' s = None).
Proof.
  destruct e as [| b | b res d]; simpl.
  - intros [= <- <-]. by destruct x.
  - rewrite varz_facts.CaptureBackendRequest_is_visit_all. intros Hv.
    destruct (visit_all_slots _ _ _ _ _ _ Hv) as (D & B & K & N).
    split; [exact D |]. split; [exact B |]. split; [exact K |].
    intros s Hs He. apply N; [exact Hs |].
    unfold events_for in He. simpl in He. by destruct (reached b s).
  - rewrite varz_facts.CaptureBackendResponse_is_visit_all. intros Hv.
    destruct (visit_all_slots _ _ _ _ _ _ Hv) as (D & B & K & N).
    split; [exact D |]. split; [exact B |]. split; [exact K |].
    intros s Hs He. apply N; [exact Hs |].
    unfold events_for in He. simpl in He. by destruct (reached b s).
Qed.

(** One capture call on a well-formed aggregator. *)
Lemma capture_call_cells (e : capture) (x : Varz) (h : gmap loc HttpMetric) :
  well_formed x h ->
  exists x' h',
    capture_call e x h = Returns (x', h') /\
    well_formed x' h' /\
    forall s, cell_of x' h' s = foldl slot_step (cell_of x h s) (events_for s [e]).
Proof.
  intros Hwf. destruct e as [| b | b res d]; simpl.
  - eexists _, _. split; [reflexivity |].
    split; [apply (well_formed_same_holders x); [done | by intros [] | exact Hwf] |].
    intros s. unfold cell_of. by destruct s as [| [] t].
  - rewrite varz_facts.CaptureBackendRequest_is_visit_all.
    destruct (varz_facts.visit_all_step captured_request b x h Hwf)
      as (x' & h' & -> & Hwf' & E & _).
    exists x', h'. split; [reflexivity |]. split; [exact Hwf' |].
    intros s. rewrite (E s). unfold events_for. simpl. by destruct (reached b s).
  - rewrite varz_facts.CaptureBackendResponse_is_visit_all.
    destruct (varz_facts.visit_all_step (captured_response res d) b x h Hwf)
      as (x' & h' & -> & Hwf' & E & _).
    exists x', h'. split; [reflexivity |]. split; [exact Hwf' |].
    intros s. rewrite (E s). unfold events_for. simpl. by destruct (reached b s).
Qed.

Lemma captures_cells (es : list capture) (x : Varz) (h : gmap loc HttpMetric) :
  well_formed x h ->
  exists x' h',
    captures es x h = Returns (x', h') /\
    well_formed x' h' /\
    forall s, cell_of x' h' s = foldl slot_step (cell_of x h s) (events_for s es).
Proof.
  revert x h. induction es as [| e es IH]; intros x h Hwf.
  - exists x, h. by split.
  - destruct (capture_call_cells e x h Hwf) as (x1 & h1 & Hcall & Hwf1 & E1).
    destruct (IH x1 h1 Hwf1) as (x' & h' & Hrun & Hwf' & E).
    exists x', h'. cbn [captures]. rewrite Hcall. cbn [outcome_bind].
    split; [exact Hrun |]. split; [exact Hwf' |].
    intros s. rewrite (E s), (E1 s), (events_for_cons s e es). by rewrite foldl_app.
Qed.

Lemma captures_frame (es : list capture) (x x' : Varz) (h h' : gmap loc HttpMetric) :
  captures es x h = Returns (x', h') ->
  derived_fields x' = derived_fields x /\
  (min_int64 <= BadRequests x -> BadRequests x + bad_requests_in es <= max_int64 ->
   BadRequests x' = BadRequests x + bad_requests_in es) /\
  (forall s l, slot_ptr x s = Some l -> slot_ptr x' s = Some l) /\
  (forall s, slot_ptr x s = None -> events_for s es = [] -> slot_ptr x' s = None).
Proof.
  revert x h. induction es as [| e es IH]; intros x h.
  - intros [= <- <-]. cbn [bad_requests_in]. repeat split; auto. intros; lia.
  - cbn [captures].
    destruct (capture_call e x h) as [[x1 h1]|] eqn:Hcall; cbn [outcome_bind];
      [| discriminate].
    intros Hrun.
    destruct (capture_call_frame e x x1 h h1 Hcall) as (D1 & B1 & K1 & N1).
    destruct (IH x1 h1 Hrun) as (D & B & K & N).
    assert (Hnonneg : 0 <= bad_requests_in es).
    { clear. induction es as [| [| |] es IH]; cbn [bad_requests_in]; lia. }
    split; [congruence |]. split; [| split].
    + intros Hlo Hhi. rewrite B.
      * rewrite B1. destruct e; cbn [bad_requests_in] in *; try lia.
        rewrite int64_wrap_small; [lia | unfold int64_range; lia].
      * rewrite B1. destruct e; cbn [bad_requests_in] in *; try lia.
        rewrite int64_wrap_small; [lia | unfold int64_range; lia].
      * rewrite B1. destruct e; cbn [bad_requests_in] in *; try lia.
        rewrite int64_wrap_small; [lia | unfold int64_range; lia].
    + intros s l Hs. by apply K, K1.
    + intros s Hs He. rewrite (events_for_cons s e es) in He.
      apply app_eq_nil in He as [He1 He2]. apply N; [by apply N1 | exact He2].
Qed.


(** A block whose map is nil panics when the backend has the tag. *)
Lemma visit_nil_map (f : HttpMetric -> HttpMetric) (d : dimension) (b : Backend) (t : string)
    (x : Varz) (h : gmap loc HttpMetric) :
  tagged d x = None -> Tags b !! tag_key d = Some t -> visit f d b x h = Panics.
Proof.
  intros Hnil Htag. unfold visit, TaggedHttpMetric_httpMetric. by rewrite Htag, Hnil.
Qed.

Lemma visit_all_nil_map (f : HttpMetric -> HttpMetric) (d : dimension) (b : Backend)
    (t : string) (x : Varz) (h : gmap loc HttpMetric) :
  tagged d x = None -> Tags b !! tag_key d = Some t -> visit_all f b x h = Panics.
Proof.
  intros Hnil Htag. unfold visit_all.
  destruct (visit f component b x h) as [[x1 h1]|] eqn:H1; simpl; [| reflexivity].
  destruct (decide (d = component)) as [-> | Hc];
    [by rewrite (visit_nil_map f component b t x h Hnil Htag) in H1 |].
  destruct (visit_slots _ _ _ _ _ _ _ H1) as (_ & _ & T1 & _).
  rewrite <- (T1 d Hc) in Hnil.
  destruct (visit f framework b x1 h1) as [[x2 h2]|] eqn:H2; simpl; [| reflexivity].
  destruct (decide (d = framework)) as [-> | Hf];
    [by rewrite (visit_nil_map f framework b t x1 h1 Hnil Htag) in H2 |].
  destruct (visit_slots _ _ _ _ _ _ _ H2) as (_ & _ & T2 & _).
  rewrite <- (T2 d Hf) in Hnil.
  assert (d = runtime) as -> by (by destruct d).
  by rewrite (visit_nil_map f runtime b t x2 h2 Hnil Htag).
Qed.

(** X6.  The tag maps must have been made: on a nil [TaggedHttpMetric]
    both capture methods panic for every tag, and so does a capture on an
    aggregator one of whose maps is nil, as soon as the backend carries a tag
    of that dimension; an aggregator built without [NewVarz] cannot count a
    tagged backend. *)
Theorem captures_panic_on_nil_map (d : dimension) (b : Backend) (t : string)
    (x : Varz) (h : gmap loc HttpMetric) (res : option Response) (z : Z) :
  tagged d x = None ->
  Tags b !! tag_key d = Some t ->
  TaggedHttpMetric_CaptureRequest (tagged d x) t h = Panics /\
  TaggedHttpMetric_CaptureResponse (tagged d x) t res z h = Panics /\
  CaptureBackendRequest b x h = Panics /\
  CaptureBackendResponse b res z x h = Panics.
Proof.
  intros Hnil Htag.
  split; [by rewrite Hnil |]. split; [by rewrite Hnil |].
  rewrite varz_facts.CaptureBackendRequest_is_visit_all,
    varz_facts.CaptureBackendResponse_is_visit_all.
  split; by apply (visit_all_nil_map _ d b t).
Qed.

(** X7.  [NewVarz] in any store gives a well-formed aggregator: [All] is a
    new cell with every counter at zero, the three maps are made and empty,
    no bad request is counted, the registry is not set, and every cell that
    was in the store is still there unchanged; a second [NewVarz] gets a
    cell of its own for [All]. *)
Theorem NewVarz_is_fresh (h : gmap loc HttpMetric) :
  well_formed (NewVarz h).1 (NewVarz h).2 /\
  cell_of (NewVarz h).1 (NewVarz h).2 slot_All = Some NewHttpMetric_cell /\
  (forall d, tagged d (NewVarz h).1 = Some ∅) /\
  BadRequests (NewVarz h).1 = 0 /\
  Varz_Registry (NewVarz h).1 = None /\
  (forall l c, h !! l = Some c -> (NewVarz h).2 !! l = Some c) /\
  All (NewVarz (NewVarz h).2).1 <> All (NewVarz h).1.
Proof.
  split; [apply varz_facts.NewVarz_well_formed |].
  unfold NewVarz, NewHttpMetric, alloc, cell_of. simpl.
  split; [by rewrite lookup_insert_eq |].
  split; [by intros [] |]. split; [reflexivity |]. split; [reflexivity |].
  split.
  - intros l c Hl. rewrite lookup_insert_ne; [exact Hl |].
    intros <-. pose proof (is_fresh (dom h)) as Hf.
    apply Hf. apply elem_of_dom. eauto.
  - intros [= E].
    pose proof (is_fresh (dom (<[fresh (dom h) := NewHttpMetric_cell]> h))) as Hf.
    apply Hf. rewrite E. apply elem_of_dom. rewrite lookup_insert_eq. eauto.
Qed.

(** X8.  Captures reach their cells and no other.  On a well-formed
    aggregator any sequence of [CaptureBadRequest], [CaptureBackendRequest]
    and [CaptureBackendResponse] calls returns a well-formed aggregator, and
    the cell of every slot is then what the calls of the backends that carry
    the slot's tag make of it, in order, starting from a new cell where the
    slot held none; [All] receives the call of every backend; a slot that no
    backend of the sequence reaches keeps its cell, or stays without one. *)
Theorem captures_reach_their_cells (es : list capture) (x : Varz) (h : gmap loc HttpMetric) :
  well_formed x h ->
  exists x' h',
    captures es x h = Returns (x', h') /\
    well_formed x' h' /\
    (forall s, cell_of x' h' s = foldl slot_step (cell_of x h s) (events_for s es)) /\
    (forall s, events_for s es = [] -> cell_of x' h' s = cell_of x h s) /\
    events_for slot_All es
    = omap (fun e => match e with
                     | BadRequest => None
                     | BackendRequest _ => Some cell_request
                     | BackendResponse _ res d => Some (cell_response res d)
                     end) es.
Proof.
  intros Hwf. destruct (captures_cells es x h Hwf) as (x' & h' & Hrun & Hwf' & E).
  exists x', h'. split; [exact Hrun |]. split; [exact Hwf' |]. split; [exact E |].
  split; [intros s He; by rewrite (E s), He |].
  unfold events_for. clear. induction es as [| [| b | b res d] es IH]; simpl; congruence.
Qed.

(** X9.  Cells stay in place.  Whenever a sequence of captures returns,
    every slot that held a cell holds the same cell, by identity: no capture
    replaces or removes a cell; and a slot that held none and that no backend
    of the sequence reaches holds none afterwards. *)
Theorem captures_keep_cells_in_place (es : list capture) (x x' : Varz)
    (h h' : gmap loc HttpMetric) :
  captures es x h = Returns (x', h') ->
  (forall s l, slot_ptr x s = Some l -> slot_ptr x' s = Some l) /\
  (forall s, slot_ptr x s = None -> events_for s es = [] -> slot_ptr x' s = None).
Proof.
  intros Hrun. destruct (captures_frame es x x' h h' Hrun) as (_ & _ & K & N). by split.
Qed.

(** X10.  Captures leave serialization's fields alone.  Whenever a sequence
    of captures returns, the registry pointer, [Urls], [Droplets],
    [RequestsPerSec] and [TopApps] are as before, and [BadRequests] has grown
    by the number of [CaptureBadRequest] calls, as long as that does not
    overflow. *)
Theorem captures_count_bad_requests (es : list capture) (x x' : Varz)
    (h h' : gmap loc HttpMetric) :
  captures es x h = Returns (x', h') ->
  min_int64 <= BadRequests x ->
  BadRequests x + bad_requests_in es <= max_int64 ->
  derived_fields x' = derived_fields x /\
  BadRequests x' = BadRequests x + bad_requests_in es.
Proof.
  intros Hrun Hlo Hhi. destruct (captures_frame es x x' h h' Hrun) as (D & B & _).
  split; [exact D | by apply B].
Qed.

Lemma slot_steps_Some (o : option HttpMetric) (evs : list cell_event) :
  evs <> [] \/ is_Some o ->
  foldl slot_step o evs
  = Some (foldl (fun c e => cell_step e c) (default NewHttpMetric_cell o) evs).
Proof.
  revert o. induction evs as [| e evs IH]; intros o Ho.
  - destruct Ho as [Ho | [c ->]]; [done | reflexivity].
  - cbn [foldl]. rewrite IH; [reflexivity | right; by eexists].
Qed.

Lemma cell_steps_count (evs : list cell_event) (c : HttpMetric) :
  headroom (Z.of_nat (length evs)) c ->
  Count (Requests (foldl (fun c e => cell_step e c) c evs))
  = Count (Requests c) + requests_in evs /\
  forall k, bucket_count k (foldl (fun c e => cell_step e c) c evs)
            = bucket_count k c + responses_in k evs.
Proof.
  revert c. induction evs as [| e evs IH]; intros c Hroom.
  - cbn [foldl requests_in responses_in]. split; [lia | intros k; lia].
  - assert (Hsucc : Z.of_nat (length (e :: evs)) = Z.of_nat (length evs) + 1)
      by (simpl length; lia).
    rewrite Hsucc in Hroom.
    destruct (cell_extras.headroom_step (Z.of_nat (length evs)) e c ltac:(lia) Hroom)
      as (Hroom1 & Hr1 & Hk1).
    destruct (IH (cell_step e c) Hroom1) as (Hr & Hk).
    cbn [foldl]. split.
    + rewrite Hr, Hr1. destruct e; cbn [requests_in]; lia.
    + intros k. rewrite Hk, Hk1. destruct e; cbn [responses_in]; lia.
Qed.

(** X11.  No capture is lost or counted twice.  After any sequence of
    captures on a well-formed aggregator, the cell of a slot that held a
    cell or was reached has a request counter grown by the number of backend
    requests that reach the slot, and each bucket counter grown by the number
    of backend responses of that bucket that reach it (counting from zero
    where the cell is new), as long as the counters have room. *)
Theorem captures_count_per_slot (es : list capture) (s : slot) (x : Varz)
    (h : gmap loc HttpMetric) :
  well_formed x h ->
  events_for s es <> [] \/ is_Some (cell_of x h s) ->
  headroom (Z.of_nat (length (events_for s es))) (default NewHttpMetric_cell (cell_of x h s)) ->
  exists x' h' c',
    captures es x h = Returns (x', h') /\
    cell_of x' h' s = Some c' /\
    Count (Requests c')
    = Count (Requests (default NewHttpMetric_cell (cell_of x h s)))
      + requests_in (events_for s es) /\
    forall k, bucket_count k c'
              = bucket_count k (default NewHttpMetric_cell (cell_of x h s))
                + responses_in k (events_for s es).
Proof.
  intros Hwf Hsome Hroom.
  destruct (captures_cells es x h Hwf) as (x' & h' & Hrun & _ & E).
  destruct (cell_steps_count _ _ Hroom) as (Hr & Hk).
  eexists x', h', _. split; [exact Hrun |].
  split; [rewrite (E s); by apply slot_steps_Some |].
  split; [exact Hr | exact Hk].
Qed.

End Facts.

Lemma captures_panic_on_nil_map_witness :
  tagged framework zero_varz = None /\
  Tags backend0 !! tag_key framework = Some "sinatra"%string /\
  CaptureBackendRequest backend0 zero_varz ∅ = Panics.
Proof.
  split; [reflexivity |]. split; [reflexivity |].
  exact (proj1 (proj2 (proj2
           (captures_panic_on_nil_map (gm := recording_metrics) framework backend0 "sinatra"
              zero_varz ∅ None 0 eq_refl eq_refl)))).
Defined.

Lemma NewVarz_is_fresh_witness :
  cell_of varz0.1 varz0.2 slot_All = Some (NewHttpMetric_cell (gm := recording_metrics)) /\
  BadRequests varz0.1 = 0.
Proof.
  destruct (NewVarz_is_fresh (gm := recording_metrics) ∅) as (_ & Hall & _ & Hbad & _).
  split; [exact Hall | exact Hbad].
Defined.

Lemma captures_reach_their_cells_witness :
  well_formed varz0.1 varz0.2 /\
  exists x' h',
    captures captures0 varz0.1 varz0.2 = Returns (x', h') /\
    Requests <$> cell_of x' h' slot_All = Some 2 /\
    Responses5xx <$> cell_of x' h' slot_All = Some 1 /\
    Requests <$> cell_of x' h' (slot_tag runtime "ruby19") = Some 2 /\
    Requests <$> cell_of x' h' (slot_tag component "dea") = Some 1 /\
    cell_of x' h' (slot_tag component "router") = None.
Proof.
  split; [apply varz_facts.NewVarz_well_formed |].
  destruct (captures_reach_their_cells (gm := recording_metrics) captures0 varz0.1 varz0.2
              (varz_facts.NewVarz_well_formed ∅)) as (x' & h' & Hrun & _ & Hcells & _).
  exists x', h'. split; [exact Hrun |]. rewrite !Hcells. repeat split; reflexivity.
Defined.

Lemma captures_keep_cells_in_place_witness :
  exists x' h',
    captures captures0 varz0.1 varz0.2 = Returns (x', h') /\
    slot_ptr x' slot_All = Some 1%positive /\
    slot_ptr x' (slot_tag component "router") = None.
Proof.
  assert (Hrun : { p | captures captures0 varz0.1 varz0.2 = Returns p }).
  { eexists. vm_compute. reflexivity. }
  destruct Hrun as [[x' h'] Hrun]. exists x', h'. split; [exact Hrun |].
  destruct (captures_keep_cells_in_place (gm := recording_metrics) captures0 _ _ _ _ Hrun)
    as (Hkeep & Hnone).
  split; [apply Hkeep; reflexivity | apply Hnone; reflexivity].
Defined.

Lemma captures_count_bad_requests_witness :
  min_int64 <= BadRequests varz0.1 /\
  BadRequests varz0.1 + bad_requests_in captures0 <= max_int64 /\
  exists x' h',
    captures captures0 varz0.1 varz0.2 = Returns (x', h') /\
    BadRequests x' = 1 /\ TopApps x' = [].
Proof.
  split; [discriminate |]. split; [discriminate |].
  assert (Hrun : { p | captures captures0 varz0.1 varz0.2 = Returns p }).
  { eexists. vm_compute. reflexivity. }
  destruct Hrun as [[x' h'] Hrun]. exists x', h'. split; [exact Hrun |].
  destruct (captures_count_bad_requests (gm := recording_metrics) captures0 _ _ _ _ Hrun
              ltac:(discriminate) ltac:(discriminate)) as (Hd & Hbad).
  split; [rewrite Hbad; reflexivity |].
  unfold derived_fields in Hd. by injection Hd as _ _ _ _ ->.
Defined.

Lemma captures_count_per_slot_witness :
  well_formed varz0.1 varz0.2 /\
  events_for (slot_tag runtime "ruby19") captures0 <> [] /\
  exists x' h' c',
    captures captures0 varz0.1 varz0.2 = Returns (x', h') /\
    cell_of x' h' (slot_tag runtime "ruby19") = Some c' /\
    Count (Requests c') = 2 /\ bucket_count b5xx c' = 1.
Proof.
  split; [apply varz_facts.NewVarz_well_formed |]. split; [discriminate |].
  assert (Hroom : headroom
            (Z.of_nat (length (events_for (slot_tag runtime "ruby19") captures0)))
            (default (NewHttpMetric_cell (gm := recording_metrics))
               (cell_of varz0.1 varz0.2 (slot_tag runtime "ruby19")))).
  { split; [split; discriminate |]. intros k. destruct k; split; discriminate. }
  destruct (captures_count_per_slot (gm := recording_metrics) captures0
              (slot_tag runtime "ruby19") varz0.1 varz0.2
              (varz_facts.NewVarz_well_formed ∅) ltac:(left; discriminate) Hroom)
    as (x' & h' & c' & Hrun & Hcell & Hreq & Hbucket).
  exists x', h', c'. split; [exact Hrun |]. split; [exact Hcell |].
  split; [rewrite Hreq; reflexivity | rewrite (Hbucket b5xx); reflexivity].
Defined.

End varz_extras.

(** ** Serialization *)

Module serialize_extras.
Import router.

Section Facts.
Context {gm : GoMetrics} {cfg : StatsConfig}.

Lemma updateTop_loop_zero_lifetime (z : stats.topAppsTopEntry) (y : list stats.topAppsTopEntry)
    (acc : list topAppsEntry) :
  TopAppsEntryLifetime_Seconds = 0 -> updateTop_loop (z :: y) acc = Panics.
Proof. intros H0. cbn [updateTop_loop]. unfold int64_div. by rewrite H0. Qed.

(** X12.  The edges of [updateTop].  With a nil registry it panics.  With
    an empty ranking it stores the empty list, whatever the entry lifetime.
    With an entry lifetime under one second, whose whole seconds are zero, it
    panics on the first entry of a non-empty ranking, the division being by
    zero.  The list stored before the call plays no part: the list is
    rebuilt, not extended. *)
Theorem updateTop_edge_cases (now : Z) (x : Varz) :
  (Varz_Registry x = None -> updateTop now x = Panics) /\
  (forall r, Varz_Registry x = Some r ->
             stats.TopSince (Registry_TopApps r) (now + -1 * Minute) 10 = [] ->
             updateTop now x = Returns (with_TopApps [] x)) /\
  (forall r, Varz_Registry x = Some r ->
             TopAppsEntryLifetime_Seconds = 0 ->
             stats.TopSince (Registry_TopApps r) (now + -1 * Minute) 10 <> [] ->
             updateTop now x = Panics) /\
  (forall l, updateTop now (with_TopApps l x) = updateTop now x).
Proof.
  split; [intros Hr; unfold updateTop; by rewrite Hr |].
  split; [intros r Hr Hy; unfold updateTop; rewrite Hr; simpl; by rewrite Hy |].
  split; [| reflexivity].
  intros r Hr H0 Hy. unfold updateTop. rewrite Hr. simpl.
  destruct (stats.TopSince (Registry_TopApps r) (now + -1 * Minute) 10) as [| z y]; [done |].
  by rewrite updateTop_loop_zero_lifetime.
Qed.

(** The steps of [MarshalJSON], when it returns. *)
Lemma Varz_MarshalJSON_steps (now : Z) (x x' : Varz) (h : gmap loc HttpMetric)
    (doc : varz_json) :
  Varz_MarshalJSON now x h = Returns (doc, x') ->
  exists r a tops,
    Varz_Registry x = Some r /\
    load h (All x) = Returns a /\
    updateTop_loop (stats.TopSince (Registry_TopApps r) (now + -1 * Minute) 10) []
    = Returns tops /\
    x' = with_TopApps tops
           (with_RequestsPerSec (Rate1 (Rate a))
              (with_Droplets (NumBackends r) (with_Urls (NumUris r) x))) /\
    json_Marshal x' h = Returns doc.
Proof.
  unfold Varz_MarshalJSON, updateTop.
  destruct (Varz_Registry x) as [r|] eqn:Hr; simpl; [| discriminate].
  rewrite Hr. simpl.
  destruct (load h (All x)) as [a|] eqn:Ha; simpl; [| discriminate].
  destruct (updateTop_loop _ []) as [tops|] eqn:Hloop; simpl; [| discriminate].
  destruct (json_Marshal _ h) as [d|] eqn:Hd; simpl; [| discriminate].
  intros [= <- <-]. exists r, a, tops. by repeat split.
Qed.

(** X13.  Serializing twice changes nothing more.  When [MarshalJSON]
    returns a document, calling it again at the same time on the aggregator
    it left, with the registry unchanged, returns the same document and
    leaves the same aggregator: the derived fields are overwritten, not
    accumulated. *)
Theorem MarshalJSON_again (now : Z) (x x' : Varz) (h : gmap loc HttpMetric) (doc : varz_json) :
  Varz_MarshalJSON now x h = Returns (doc, x') ->
  Varz_MarshalJSON now x' h = Returns (doc, x').
Proof.
  intros Hret.
  destruct (Varz_MarshalJSON_steps _ _ _ _ _ Hret) as (r & a & tops & Hr & Ha & Hloop & -> & Hd).
  unfold Varz_MarshalJSON, updateTop. simpl. rewrite Hr. simpl.
  rewrite Ha. simpl. rewrite Hloop. simpl.
  match goal with
  | H : json_Marshal ?u h = Returns doc |- context [json_Marshal ?v h] =>
      change v with u; rewrite H
  end.
  reflexivity.
Qed.

Lemma json_Marshal_inv (x : Varz) (h : gmap loc HttpMetric) (doc : varz_json) :
  json_Marshal x h = Returns doc ->
  marshal_cell h (All x) = Returns (all doc) /\
  (forall d, marshal_tagged h (tagged d x) = Returns (doc_tags d doc)) /\
  urls doc = Urls x /\ droplets doc = Droplets x /\ bad_requests doc = BadRequests x /\
  requests_per_sec doc = RequestsPerSec x /\ top10_app_requests doc = TopApps x.
Proof.
  unfold json_Marshal.
  destruct (marshal_cell h (All x)) as [a|]; simpl; [| discriminate].
  destruct (marshal_tagged h (Component x)) as [c|] eqn:Hc; simpl; [| discriminate].
  destruct (marshal_tagged h (Framework x)) as [f|] eqn:Hf; simpl; [| discriminate].
  destruct (marshal_tagged h (Runtime x)) as [r|] eqn:Hru; simpl; [| discriminate].
  intros [= <-]. simpl. split; [reflexivity |].
  split; [by intros [] |]. by repeat split.
Qed.

Lemma marshal_tagged_inv (h : gmap loc HttpMetric) (m : gmap string ptr)
    (r : option (gmap string (option httpMetric))) :
  marshal_tagged h (Some m) = Returns r ->
  exists rm, r = Some rm /\
    forall t, rm !! t = (m !! t) ≫= (fun p => returned (marshal_cell h p)) /\
              (is_Some (rm !! t) <-> is_Some (m !! t)).
Proof.
  unfold marshal_tagged. case_decide as Hall; [| discriminate].
  intros [= <-]. eexists. split; [reflexivity |]. intros t.
  rewrite lookup_omap, lookup_fmap.
  destruct (m !! t) as [p|] eqn:Hp; simpl.
  - assert (Hret : is_Some (returned (marshal_cell h p))).
    { apply (map_Forall_lookup_1 _ _ t _ Hall). by rewrite lookup_fmap, Hp. }
    split; [reflexivity |]. split; [eauto | intros _; exact Hret].
  - split; [reflexivity |]. split; intros [? ?]; discriminate.
Qed.

(** X14.  What the document holds.  When [MarshalJSON] returns, [urls]
    and [droplets] are the registry's route and backend counts,
    [requests_per_sec] is the one-minute rate of the [All] meter,
    [top10_app_requests] is the list left in [TopApps], [bad_requests] is the
    counter, [all] is the encoding of the [All] cell, and each of the three
    tag maps is encoded key for key: a nil map as null, and otherwise a map
    with exactly the tags of the aggregator's map, each holding the encoding
    of its cell, null for a nil cell. *)
Theorem MarshalJSON_document (now : Z) (x x' : Varz) (h : gmap loc HttpMetric)
    (doc : varz_json) :
  Varz_MarshalJSON now x h = Returns (doc, x') ->
  exists r a,
    Varz_Registry x = Some r /\
    load h (All x) = Returns a /\
    urls doc = NumUris r /\
    droplets doc = NumBackends r /\
    requests_per_sec doc = Rate1 (Rate a) /\
    top10_app_requests doc = TopApps x' /\
    bad_requests doc = BadRequests x /\
    marshal_cell h (All x) = Returns (all doc) /\
    forall d,
      match tagged d x with
      | None => doc_tags d doc = None
      | Some m =>
          exists rm,
            doc_tags d doc = Some rm /\
            dom rm = dom m /\
            forall t p, m !! t = Some p ->
                        exists o, marshal_cell h p = Returns o /\ rm !! t = Some o
      end.
Proof.
  intros Hret.
  destruct (varz_facts.Varz_MarshalJSON_inv _ _ _ _ _ Hret) as (r & a & Hr & Ha & Hx' & Hdoc).
  destruct (json_Marshal_inv _ _ _ Hdoc) as (Hall & Htags & Hu & Hd & Hb & Hrps & Htop).
  exists r, a. split; [exact Hr |]. split; [exact Ha |].
  split; [rewrite Hu, Hx'; reflexivity |].
  split; [rewrite Hd, Hx'; reflexivity |].
  split; [rewrite Hrps, Hx'; reflexivity |].
  split; [exact Htop |].
  split; [rewrite Hb, Hx'; reflexivity |].
  split; [rewrite <- Hall, Hx'; reflexivity |].
  intros d. specialize (Htags d).
  assert (Hsame : tagged d x' = tagged d x) by (rewrite Hx'; by destruct d).
  rewrite Hsame in Htags.
  destruct (tagged d x) as [m|].
  - destruct (marshal_tagged_inv h m _ Htags) as (rm & Hrm & Hlook).
    exists rm. split; [exact Hrm |]. split.
    + apply set_eq. intros t. rewrite !elem_of_dom. apply (Hlook t).
    + intros t p Hp. destruct (Hlook t) as (Ht & Hsome).
      rewrite Hp in Ht. simpl in Ht.
      destruct (marshal_cell h p) as [o|]; simpl in Ht.
      * exists o. by split.
      * destruct (proj2 Hsome) as [o Ho]; [by rewrite Hp |]. congruence.
  - simpl in Htags. by injection Htags as <-.
Qed.

(** X15.  [MarshalJSON] needs the registry and the [All] cell: with a nil
    registry pointer or a nil [All] it panics; in particular the aggregator
    that [NewVarz] returns cannot be serialized until its registry is set. *)
Theorem MarshalJSON_needs_registry (now : Z) (x : Varz) (h : gmap loc HttpMetric) :
  (Varz_Registry x = None \/ All x = None -> Varz_MarshalJSON now x h = Panics) /\
  Varz_MarshalJSON now (NewVarz h).1 (NewVarz h).2 = Panics.
Proof.
  split; [| reflexivity].
  intros [Hr | Ha]; unfold Varz_MarshalJSON.
  - by rewrite Hr.
  - destruct (Varz_Registry x) as [r|] eqn:Hr; simpl; [| reflexivity].
    rewrite Hr. simpl. unfold load. by rewrite Ha.
Qed.


Lemma MarshalJSON_cell_counters (l : loc) (c : HttpMetric) (h : gmap loc HttpMetric)
    (y : httpMetric) :
  h !! l = Some c ->
  HttpMetric_MarshalJSON (Some l) h = Returns y ->
  requests y = Count (Requests c) /\
  forall k, reported_bucket k y = bucket_count k c.
Proof.
  intros Hc. unfold HttpMetric_MarshalJSON, load. simpl. rewrite Hc. simpl.
  destruct (index _ 0) as [z0|]; simpl; [| discriminate].
  destruct (index _ 1) as [z1|]; simpl; [| discriminate].
  destruct (index _ 2) as [z2|]; simpl; [| discriminate].
  intros [= <-]. split; [reflexivity |]. by intros [].
Qed.

(** X16.  What was captured is what is reported.  On a well-formed
    aggregator whose registry is set, any sequence of captures followed by
    [MarshalJSON] returns a document whose [all] block reports the request
    counter of the [All] cell grown by the number of backend requests, each
    bucket counter grown by the number of backend responses of that bucket,
    and whose [bad_requests] has grown by the number of bad requests;
    provided the counters have room, the entry lifetime is positive, the
    ranking holds [int64] counts and the histogram answers one percentile per
    rank. *)
Theorem captures_then_MarshalJSON (es : list capture) (now : Z) (x : Varz)
    (h : gmap loc HttpMetric) (r : Registry) :
  (forall ps hist, length (Percentiles ps hist) = length ps) ->
  well_formed x h ->
  Varz_Registry x = Some r ->
  0 < TopAppsEntryLifetime_Seconds ->
  Forall (fun z => int64_range (stats.Requests z))
         (stats.ranked_since (Registry_TopApps r) (now + -1 * Minute)) ->
  headroom (Z.of_nat (length (events_for slot_All es)))
           (default NewHttpMetric_cell (cell_of x h slot_All)) ->
  min_int64 <= BadRequests x ->
  BadRequests x + bad_requests_in es <= max_int64 ->
  exists x1 h1 doc x2 c y,
    captures es x h = Returns (x1, h1) /\
    Varz_MarshalJSON now x1 h1 = Returns (doc, x2) /\
    cell_of x h slot_All = Some c /\
    all doc = Some y /\
    requests y = Count (Requests c) + requests_in (events_for slot_All es) /\
    (forall k, reported_bucket k y
               = bucket_count k c + responses_in k (events_for slot_All es)) /\
    bad_requests doc = BadRequests x + bad_requests_in es.
Proof.
  intros Hlen Hwf Hr Hw Hrange Hroom Hlo Hhi.
  destruct (wf_All _ _ Hwf) as [a Ha].
  destruct (wf_alloc _ _ Hwf slot_All a Ha) as [c Hc].
  assert (Hcell : cell_of x h slot_All = Some c)
    by (by rewrite (varz_facts.cell_of_Some x h slot_All a Ha)).
  rewrite Hcell in Hroom. simpl in Hroom.
  destruct (varz_extras.captures_cells es x h Hwf) as (x1 & h1 & Hrun & Hwf1 & E).
  destruct (varz_extras.captures_frame es x x1 h h1 Hrun) as (D & B & K & _).
  assert (Hr1 : Varz_Registry x1 = Some r).
  { unfold derived_fields in D. injection D as -> _ _ _ _. exact Hr. }
  destruct (varz_facts.Varz_MarshalJSON_returns now x1 h1 r Hlen Hwf1 Hr1 Hw Hrange)
    as (doc & x2 & Hret).
  destruct (Varz_MarshalJSON_steps _ _ _ _ _ Hret) as (r' & a' & tops & _ & _ & _ & Hx2 & Hd).
  destruct (json_Marshal_inv _ _ _ Hd) as (Hall & _ & _ & _ & Hbad & _).
  assert (Ha1 : All x1 = Some a) by (apply (K slot_All a); exact Ha).
  assert (Hcell1 : h1 !! a
                   = Some (foldl (fun c e => cell_step e c) c (events_for slot_All es))).
  { rewrite <- (varz_facts.cell_of_Some x1 h1 slot_All a Ha1), (E slot_All), Hcell.
    rewrite varz_extras.slot_steps_Some; [reflexivity | right; by eexists]. }
  assert (Ha2 : All x2 = Some a) by (rewrite Hx2; exact Ha1).
  rewrite Ha2 in Hall. simpl in Hall.
  destruct (HttpMetric_MarshalJSON (Some a) h1) as [y|] eqn:Hy; simpl in Hall;
    [| discriminate].
  injection Hall as Hall.
  destruct (MarshalJSON_cell_counters a _ h1 y Hcell1 Hy) as (Hreq & Hbuckets).
  destruct (varz_extras.cell_steps_count _ _ Hroom) as (Hcount & Hbcount).
  exists x1, h1, doc, x2, c, y.
  split; [exact Hrun |]. split; [exact Hret |]. split; [exact Hcell |].
  split; [by symmetry |].
  split; [by rewrite Hreq, Hcount |].
  split; [intros k; by rewrite Hbuckets, Hbcount |].
  rewrite Hbad, Hx2. simpl. by apply B.
Qed.

End Facts.

Lemma updateTop_edge_cases_witness :
  Varz_Registry (with_Registry (Some registry0) varz0.1) = Some registry0 /\
  TopAppsEntryLifetime_Seconds (StatsConfig := sub_second) = 0 /\
  updateTop (cfg := sub_second) 0 (with_Registry (Some registry0) varz0.1) = Panics /\
  updateTop (cfg := one_minute) 0 varz0.1 = Panics.
Proof.
  split; [reflexivity |]. split; [reflexivity |].
  destruct (updateTop_edge_cases (gm := recording_metrics) (cfg := sub_second) 0
              (with_Registry (Some registry0) varz0.1)) as (_ & _ & Hzero & _).
  destruct (updateTop_edge_cases (gm := recording_metrics) (cfg := one_minute) 0 varz0.1)
    as (Hnil & _).
  split; [apply (Hzero registry0 eq_refl eq_refl); discriminate | apply Hnil; reflexivity].
Defined.

Lemma MarshalJSON_again_witness :
  exists doc x',
    Varz_MarshalJSON (cfg := one_minute) 0 (with_Registry (Some registry0) varz0.1) varz0.2
    = Returns (doc, x') /\
    Varz_MarshalJSON (cfg := one_minute) 0 x' varz0.2 = Returns (doc, x').
Proof.
  assert (Hret : { p | Varz_MarshalJSON (cfg := one_minute) 0
                         (with_Registry (Some registry0) varz0.1) varz0.2 = Returns p }).
  { eexists. vm_compute. reflexivity. }
  destruct Hret as [[doc x'] Hret]. exists doc, x'. split; [exact Hret |].
  exact (MarshalJSON_again (gm := recording_metrics) (cfg := one_minute) 0 _ x' _ doc Hret).
Defined.

Lemma MarshalJSON_document_witness :
  exists doc x',
    Varz_MarshalJSON (cfg := one_minute) 0 (with_Registry (Some registry0) varz0.1) varz0.2
    = Returns (doc, x') /\
    urls doc = 3 /\ droplets doc = 5 /\ doc_tags component doc = Some ∅.
Proof.
  assert (Hret : { p | Varz_MarshalJSON (cfg := one_minute) 0
                         (with_Registry (Some registry0) varz0.1) varz0.2 = Returns p }).
  { eexists. vm_compute. reflexivity. }
  destruct Hret as [[doc x'] Hret]. exists doc, x'. split; [exact Hret |].
  destruct (MarshalJSON_document (gm := recording_metrics) (cfg := one_minute) 0 _ x' _ doc Hret)
    as (r & a & Hr & _ & Hu & Hd & _ & _ & _ & _ & Htags).
  injection Hr as <-.
  split; [exact Hu |]. split; [exact Hd |].
  destruct (Htags component) as (rm & Hrm & Hdom & _).
  rewrite Hrm. f_equal. apply dom_empty_inv_L. rewrite Hdom. apply dom_empty_L.
Defined.

Lemma MarshalJSON_needs_registry_witness :
  (Varz_Registry varz0.1 = None \/ All varz0.1 = None) /\
  Varz_MarshalJSON (cfg := one_minute) 0 varz0.1 varz0.2 = Panics.
Proof.
  split; [left; reflexivity |].
  exact (proj1 (MarshalJSON_needs_registry (gm := recording_metrics) (cfg := one_minute) 0
                  varz0.1 varz0.2) (or_introl eq_refl)).
Defined.

Lemma captures_then_MarshalJSON_witness :
  well_formed (with_Registry (Some registry0) varz0.1) varz0.2 /\
  0 < TopAppsEntryLifetime_Seconds (StatsConfig := one_minute) /\
  exists x1 h1 doc x2 y,
    captures captures0 (with_Registry (Some registry0) varz0.1) varz0.2 = Returns (x1, h1) /\
    Varz_MarshalJSON (cfg := one_minute) 0 x1 h1 = Returns (doc, x2) /\
    all doc = Some y /\
    requests y = 2 /\ reported_bucket b5xx y = 1 /\ bad_requests doc = 1.
Proof.
  assert (Hwf : well_formed (with_Registry (Some registry0) varz0.1) varz0.2).
  { apply (varz_extras.well_formed_same_holders varz0.1); [reflexivity | by intros [] |].
    apply varz_facts.NewVarz_well_formed. }
  split; [exact Hwf |]. split; [reflexivity |].
  assert (Hrange : Forall (fun z => int64_range (stats.Requests z))
            (stats.ranked_since (Registry_TopApps registry0) (0 + -1 * Minute))).
  { repeat constructor; discriminate. }
  assert (Hroom : headroom (Z.of_nat (length (events_for slot_All captures0)))
            (default (NewHttpMetric_cell (gm := recording_metrics))
               (cell_of (with_Registry (Some registry0) varz0.1) varz0.2 slot_All))).
  { split; [split; discriminate |]. intros k. destruct k; split; discriminate. }
  destruct (captures_then_MarshalJSON (gm := recording_metrics) (cfg := one_minute)
              captures0 0 (with_Registry (Some registry0) varz0.1) varz0.2 registry0
              ltac:(intros ps hist; apply length_fmap) Hwf eq_refl eq_refl Hrange Hroom
              ltac:(discriminate) ltac:(discriminate))
    as (x1 & h1 & doc & x2 & c & y & Hrun & Hret & Hcell & Hall & Hreq & Hbucket & Hbad).
  exists x1, h1, doc, x2, y.
  split; [exact Hrun |]. split; [exact Hret |]. split; [exact Hall |].
  injection Hcell as <-.
  split; [rewrite Hreq; reflexivity |].
  split; [rewrite (Hbucket b5xx); reflexivity | rewrite Hbad; reflexivity].
Defined.

End serialize_extras.

(** ** Goroutines *)

Module locking_extras.
Import router.

Section Facts.
Context {gm : GoMetrics} {cfg : StatsConfig}.

(** A locked mutex has a holder: no goroutine that has finished, by
    returning or by panicking, leaves the mutex locked. *)
Lemma mutex_has_holder (init : machine) (tr : list machine) (m : machine) :
  initial init -> execution init tr m -> mutex m = true -> exists i, holding m i.
Proof.
  intros [Hfree _] Hexec. induction Hexec as [| tr m m' Hexec IH Hstep].
  - intros Hmu. congruence.
  - inversion Hstep as [i c m1 Hi Hmu | i c s rest b b' x' h' m1 Hi Hs
                       | i c s rest b x' h' m1 Hi Hs | i c b m1 Hi]; subst; simpl;
      try discriminate.
    + intros _. exists i. eexists _, _, _. simpl. apply lookup_insert_eq.
    + intros _. exists i. eexists _, _, _. simpl. apply lookup_insert_eq.
Qed.

(** X17.  No deadlock.  In every state of every execution a locked mutex
    has a goroutine inside a body, and as long as some goroutine has not
    finished its call some goroutine can take a step: the holder of the mutex
    can always go on, a panic included, and when the mutex is free a waiting
    goroutine can take it. *)
Theorem some_goroutine_can_step (init : machine) (tr : list machine) (m : machine) :
  initial init ->
  execution init tr m ->
  (mutex m = true -> exists i, holding m i) /\
  (unfinished m -> exists m', step m m').
Proof.
  intros Hinit Hexec.
  pose proof (mutex_has_holder init tr m Hinit Hexec) as Hholder.
  split; [exact Hholder |].
  intros (i & t & Hi & Hnot).
  destruct (mutex m) eqn:Hmu.
  - destruct (Hholder eq_refl) as (j & c & rest & b & Hj).
    destruct rest as [| s rest].
    + eexists. exact (step_Unlock j c b m Hj).
    + destruct (s (varz m, cells m, b)) as [[[x' h'] b'] | x' h'] eqn:Hs.
      * eexists. exact (step_stmt j c s rest b b' x' h' m Hj Hs).
      * eexists. exact (step_panic j c s rest b x' h' m Hj Hs).
  - destruct (locking_facts.lock_invariant_execution init tr m Hinit Hexec) as (Hnone & _).
    destruct t as [c | c rest b | c r].
    + eexists. exact (step_Lock i c m Hi Hmu).
    + destruct (Hnone Hmu i). by exists c, rest, b.
    + by destruct (Hnot c r).
Qed.

Lemma remaining_replace (ts : gmap nat thread) (i : nat) (t t' : thread) :
  ts !! i = Some t ->
  (remaining (<[i := t']> ts) + weight t = remaining ts + weight t')%nat.
Proof.
  intros Hi. unfold remaining.
  rewrite (map_fold_delete_L _ _ i t ts); [| intros; lia | exact Hi].
  rewrite <- (insert_delete_eq ts).
  rewrite map_fold_insert_L; [lia | intros; lia | apply lookup_delete_eq].
Qed.

Lemma step_uses_up (m m' : machine) :
  step m m' -> (remaining (threads m') < remaining (threads m))%nat.
Proof.
  intros Hstep.
  inversion Hstep as [i c m1 Hi Hmu | i c s rest b b' x' h' m1 Hi Hs
                     | i c s rest b x' h' m1 Hi Hs | i c b m1 Hi]; subst; simpl.
  - pose proof (remaining_replace _ i _ (Holding c (body c) None) Hi) as E.
    simpl in E. lia.
  - pose proof (remaining_replace _ i _ (Holding c rest b') Hi) as E. simpl in E. lia.
  - pose proof (remaining_replace _ i _ (Finished c None) Hi) as E. simpl in E. lia.
  - pose proof (remaining_replace _ i _ (Finished c (Some b)) Hi) as E. simpl in E. lia.
Qed.

Lemma remaining_initial (ts : gmap nat thread) :
  (forall i t, ts !! i = Some t -> exists c, t = Waiting c) ->
  (remaining ts <= 7 * size ts)%nat.
Proof.
  induction ts as [| i t ts Hi _ IH] using map_first_key_ind.
  - intros _. unfold remaining. rewrite map_fold_empty, map_size_empty. lia.
  - intros Hall. unfold remaining in *.
    rewrite map_fold_insert_L; [| intros; lia | exact Hi].
    rewrite map_size_insert_None by exact Hi.
    assert (IH' : (map_fold (fun _ t acc => weight t + acc) 0 ts <= 7 * size ts)%nat).
    { apply IH. intros j u Hj. apply (Hall j).
      rewrite lookup_insert_ne; [exact Hj | congruence]. }
    destruct (Hall i t ltac:(apply lookup_insert_eq)) as [c ->].
    assert (Hw : (weight (Waiting c) <= 7)%nat) by (destruct c; simpl; lia).
    lia.
Qed.

(** X18.  Every call ends.  A goroutine takes the mutex, runs at most five
    statements and gives the mutex up: an execution of [n] goroutines has at
    most [7 * n] steps, whatever the schedule, and each step uses up one of
    the steps that remain. *)
Theorem executions_are_bounded (init : machine) (tr : list machine) (m : machine) :
  initial init ->
  execution init tr m ->
  (length tr + remaining (threads m) <= 1 + remaining (threads init))%nat /\
  (length tr <= 1 + 7 * size (threads init))%nat /\
  size (threads m) = size (threads init).
Proof.
  intros [_ Hwait] Hexec.
  assert (H : (length tr + remaining (threads m) <= 1 + remaining (threads init))%nat /\
              size (threads m) = size (threads init)).
  { induction Hexec as [| tr m m' Hexec [IH1 IH2] Hstep].
    - simpl. split; [lia | reflexivity].
    - pose proof (step_uses_up m m' Hstep) as Hlt. split; [simpl; lia |].
      rewrite <- IH2.
      inversion Hstep as [i c m1 Hi Hmu | i c s rest b b' x' h' m1 Hi Hs
                         | i c s rest b x' h' m1 Hi Hs | i c b m1 Hi]; subst; simpl;
        apply map_size_insert_Some; eauto. }
  destruct H as [H1 H2]. split; [exact H1 |]. split; [| exact H2].
  pose proof (remaining_initial (threads init) Hwait). lia.
Qed.

Lemma run_calls_snoc (cs : list call) (c : call) (x : Varz) (h : gmap loc HttpMetric) :
  run_calls (cs ++ [c]) x h =
  do xh <- run_calls cs x h;
  do fr <- run (body c) (xh.1, xh.2, None); Returns (fr.1.1, fr.1.2).
Proof.
  revert x h. induction cs as [| c0 cs IH]; intros x h.
  - cbn [run_calls app outcome_bind fst snd].
    destruct (run (body c) (x, h, None)) as [[[x1 h1] b1]|]; reflexivity.
  - cbn [run_calls app].
    destruct (run (body c0) (x, h, None)) as [[[x1 h1] b1]|]; cbn [outcome_bind];
      [apply IH | reflexivity].
Qed.

Lemma returned_calls_other (ts : gmap nat thread) (log : list (nat * call)) (i : nat)
    (t t' : thread) :
  returned_calls ts log ->
  ts !! i = Some t ->
  (forall c b, t <> Finished c (Some b)) ->
  (forall c b, t' <> Finished c (Some b)) ->
  returned_calls (<[i := t']> ts) log.
Proof.
  intros [Hnd Hlog] Hi Ht Ht'. split; [exact Hnd |].
  intros k c. rewrite Hlog. split; intros [b Hk]; exists b.
  - rewrite lookup_insert_ne; [exact Hk |]. intros <-. rewrite Hi in Hk.
    injection Hk as ->. by destruct (Ht c b).
  - apply lookup_insert_Some in Hk as [[_ ->] | [_ Hk]]; [by destruct (Ht' c b) | exact Hk].
Qed.

Lemma returned_calls_Unlock (ts : gmap nat thread) (log : list (nat * call)) (i : nat)
    (t : thread) (c : call) (b : option varz_json) :
  returned_calls ts log ->
  ts !! i = Some t ->
  (forall c' b', t <> Finished c' (Some b')) ->
  returned_calls (<[i := Finished c (Some b)]> ts) (log ++ [(i, c)]).
Proof.
  intros [Hnd Hlog] Hi Ht.
  assert (Hnew : i ∉ log.*1).
  { intros Hin. apply list_elem_of_fmap in Hin as ([k c'] & -> & Hin). simpl in *.
    apply Hlog in Hin as [b' Hk]. rewrite Hi in Hk. injection Hk as ->.
    by destruct (Ht c' b'). }
  split.
  - rewrite fmap_app. apply NoDup_app. split; [exact Hnd |].
    split; [| apply NoDup_singleton].
    intros k Hk Hk'. apply list_elem_of_singleton in Hk'. simpl in Hk'. by subst k.
  - intros k c'. rewrite elem_of_app, list_elem_of_singleton, Hlog. split.
    + intros [[b' Hk] | [= -> ->]].
      * exists b'. rewrite lookup_insert_ne; [exact Hk |]. intros <-.
        rewrite Hi in Hk. injection Hk as ->. by destruct (Ht c' b').
      * exists b. apply lookup_insert_eq.
    + intros [b' Hk].
      apply lookup_insert_Some in Hk as [[<- [= <- <-]] | [_ Hk]]; [by right | left; eauto].
Qed.

Lemma no_panic_before (ts : gmap nat thread) (i : nat) (t t' : thread) :
  ts !! i = Some t ->
  (forall c, t <> Finished c None) ->
  no_panic (<[i := t']> ts) ->
  no_panic ts.
Proof.
  intros Hi Ht Hnp k c Hk. destruct (decide (k = i)) as [-> |].
  - rewrite Hi in Hk. injection Hk as ->. by destruct (Ht c).
  - apply (Hnp k c). by rewrite lookup_insert_ne.
Qed.

(** With no panic so far, the aggregator is what the calls that returned
    make of the initial aggregator, run one after another in the order in
    which they gave up the mutex; the goroutine inside a body, if any, stands
    where its body, run alone after them, would stand. *)
Lemma linearized (init : machine) (tr : list machine) (m : machine) :
  initial init ->
  execution init tr m ->
  no_panic (threads m) ->
  exists log x0 h0,
    returned_calls (threads m) log /\
    run_calls log.*2 (varz init) (cells init) = Returns (x0, h0) /\
    ((forall i, ~ holding m i) -> varz m = x0 /\ cells m = h0) /\
    (forall j c rest b,
        threads m !! j = Some (Holding c rest b) ->
        run rest (varz m, cells m, b) = run (body c) (x0, h0, None)).
Proof.
  intros Hinit Hexec. induction Hexec as [| tr m m' Hexec IH Hstep].
  - intros _. exists [], (varz init), (cells init).
    destruct Hinit as [_ Hwait].
    split.
    { split; [constructor |]. intros i c. split; [intros Hin; inversion Hin |].
      intros [b Hi]. destruct (Hwait _ _ Hi) as [c' Hc']. discriminate. }
    split; [reflexivity |]. split; [done |].
    intros j c rest b Hj. destruct (Hwait _ _ Hj) as [c' Hc']. discriminate.
  - destruct (locking_facts.lock_invariant_execution init tr m Hinit Hexec)
      as (Hfree & Hone & _ & _).
    inversion Hstep as [i c m1 Hi Hmu | i c s rest b b' x' h' m1 Hi Hs
                       | i c s rest b x' h' m1 Hi Hs | i c b m1 Hi]; subst; simpl.
    + (* Lock *)
      intros Hnp.
      destruct (IH (no_panic_before _ i _ _ Hi ltac:(discriminate) Hnp))
        as (log & x0 & h0 & Hlog & Hrun & Hquiet & Hin).
      destruct (Hquiet (Hfree Hmu)) as [Hx Hh].
      exists log, x0, h0.
      split; [by apply (returned_calls_other _ _ i (Waiting c)) |].
      split; [exact Hrun |]. split.
      * intros Hq. destruct (Hq i). eexists _, _, _. simpl. apply lookup_insert_eq.
      * intros j c' rest b Hj.
        apply lookup_insert_Some in Hj as [[<- [= <- <- <-]] | [_ Hj]].
        -- by rewrite Hx, Hh.
        -- destruct (Hfree Hmu j). by exists c', rest, b.
    + (* a statement *)
      intros Hnp.
      destruct (IH (no_panic_before _ i _ _ Hi ltac:(discriminate) Hnp))
        as (log & x0 & h0 & Hlog & Hrun & Hquiet & Hin).
      assert (Hi' : holding m i) by (by exists c, (s :: rest), b).
      exists log, x0, h0.
      split; [by apply (returned_calls_other _ _ i (Holding c (s :: rest) b)) |].
      split; [exact Hrun |]. split.
      * intros Hq. destruct (Hq i). eexists _, _, _. simpl. apply lookup_insert_eq.
      * intros j c' rest' b0 Hj.
        apply lookup_insert_Some in Hj as [[<- [= <- <- <-]] | [Hne Hj]].
        -- rewrite <- (Hin i c (s :: rest) b Hi). cbn [run]. by rewrite Hs.
        -- destruct Hne. apply Hone; [exact Hi' | by exists c', rest', b0].
    + (* a panic *)
      intros Hnp. destruct (Hnp i c). apply lookup_insert_eq.
    + (* Unlock *)
      intros Hnp.
      destruct (IH (no_panic_before _ i _ _ Hi ltac:(discriminate) Hnp))
        as (log & x0 & h0 & Hlog & Hrun & Hquiet & Hin).
      assert (Hi' : holding m i) by (by exists c, [], b).
      pose proof (Hin i c [] b Hi) as Hbody. cbn [run] in Hbody.
      exists (log ++ [(i, c)]), (varz m), (cells m).
      split; [by apply (returned_calls_Unlock _ _ i (Holding c [] b)) |].
      split.
      * rewrite fmap_app. simpl. rewrite run_calls_snoc, Hrun. cbn [outcome_bind].
        simpl. by rewrite <- Hbody.
      * split; [done |].
        intros j c' rest' b0 Hj.
        apply lookup_insert_Some in Hj as [[_ [=]] | [Hne Hj]].
        destruct Hne. apply Hone; [exact Hi' | by exists c', rest', b0].
Qed.

(** X19.  Calls take effect one at a time.  In every execution in which
    no call has panicked, whenever the mutex is free the aggregator and its
    cells are exactly what the calls that have returned make of the initial
    aggregator when their bodies are run one after another, each alone, in
    some order in which every goroutine that returned stands once (the
    order in which they gave up the mutex). *)
Theorem interleaving_is_serial (init : machine) (tr : list machine) (m : machine) :
  initial init ->
  execution init tr m ->
  no_panic (threads m) ->
  (forall i, ~ holding m i) ->
  exists log,
    returned_calls (threads m) log /\
    run_calls log.*2 (varz init) (cells init) = Returns (varz m, cells m).
Proof.
  intros Hinit Hexec Hnp Hq.
  destruct (linearized init tr m Hinit Hexec Hnp) as (log & x0 & h0 & Hlog & Hrun & Hquiet & _).
  destruct (Hquiet Hq) as [<- <-]. by exists log.
Qed.

Lemma events_for_app (s : slot) (es1 es2 : list capture) :
  events_for s (es1 ++ es2) = events_for s es1 ++ events_for s es2.
Proof. unfold events_for. apply omap_app. Qed.

(** The body of one call, run alone on a well-formed aggregator. *)
Lemma call_cells (c : call) (x x' : Varz) (h h' : gmap loc HttpMetric)
    (b : option varz_json) :
  well_formed x h ->
  run (body c) (x, h, None) = Returns (x', h', b) ->
  well_formed x' h' /\
  forall s, cell_of x' h' s = foldl slot_step (cell_of x h s) (events_for s (call_captures c)).
Proof.
  intros Hwf. destruct c as [| bk | bk res d | now].
  - rewrite locking_facts.run_body_CaptureBadRequest. simpl. intros [= <- <- _].
    split; [apply (varz_extras.well_formed_same_holders x); [done | by intros [] | exact Hwf] |].
    intros s. unfold cell_of. by destruct s as [| [] t].
  - rewrite locking_facts.run_body_CaptureBackendRequest.
    destruct (varz_extras.capture_call_cells (BackendRequest bk) x h Hwf)
      as (x1 & h1 & Hcall & Hwf1 & E).
    simpl in Hcall. rewrite Hcall. simpl. intros [= <- <- _]. by split.
  - rewrite locking_facts.run_body_CaptureBackendResponse.
    destruct (varz_extras.capture_call_cells (BackendResponse bk res d) x h Hwf)
      as (x1 & h1 & Hcall & Hwf1 & E).
    simpl in Hcall. rewrite Hcall. simpl. intros [= <- <- _]. by split.
  - rewrite locking_facts.run_body_MarshalJSON.
    destruct (Varz_MarshalJSON now x h) as [[doc x1]|] eqn:Hm; simpl; [| discriminate].
    intros [= <- <- _].
    destruct (serialize_extras.Varz_MarshalJSON_steps _ _ _ _ _ Hm)
      as (r & a & tops & _ & _ & _ & -> & _).
    split; [apply (varz_extras.well_formed_same_holders x); [done | by intros [] | exact Hwf] |].
    intros s. unfold cell_of. by destruct s as [| [] t].
Qed.

Lemma run_calls_cells (cs : list call) (x x' : Varz) (h h' : gmap loc HttpMetric) :
  well_formed x h ->
  run_calls cs x h = Returns (x', h') ->
  well_formed x' h' /\
  forall s, cell_of x' h' s
            = foldl slot_step (cell_of x h s) (events_for s (concat (call_captures <$> cs))).
Proof.
  revert x h. induction cs as [| c cs IH]; intros x h Hwf.
  - intros [= <- <-]. by split.
  - cbn [run_calls].
    destruct (run (body c) (x, h, None)) as [[[x1 h1] b1]|] eqn:Hbody; cbn [outcome_bind];
      [| discriminate].
    simpl fst. simpl snd. intros Hrun.
    destruct (call_cells c x x1 h h1 b1 Hwf Hbody) as (Hwf1 & E1).
    destruct (IH x1 h1 Hwf1 Hrun) as (Hwf' & E).
    split; [exact Hwf' |]. intros s.
    rewrite (E s), (E1 s). cbn [fmap list_fmap concat].
    by rewrite events_for_app, foldl_app.
Qed.

Lemma headroom_less (n n' : Z) (c : HttpMetric) :
  0 <= n' <= n -> headroom n c -> headroom n' c.
Proof.
  intros Hn [[Hr1 Hr2] Hk]. split; [lia |]. intros k. destruct (Hk k). lia.
Qed.

Lemma default_slot_steps (o : option HttpMetric) (evs : list cell_event) :
  default NewHttpMetric_cell (foldl slot_step o evs)
  = foldl (fun c e => cell_step e c) (default NewHttpMetric_cell o) evs.
Proof.
  revert o. induction evs as [| e evs IH]; intros o; [reflexivity |].
  cbn [foldl]. rewrite IH. reflexivity.
Qed.

(** A call makes at most one call on the cell of a slot. *)
Lemma events_for_calls_length (s : slot) (cs : list call) :
  (length (events_for s (concat (call_captures <$> cs))) <= length cs)%nat.
Proof.
  induction cs as [| c cs IH]; [simpl; lia |].
  cbn [fmap list_fmap concat]. rewrite events_for_app, length_app. simpl length.
  assert (length (events_for s (call_captures c)) <= 1)%nat; [| lia].
  destruct c as [| bk | bk res d | now]; simpl; try lia; destruct (reached bk s); simpl; lia.
Qed.

Lemma returned_calls_length (ts : gmap nat thread) (log : list (nat * call)) :
  returned_calls ts log -> (length log <= size ts)%nat.
Proof.
  intros [Hnd Hlog].
  rewrite <- (length_fmap fst log), <- (length_map_to_list ts),
    <- (length_fmap fst (map_to_list ts)).
  apply submseteq_length, NoDup_submseteq; [exact Hnd |].
  intros i Hi. apply list_elem_of_fmap in Hi as ([j c] & -> & Hin).
  apply Hlog in Hin as [b Hb].
  apply list_elem_of_fmap. exists (j, Finished c (Some b)). split; [reflexivity |].
  by apply elem_of_map_to_list.
Qed.

(** No step starts or ends a goroutine. *)
Lemma execution_goroutines (init : machine) (tr : list machine) (m : machine) :
  execution init tr m -> size (threads m) = size (threads init).
Proof.
  induction 1 as [| tr m m' _ IH Hstep]; [reflexivity |].
  rewrite <- IH. destruct Hstep; simpl; apply map_size_insert_Some; eauto.
Qed.

(** X20.  No capture is lost between goroutines.  Start from a well-formed
    aggregator in which the counters of the cell of slot [s] have room for
    one call of every goroutine.  In every execution in which no call has
    panicked, whenever the mutex is free the aggregator is well formed and
    the cell of [s] is what the captures of the calls that returned make of
    it, each goroutine that returned counted once: its request counter has
    grown by the number of returned backend requests that reach [s] and each
    bucket counter by the number of returned responses of that bucket,
    whatever the interleaving (counting from a new cell where the slot held
    none). *)
Theorem no_capture_lost_between_goroutines (init : machine) (tr : list machine) (m : machine)
    (s : slot) :
  initial init ->
  well_formed (varz init) (cells init) ->
  headroom (Z.of_nat (size (threads init)))
           (default NewHttpMetric_cell (cell_of (varz init) (cells init) s)) ->
  execution init tr m ->
  no_panic (threads m) ->
  (forall i, ~ holding m i) ->
  exists log,
    returned_calls (threads m) log /\
    well_formed (varz m) (cells m) /\
    cell_of (varz m) (cells m) s
    = foldl slot_step (cell_of (varz init) (cells init) s)
        (events_for s (concat (call_captures <$> log.*2))) /\
    Count (Requests (default NewHttpMetric_cell (cell_of (varz m) (cells m) s)))
    = Count (Requests (default NewHttpMetric_cell (cell_of (varz init) (cells init) s)))
      + requests_in (events_for s (concat (call_captures <$> log.*2))) /\
    forall k,
      bucket_count k (default NewHttpMetric_cell (cell_of (varz m) (cells m) s))
      = bucket_count k (default NewHttpMetric_cell (cell_of (varz init) (cells init) s))
        + responses_in k (events_for s (concat (call_captures <$> log.*2))).
Proof.
  intros Hinit Hwf Hroom Hexec Hnp Hq.
  destruct (linearized init tr m Hinit Hexec Hnp) as (log & x0 & h0 & Hlog & Hrun & Hquiet & _).
  destruct (Hquiet Hq) as [<- <-].
  destruct (run_calls_cells _ _ _ _ _ Hwf Hrun) as (Hwf' & E).
  exists log. split; [exact Hlog |]. split; [exact Hwf' |]. split; [exact (E s) |].
  rewrite (E s), default_slot_steps.
  apply varz_extras.cell_steps_count.
  apply (headroom_less (Z.of_nat (size (threads init)))); [| exact Hroom].
  pose proof (events_for_calls_length s log.*2) as Hlen.
  pose proof (returned_calls_length _ _ Hlog) as Hsize.
  rewrite (execution_goroutines init tr m Hexec) in Hsize.
  rewrite length_fmap in Hlen. lia.
Qed.

End Facts.

Lemma some_goroutine_can_step_witness :
  initial machine0 /\
  execution (cfg := one_minute) machine0 [machine0] machine0 /\
  unfinished machine0 /\
  exists m', step (cfg := one_minute) machine0 m'.
Proof.
  pose proof locking_facts.machine0_initial as Hinit.
  pose proof (execution_start (cfg := one_minute) machine0) as Hexec.
  assert (Hun : unfinished machine0).
  { exists 0%nat, (Waiting (call_MarshalJSON 0)). split; [reflexivity | discriminate]. }
  split; [exact Hinit |]. split; [exact Hexec |]. split; [exact Hun |].
  exact (proj2 (some_goroutine_can_step (cfg := one_minute) machine0 _ _ Hinit Hexec) Hun).
Defined.

Lemma executions_are_bounded_witness :
  initial machine0 /\
  execution (cfg := one_minute) machine0
    (schedule (cfg := one_minute) schedule0 [machine0] machine0).1
    (schedule (cfg := one_minute) schedule0 [machine0] machine0).2 /\
  (length (schedule (cfg := one_minute) schedule0 [machine0] machine0).1 <= 15)%nat.
Proof.
  pose proof locking_facts.machine0_initial as Hinit.
  pose proof (locking_facts.schedule_is_execution (cfg := one_minute) machine0 schedule0
                [machine0] machine0 (execution_start machine0)) as Hexec.
  split; [exact Hinit |]. split; [exact Hexec |].
  exact (proj1 (proj2 (executions_are_bounded (cfg := one_minute) machine0 _ _ Hinit Hexec))).
Defined.

(** Under [schedule0] both goroutines of [machine0] return. *)
Lemma schedule0_returns :
  exists d,
    threads (schedule (cfg := one_minute) schedule0 [machine0] machine0).2
    = {[ 0%nat := Finished (call_MarshalJSON 0) (Some (Some d));
         1%nat := Finished (call_CaptureBackendRequest backend0) (Some None) ]}.
Proof. eexists. vm_compute. reflexivity. Qed.

Lemma schedule0_quiet :
  no_panic (threads (schedule (cfg := one_minute) schedule0 [machine0] machine0).2) /\
  forall i, ~ holding (schedule (cfg := one_minute) schedule0 [machine0] machine0).2 i.
Proof.
  destruct schedule0_returns as [d Hts]. split.
  - intros i c. rewrite Hts. intros Hi.
    apply lookup_insert_Some in Hi as [[_ [=]] | [_ Hi]].
    apply lookup_singleton_Some in Hi as [_ [=]].
  - intros i (c & rest & b & Hi). rewrite Hts in Hi.
    apply lookup_insert_Some in Hi as [[_ [=]] | [_ Hi]].
    apply lookup_singleton_Some in Hi as [_ [=]].
Qed.

Lemma interleaving_is_serial_witness :
  initial machine0 /\
  execution (cfg := one_minute) machine0
    (schedule (cfg := one_minute) schedule0 [machine0] machine0).1
    (schedule (cfg := one_minute) schedule0 [machine0] machine0).2 /\
  no_panic (threads (schedule (cfg := one_minute) schedule0 [machine0] machine0).2) /\
  (forall i, ~ holding (schedule (cfg := one_minute) schedule0 [machine0] machine0).2 i) /\
  exists log,
    returned_calls (threads (schedule (cfg := one_minute) schedule0 [machine0] machine0).2) log /\
    run_calls (cfg := one_minute) log.*2 (varz machine0) (cells machine0)
    = Returns (varz (schedule (cfg := one_minute) schedule0 [machine0] machine0).2,
               cells (schedule (cfg := one_minute) schedule0 [machine0] machine0).2).
Proof.
  pose proof locking_facts.machine0_initial as Hinit.
  pose proof (locking_facts.schedule_is_execution (cfg := one_minute) machine0 schedule0
                [machine0] machine0 (execution_start machine0)) as Hexec.
  destruct schedule0_quiet as [Hnp Hq].
  split; [exact Hinit |]. split; [exact Hexec |]. split; [exact Hnp |]. split; [exact Hq |].
  exact (interleaving_is_serial (cfg := one_minute) machine0 _ _ Hinit Hexec Hnp Hq).
Defined.

Lemma no_capture_lost_between_goroutines_witness :
  initial machine0 /\
  well_formed (varz machine0) (cells machine0) /\
  headroom (Z.of_nat (size (threads machine0)))
           (default NewHttpMetric_cell
              (cell_of (varz machine0) (cells machine0) (slot_tag runtime "ruby19"))) /\
  execution (cfg := one_minute) machine0
    (schedule (cfg := one_minute) schedule0 [machine0] machine0).1
    (schedule (cfg := one_minute) schedule0 [machine0] machine0).2 /\
  no_panic (threads (schedule (cfg := one_minute) schedule0 [machine0] machine0).2) /\
  (forall i, ~ holding (schedule (cfg := one_minute) schedule0 [machine0] machine0).2 i) /\
  exists log,
    returned_calls (threads (schedule (cfg := one_minute) schedule0 [machine0] machine0).2) log /\
    Count (Requests (default NewHttpMetric_cell
                       (cell_of (varz (schedule (cfg := one_minute) schedule0
                                         [machine0] machine0).2)
                                (cells (schedule (cfg := one_minute) schedule0
                                          [machine0] machine0).2)
                                (slot_tag runtime "ruby19"))))
    = 0 + requests_in (events_for (slot_tag runtime "ruby19")
                         (concat (call_captures <$> log.*2))).
Proof.
  pose proof locking_facts.machine0_initial as Hinit.
  pose proof (locking_facts.schedule_is_execution (cfg := one_minute) machine0 schedule0
                [machine0] machine0 (execution_start machine0)) as Hexec.
  destruct schedule0_quiet as [Hnp Hq].
  assert (Hwf : well_formed (varz machine0) (cells machine0)).
  { apply (varz_extras.well_formed_same_holders varz0.1);
      [reflexivity | by intros [] | apply varz_facts.NewVarz_well_formed]. }
  assert (Hroom : headroom (Z.of_nat (size (threads machine0)))
                    (default NewHttpMetric_cell
                       (cell_of (varz machine0) (cells machine0) (slot_tag runtime "ruby19")))).
  { split; [split; [discriminate | discriminate] |].
    intros k. destruct k; split; discriminate. }
  split; [exact Hinit |]. split; [exact Hwf |]. split; [exact Hroom |].
  split; [exact Hexec |]. split; [exact Hnp |]. split; [exact Hq |].
  destruct (no_capture_lost_between_goroutines (cfg := one_minute) machine0 _ _
              (slot_tag runtime "ruby19") Hinit Hwf Hroom Hexec Hnp Hq)
    as (log & Hlog & _ & _ & Hreq & _).
  exists log. split; [exact Hlog | exact Hreq].
Defined.

End locking_extras.
